(** * run_docker.py: the per-case container orchestrator

    A shallow embedding of [src/run_docker.py] and the properties of its
    log sink, case enumeration, execution monitor, launch-failure path and
    output collector.

    Python values are embedded as follows.
    - [str] is a list of Unicode code points ([pystr]); slicing and
      concatenation work on code points, as in Python.
    - [bytes] is a [list byte].
    - The attributes of the [args] namespace are a finite map from
      attribute names to dynamically typed values ([pyval]); reading a
      missing attribute raises [AttributeError].
    - Effects (working directory, container runtime, clock, storage
      service, standard output) are threaded through a state-and-exception
      monad over a [World]; every call to a collaborator is appended to the
      world's trace. *)

From Stdlib Require Import ZArith QArith List String Ascii Strings.Byte Bool Lia DecimalString.
From stdpp Require Import base option list gmap strings.

Local Open Scope Z_scope.

(** ** Python strings and values *)

Module Py.

(** A Python [str]: its code points, in order. *)
Abbreviation pystr := (list Z).

(** The code points of an ASCII literal. *)
Definition lit (s : string) : pystr :=
  map (fun a => Z.of_N (N_of_ascii a)) (list_ascii_of_string s).

Definition newline : pystr := [10].

(** Values the [args] namespace can hold. *)
Inductive pyval :=
| PyNone
| PyBool (b : bool)
| PyInt (n : Z)
| PyStr (s : pystr).

(** The exceptions the program can meet.  [NotFound] is a subclass of
    [APIError] in the Docker SDK; all of them derive from [Exception]. *)
Inductive exn :=
| Exception (msg : pystr)
| AttributeError (attr : string)
| UnboundLocalError (var : string)
| TypeError
| UnicodeDecodeError
| APIError (msg : pystr)
| NotFound (msg : pystr)
| SynapseHTTPError (msg : pystr)
| FileExistsError (path : pystr)
| FileNotFoundError (path : pystr)
| IsADirectoryError (path : pystr)
| NotADirectoryError (path : pystr).

(** [isinstance(e, docker.errors.APIError)]. *)
Definition is_api_error (e : exn) : bool :=
  match e with
  | APIError _ | NotFound _ => true
  | _ => false
  end.

(** [str(err)] for the exceptions whose text the program prints. *)
Definition exn_text (e : exn) : pystr :=
  match e with
  | Exception m | APIError m | NotFound m | SynapseHTTPError m => m
  | FileExistsError p | FileNotFoundError p
  | IsADirectoryError p | NotADirectoryError p => p
  | AttributeError a | UnboundLocalError a => lit a
  | TypeError => lit "TypeError"
  | UnicodeDecodeError => lit "UnicodeDecodeError"
  end.

(** [str(n)] for an [int]. *)
Definition str_of_int (n : Z) : pystr :=
  lit (NilZero.string_of_int (Z.to_int n)).

(** [str(v)], as used by f-string interpolation. *)
Definition py_str (v : pyval) : pystr :=
  match v with
  | PyNone => lit "None"
  | PyBool true => lit "True"
  | PyBool false => lit "False"
  | PyInt n => str_of_int n
  | PyStr s => s
  end.

(** Truthiness, as used by [not v]. *)
Definition py_truthy (v : pyval) : bool :=
  match v with
  | PyNone => false
  | PyBool b => b
  | PyInt n => negb (n =? 0)
  | PyStr s => negb (Nat.eqb (length s) 0)
  end.

(** [v == "..."] against a string literal. *)
Definition py_eq_str (v : pyval) (s : pystr) : bool :=
  match v with
  | PyStr t => bool_decide (t = s)
  | _ => false
  end.

(** [a + b] where one operand is known to be a [str]: concatenation,
    and [TypeError] unless the other operand is a [str] too. *)
Definition py_concat (a b : pyval) : exn + pystr :=
  match a, b with
  | PyStr s, PyStr t => inr (s ++ t)
  | _, _ => inl TypeError
  end.

(** [t > v] for a numeric [t].  [bool] is a subclass of [int]; ordering
    a number against [None] or a [str] raises [TypeError]. *)
Definition py_gt (t : Z) (v : pyval) : exn + bool :=
  match v with
  | PyInt n => inr (n <? t)
  | PyBool b => inr ((if b then 1 else 0) <? t)
  | PyNone | PyStr _ => inl TypeError
  end.

(** [s[-n:]]: the last [n] code points, the whole string when shorter. *)
Definition last_chars (n : nat) (s : pystr) : pystr :=
  drop (length s - n)%nat s.

(** [s.startswith(p)] and [s.endswith(p)]. *)
Fixpoint startswith (p s : pystr) : bool :=
  match p, s with
  | [], _ => true
  | a :: p', b :: s' => (a =? b) && startswith p' s'
  | _ :: _, [] => false
  end.

Definition endswith (p s : pystr) : bool :=
  startswith (rev p) (rev s).

(** [s.split(sep)] for a one-character separator. *)
Fixpoint split_on (sep : Z) (s : pystr) : list pystr :=
  match s with
  | [] => [[]]
  | c :: s' =>
      if c =? sep then [] :: split_on sep s'
      else match split_on sep s' with
           | w :: ws => (c :: w) :: ws
           | [] => [[c]]
           end
  end.

(** [os.path.join(a, b)] on POSIX. *)
Definition path_join (a b : pystr) : pystr :=
  if startswith (lit "/") b then b
  else if Nat.eqb (length a) 0 || endswith (lit "/") a then a ++ b
  else a ++ lit "/" ++ b.

End Py.
Export Py.

(** ** UTF-8 decoding and ASCII encoding *)

Module Codec.

Definition byte_val (b : byte) : Z := Z.of_N (Byte.to_N b).

(** A continuation byte, [0x80..0xBF]. *)
Definition is_cont (b : Z) : bool := (0x80 <=? b) && (b <=? 0xBF).

Definition in_range (lo hi b : Z) : bool := (lo <=? b) && (b <=? hi).

(** The second byte of a three-byte sequence: [E0] excludes overlong
    forms, [ED] excludes surrogates. *)
Definition second_of_3 (b0 b1 : Z) : bool :=
  if b0 =? 0xE0 then in_range 0xA0 0xBF b1
  else if b0 =? 0xED then in_range 0x80 0x9F b1
  else is_cont b1.

(** The second byte of a four-byte sequence: [F0] excludes overlong
    forms, [F4] excludes code points above [0x10FFFF]. *)
Definition second_of_4 (b0 b1 : Z) : bool :=
  if b0 =? 0xF0 then in_range 0x90 0xBF b1
  else if b0 =? 0xF4 then in_range 0x80 0x8F b1
  else is_cont b1.

Definition low6 (b : Z) : Z := Z.land b 0x3F.

(** [bytes.decode("utf-8")] with the default strict error handler:
    [None] stands for [UnicodeDecodeError]. *)
Fixpoint utf8_decode (bs : list byte) : option pystr :=
  match bs with
  | [] => Some []
  | c0 :: r0 =>
      let b0 := byte_val c0 in
      if b0 <? 0x80 then cons b0 <$> utf8_decode r0
      else if in_range 0xC2 0xDF b0 then
        match r0 with
        | c1 :: r1 =>
            let b1 := byte_val c1 in
            if is_cont b1 then
              cons (Z.lor (Z.shiftl (Z.land b0 0x1F) 6) (low6 b1))
                <$> utf8_decode r1
            else None
        | _ => None
        end
      else if in_range 0xE0 0xEF b0 then
        match r0 with
        | c1 :: c2 :: r2 =>
            let b1 := byte_val c1 in
            let b2 := byte_val c2 in
            if second_of_3 b0 b1 && is_cont b2 then
              cons (Z.lor (Z.shiftl (Z.land b0 0x0F) 12)
                      (Z.lor (Z.shiftl (low6 b1) 6) (low6 b2)))
                <$> utf8_decode r2
            else None
        | _ => None
        end
      else if in_range 0xF0 0xF4 b0 then
        match r0 with
        | c1 :: c2 :: c3 :: r3 =>
            let b1 := byte_val c1 in
            let b2 := byte_val c2 in
            let b3 := byte_val c3 in
            if second_of_4 b0 b1 && is_cont b2 && is_cont b3 then
              cons (Z.lor (Z.shiftl (Z.land b0 0x07) 18)
                      (Z.lor (Z.shiftl (low6 b1) 12)
                         (Z.lor (Z.shiftl (low6 b2) 6) (low6 b3))))
                <$> utf8_decode r3
            else None
        | _ => None
        end
      else None
  end.

Definition is_ascii (c : Z) : bool := (0 <=? c) && (c <? 0x80).

(** [s.encode("ascii", "ignore").decode("ascii")]: every code point
    outside ASCII is dropped. *)
Definition ascii_ignore (s : pystr) : pystr := filter (fun c => is_ascii c = true) s.

End Codec.
Export Codec.

(** ** The world the program runs in *)

Module Env.

(** File-system entries.  The content of a regular file is the text that
    was written to it; an archive records the mode it was opened with and
    what was added to it. *)
Inductive tar_mode :=
| TarPlain   (* mode "w": uncompressed *)
| TarGzip.   (* mode "w:gz" *)

#[warnings="-register-all"]
Inductive node :=
| File (content : pystr)
| Dir (entries : list (pystr * node))
| TarFile (mode : tar_mode) (members : list (pystr * node)).

(** What a launched instance does, as a function of the seconds elapsed
    since its launch. *)
Record behaviour := {
  b_exit_after : option Z;      (* exits on its own after this long *)
  b_output : Z -> list byte;    (* stdout+stderr, full history to date *)
  b_results : list pystr        (* files it deposits in the output mount *)
}.

Inductive cstate :=
| Created            (* registered but never started *)
| Started            (* started; running until it exits or is stopped *)
| Stopped (at_time : Z)
| Removed.

Record container := {
  c_name : pystr;
  c_launched : Z;
  c_behaviour : behaviour;
  c_state : cstate
}.

(** What the runtime answers to a [run] call. *)
Inductive run_outcome :=
| RunFails (err : pystr) (leftover : bool)  (* APIError; a created container may be left behind *)
| RunStarts (b : behaviour).

Inductive event :=
| EvPrint (text : pystr)
| EvLogin (config : pyval)
| EvRun (image name : pystr) (volumes : gmap pystr (pystr * pystr))
| EvCleanup (name : pystr)
| EvList
| EvLogs (cid : nat)
| EvStop (cid : nat)
| EvRemove (cid : nat)
| EvSleep (secs : Z)
| EvStore (filename : pystr) (parent : pyval) (content : pystr)
| EvRemoveImage (image : pystr)
| EvTar (directory tar_filename : pystr).

(** The fixed part of the environment: what the host and the remote
    services answer. *)
Record Host := {
  h_cwd_path : pystr;                  (* os.getcwd() *)
  h_input : pystr -> option node;      (* what a path of the input area resolves to *)
  h_user : pystr;                      (* getpass.getuser() *)
  h_login : option exn;                (* failure of config loading or registry login *)
  h_run : nat -> pystr -> run_outcome; (* answer to the k-th launch, by name *)
  h_store : nat -> option pystr;       (* error text of the k-th store call, if it fails *)
  h_rmi : option exn                   (* failure of the image removal *)
}.

Record World := {
  w_host : Host;
  w_cwd : gmap pystr node;             (* entries of the working directory *)
  w_clock : Z;                         (* time.time(), in seconds *)
  w_containers : list container;       (* the runtime's registry; a handle is an index *)
  w_launches : nat;                    (* run calls made so far *)
  w_stores : nat;                      (* store calls made so far *)
  w_trace : list event                 (* collaborator calls, oldest first *)
}.

Definition set_cwd (f : gmap pystr node -> gmap pystr node) (w : World) : World :=
  {| w_host := w_host w; w_cwd := f (w_cwd w); w_clock := w_clock w;
     w_containers := w_containers w; w_launches := w_launches w;
     w_stores := w_stores w; w_trace := w_trace w |}.

Definition set_clock (t : Z) (w : World) : World :=
  {| w_host := w_host w; w_cwd := w_cwd w; w_clock := t;
     w_containers := w_containers w; w_launches := w_launches w;
     w_stores := w_stores w; w_trace := w_trace w |}.

Definition set_containers (cs : list container) (w : World) : World :=
  {| w_host := w_host w; w_cwd := w_cwd w; w_clock := w_clock w;
     w_containers := cs; w_launches := w_launches w;
     w_stores := w_stores w; w_trace := w_trace w |}.

Definition set_launches (n : nat) (w : World) : World :=
  {| w_host := w_host w; w_cwd := w_cwd w; w_clock := w_clock w;
     w_containers := w_containers w; w_launches := n;
     w_stores := w_stores w; w_trace := w_trace w |}.

Definition set_stores (n : nat) (w : World) : World :=
  {| w_host := w_host w; w_cwd := w_cwd w; w_clock := w_clock w;
     w_containers := w_containers w; w_launches := w_launches w;
     w_stores := n; w_trace := w_trace w |}.

Definition add_event (e : event) (w : World) : World :=
  {| w_host := w_host w; w_cwd := w_cwd w; w_clock := w_clock w;
     w_containers := w_containers w; w_launches := w_launches w;
     w_stores := w_stores w; w_trace := w_trace w ++ [e] |}.

(** *** The state-and-exception monad *)

Inductive outcome (A : Type) :=
| Ok (a : A)
| Raise (e : exn)
| OutOfFuel.
Arguments Ok {A} a.
Arguments Raise {A} e.
Arguments OutOfFuel {A}.

Definition M (A : Type) : Type := World -> outcome A * World.

Definition ret {A} (a : A) : M A := fun w => (Ok a, w).
Definition raise {A} (e : exn) : M A := fun w => (Raise e, w).
Definition out_of_fuel {A} : M A := fun w => (OutOfFuel, w).

Definition bind {A B} (m : M A) (k : A -> M B) : M B :=
  fun w =>
    match m w with
    | (Ok a, w') => k a w'
    | (Raise e, w') => (Raise e, w')
    | (OutOfFuel, w') => (OutOfFuel, w')
    end.

Definition gets {A} (f : World -> A) : M A := fun w => (Ok (f w), w).
Definition modify (f : World -> World) : M unit := fun w => (Ok tt, f w).
Definition emit (e : event) : M unit := modify (add_event e).

(** [try: m  except <matching>: h]: exceptions selected by [sel] are
    handled by [h]; the effects [m] had before raising are kept. *)
Definition try_except {A} (m : M A) (sel : exn -> bool) (h : exn -> M A) : M A :=
  fun w =>
    match m w with
    | (Raise e, w') => if sel e then h e w' else (Raise e, w')
    | r => r
    end.

(** Lifting of a pure computation that may raise. *)
Definition lift {A} (r : exn + A) : M A :=
  match r with
  | inl e => raise e
  | inr a => ret a
  end.

End Env.
Export Env.

Declare Scope py_scope.
Delimit Scope py_scope with py.
Notation "x <- m ;; k" := (bind m (fun x => k))
  (at level 100, m at next level, right associativity) : py_scope.
Notation "m ;;; k" := (bind m (fun _ => k))
  (at level 100, right associativity) : py_scope.
Local Open Scope py_scope.

(** ** File-system primitives on the working directory *)

Module Fs.

(** [st_size].  A regular file holds ASCII text, one byte per character;
    the sizes of directories and archives are never read by the program
    and are given nominal values. *)
Definition node_size (n : node) : Z :=
  match n with
  | File c => Z.of_nat (length c)
  | Dir _ => 4096
  | TarFile _ _ => 10240
  end.

(** [open(name, 'w')]: the file is created, or truncated when it exists. *)
Definition open_w (name : pystr) : M unit :=
  fun w =>
    match w_cwd w !! name with
    | Some (Dir _) => (Raise (IsADirectoryError name), w)
    | _ => (Ok tt, set_cwd (insert name (File [])) w)
    end.

(** [f.write(text)] on the file opened under [name]. *)
Definition file_write (name text : pystr) : M unit :=
  modify (set_cwd (alter (fun n => match n with
                                    | File c => File (c ++ text)
                                    | other => other
                                    end) name)).

(** [os.stat(name).st_size]. *)
Definition os_stat_size (name : pystr) : M Z :=
  fun w =>
    match w_cwd w !! name with
    | Some n => (Ok (node_size n), w)
    | None => (Raise (FileNotFoundError name), w)
    end.

(** [fnmatch] of a name against the pattern ["*" + suffix]: the star
    matches any run of characters, but a leading dot is never matched by
    a pattern that does not start with one. *)
Definition glob_match (suffix name : pystr) : bool :=
  negb (startswith (lit ".") name) && endswith suffix name.

(** [glob.glob("*" + suffix)] in the working directory. *)
Definition glob_star (suffix : pystr) : M (list pystr) :=
  gets (fun w => filter (fun n => glob_match suffix n = true)
                   (map_to_list (w_cwd w)).*1).

(** [os.mkdir(name)]. *)
Definition os_mkdir (name : pystr) : M unit :=
  fun w =>
    match w_cwd w !! name with
    | Some _ => (Raise (FileExistsError name), w)
    | None => (Ok tt, set_cwd (insert name (Dir [])) w)
    end.

Definition slash : Z := 47.
Definition colon : Z := 58.

Definition put_entry (n : pystr) (x : node) (es : list (pystr * node)) :
  list (pystr * node) :=
  filter (fun e => e.1 <> n) es ++ [(n, x)].

(** [os.rename(src, dst)] for a source in the working directory and a
    destination that is either in it or one directory below it. *)
Definition os_rename (src dst : pystr) : M unit :=
  fun w =>
    match w_cwd w !! src with
    | None => (Raise (FileNotFoundError src), w)
    | Some x =>
        match split_on slash dst with
        | [n] => (Ok tt, set_cwd (fun m => <[n := x]> (delete src m)) w)
        | [d; n] =>
            match w_cwd w !! d with
            | Some (Dir es) =>
                (Ok tt, set_cwd (fun m => <[d := Dir (put_entry n x es)]> (delete src m)) w)
            | Some _ => (Raise (NotADirectoryError dst), w)
            | None => (Raise (FileNotFoundError dst), w)
            end
        | _ => (Raise (FileNotFoundError dst), w)
        end
    end.

(** [tarfile.open(tar_filename, mode)]: the archive file is created empty. *)
Definition tarfile_open (tar_filename : pystr) (mode : tar_mode) : M unit :=
  fun w =>
    match w_cwd w !! tar_filename with
    | Some (Dir _) => (Raise (IsADirectoryError tar_filename), w)
    | _ => (Ok tt, set_cwd (insert tar_filename (TarFile mode [])) w)
    end.

(** [tar_o.add(directory)]: the directory and everything below it. *)
Definition tarfile_add (tar_filename directory : pystr) : M unit :=
  fun w =>
    match w_cwd w !! directory with
    | None => (Raise (FileNotFoundError directory), w)
    | Some x =>
        (Ok tt,
         set_cwd (alter (fun n => match n with
                                  | TarFile mode ms => TarFile mode (ms ++ [(directory, x)])
                                  | other => other
                                  end) tar_filename) w)
    end.

End Fs.
Export Fs.

(** ** The container runtime, the clock and the storage service *)

Module Runtime.

Definition print (text : pystr) : M unit := emit (EvPrint text).

Definition time_time : M Z := gets w_clock.

Definition time_sleep (secs : Z) : M unit :=
  emit (EvSleep secs);;;
  modify (fun w => set_clock (w_clock w + secs) w).

(** Is the instance in the live set at time [now]? *)
Definition live_at (now : Z) (c : container) : bool :=
  match c_state c with
  | Started =>
      match b_exit_after (c_behaviour c) with
      | Some d => now - c_launched c <? d
      | None => true
      end
  | _ => false
  end.

(** The seconds of execution whose output is visible at time [now]. *)
Definition observed (now : Z) (c : container) : Z :=
  let upto t :=
    match b_exit_after (c_behaviour c) with
    | Some d => Z.min (t - c_launched c) d
    | None => t - c_launched c
    end in
  match c_state c with
  | Created => 0
  | Started => upto now
  | Stopped t => upto t
  | Removed => 0
  end.

Definition with_state (s : cstate) (c : container) : container :=
  {| c_name := c_name c; c_launched := c_launched c;
     c_behaviour := c_behaviour c; c_state := s |}.

Definition deposit (names : list pystr) (m : gmap pystr node) : gmap pystr node :=
  foldl (fun acc n => <[n := File []]> acc) m names.

(** [client.containers.run(image, detach=True, volumes=..., name=...,
    network_disabled=True, stderr=True, runtime="nvidia")]. *)
Definition containers_run (image name : pystr)
    (volumes : gmap pystr (pystr * pystr)) : M nat :=
  fun w =>
    let k := w_launches w in
    let w1 := add_event (EvRun image name volumes) (set_launches (S k) w) in
    let fresh b s :=
      {| c_name := name; c_launched := w_clock w; c_behaviour := b; c_state := s |} in
    match h_run (w_host w) k name with
    | RunFails err leftover =>
        let idle := {| b_exit_after := Some 0; b_output := fun _ => []; b_results := [] |} in
        (Raise (APIError err),
         if leftover then set_containers (w_containers w ++ [fresh idle Created]) w1 else w1)
    | RunStarts b =>
        (Ok (length (w_containers w)),
         set_cwd (deposit (b_results b))
           (set_containers (w_containers w ++ [fresh b Started]) w1))
    end.

(** [client.containers.list()]: the handles of the running instances. *)
Definition containers_list : M (list nat) :=
  emit EvList;;;
  gets (fun w => (filter (fun ic => live_at (w_clock w) ic.2 = true)
                    (imap (fun i c => (i, c)) (w_containers w))).*1).

Definition registered_as (name : pystr) (c : container) : bool :=
  bool_decide (c_name c = name) &&
  match c_state c with
  | Removed => false
  | _ => true
  end.

(** [client.containers.get(name)]. *)
Definition containers_get (name : pystr) : M nat :=
  fun w =>
    match filter (fun ic => registered_as name ic.2 = true)
            (imap (fun i c => (i, c)) (w_containers w)) with
    | ic :: _ => (Ok ic.1, w)
    | [] => (Raise (NotFound name), w)
    end.

(** A call on a handle: the runtime answers [NotFound] once the
    container has been removed. *)
Definition on_container {A} (cid : nat) (k : container -> M A) : M A :=
  fun w =>
    match w_containers w !! cid with
    | Some c =>
        match c_state c with
        | Removed => (Raise (NotFound (c_name c)), w)
        | _ => k c w
        end
    | None => (Raise (NotFound []), w)
    end.

Definition update_state (cid : nat) (s : cstate) : M unit :=
  modify (fun w => set_containers (alter (with_state s) cid (w_containers w)) w).

(** [container.logs()]: the full history to date. *)
Definition container_logs (cid : nat) : M (list byte) :=
  emit (EvLogs cid);;;
  on_container cid (fun c =>
    now <- time_time;;
    ret (b_output (c_behaviour c) (observed now c))).

(** [container.stop()]. *)
Definition container_stop (cid : nat) : M unit :=
  emit (EvStop cid);;;
  on_container cid (fun c =>
    match c_state c with
    | Started => now <- time_time;; update_state cid (Stopped now)
    | _ => ret tt
    end).

(** [container.remove()]: the runtime refuses to remove a running
    instance. *)
Definition container_remove (cid : nat) : M unit :=
  emit (EvRemove cid);;;
  on_container cid (fun c =>
    now <- time_time;;
    if live_at now c then raise (APIError (lit "cannot remove a running container"))
    else update_state cid Removed).

(** [client.images.remove(image, force=True)]. *)
Definition images_remove (image : pystr) : M unit :=
  emit (EvRemoveImage image);;;
  fun w =>
    match h_rmi (w_host w) with
    | Some e => (Raise e, w)
    | None => (Ok tt, w)
    end.

(** [syn.store(synapseclient.File(filename, parent=parent))]. *)
Definition syn_store (filename : pystr) (parent : pyval) : M unit :=
  fun w =>
    let k := w_stores w in
    let content := match w_cwd w !! filename with
                   | Some (File c) => c
                   | _ => []
                   end in
    let w' := add_event (EvStore filename parent content) (set_stores (S k) w) in
    match h_store (w_host w) k with
    | Some err => (Raise (SynapseHTTPError err), w')
    | None => (Ok tt, w')
    end.

(** Config loading and registry login, lines 87-94. *)
Definition docker_login (config : pyval) : M unit :=
  emit (EvLogin config);;;
  fun w =>
    match h_login (w_host w) with
    | Some e => (Raise e, w)
    | None => (Ok tt, w)
    end.

End Runtime.
Export Runtime.

(** ** The program *)

Module RunDocker.

(** The [log_text] argument of [create_log_file]: [bytes] from the
    runtime, or a [str] built by the program. *)
Inductive logtext :=
| LogBytes (bs : list byte)
| LogStr (s : pystr).

(** [create_log_file(log_filename, log_text=None)], lines 14-22. *)
Definition create_log_file (log_filename : pystr) (log_text : option logtext) : M unit :=
  open_w log_filename;;;
  match log_text with
  | Some t =>
      s <- match t with
           | LogBytes bs =>
               match utf8_decode bs with
               | Some s => ret s
               | None => raise UnicodeDecodeError
               end
           | LogStr s => ret s
           end;;
      file_write log_filename (ascii_ignore s)
  | None => file_write log_filename (lit "No Logs")
  end.

(** [st_size > 0 and st_size/1000.0 <= 50], line 28.  The true division
    is taken over the rationals; on a size below 2^53 the IEEE quotient
    compares with 50 the same way, 50000/1000.0 being exactly 50.0. *)
Definition size_accepted (st_size : Z) : bool :=
  (0 <? st_size) && Qle_bool (inject_Z st_size / 1000) 50.

Definition is_synapse_http_error (e : exn) : bool :=
  match e with
  | SynapseHTTPError _ => true
  | _ => false
  end.

(** [store_log_file(syn, log_filename, parentid, store=True)], lines 25-34. *)
Definition store_log_file (log_filename : pystr) (parentid store : pyval) : M unit :=
  st_size <- os_stat_size log_filename;;
  if size_accepted st_size then
    if negb (py_truthy store) then
      try_except (syn_store log_filename parentid)
        is_synapse_http_error
        (fun err => print (exn_text err))
    else ret tt
  else ret tt.

(** [remove_docker_container(container_name)], lines 37-45.  The call
    itself is recorded in the trace as [EvCleanup]. *)
Definition remove_docker_container (container_name : pystr) : M unit :=
  emit (EvCleanup container_name);;;
  try_except
    (cont <- containers_get container_name;;
     container_stop cont;;;
     container_remove cont)
    (fun _ => true)
    (fun _ => print (lit "Unable to remove container")).

(** [remove_docker_image(image_name)], lines 48-54. *)
Definition remove_docker_image (image_name : pystr) : M unit :=
  try_except (images_remove image_name)
    (fun _ => true)
    (fun _ => print (lit "Unable to remove image")).

(** [tar(directory, tar_filename)], lines 57-65: the archive is opened
    with mode ["w"]. *)
Definition tar (directory tar_filename : pystr) : M unit :=
  emit (EvTar directory tar_filename);;;
  tarfile_open tar_filename TarPlain;;;
  tarfile_add tar_filename directory.

(** Attribute access on the [args] namespace. *)
Definition getattr (args : gmap string pyval) (name : string) : M pyval :=
  match args !! name with
  | Some v => ret v
  | None => raise (AttributeError name)
  end.

(** The local variables of [main] that outlive one iteration of the
    per-case loop and are read before being assigned in it.  [None] is
    "not bound yet". *)
Record locals := {
  l_container : option nat;
  l_errors : option pystr
}.

(** On entry to [main] neither is bound. *)
Definition fresh_locals : locals := {| l_container := None; l_errors := None |}.

Definition read_local {A} (name : string) (v : option A) : M A :=
  match v with
  | Some a => ret a
  | None => raise (UnboundLocalError name)
  end.

(** *** Case enumeration, lines 106-109 *)

Definition subdirs (es : list (pystr * node)) : list pystr :=
  omap (fun e => match e.2 with Dir _ => Some e.1 | _ => None end) es.

Definition nondirs (es : list (pystr * node)) : list pystr :=
  omap (fun e => match e.2 with Dir _ => None | _ => Some e.1 end) es.

(** [os.walk(top)], top-down, for a [top] that resolves to [n]: the
    triple of [top], then the walk of each of its subdirectories in
    listing order.  The error of listing [top] is swallowed (the
    [onerror] argument is [None]): anything but a directory yields
    nothing. *)
Fixpoint walk (top : pystr) (n : node) : list (pystr * list pystr * list pystr) :=
  match n with
  | Dir es =>
      (top, subdirs es, nondirs es) ::
      (fix below (l : list (pystr * node)) :=
         match l with
         | [] => []
         | (name, x) :: l' => walk (path_join top name) x ++ below l'
         end) es
  | _ => []
  end.

Definition input_triples (h : Host) (top : pystr) :
  list (pystr * list pystr * list pystr) :=
  match h_input h top with
  | Some n => walk top n
  | None => []
  end.

Definition os_walk (top : pystr) : M (list (pystr * list pystr * list pystr)) :=
  gets (fun w => input_triples (w_host w) top).

(** The pairs [(case_folder, case_id)] the two nested [for] loops visit. *)
Definition case_units (triples : list (pystr * list pystr * list pystr)) :
  list (pystr * pystr) :=
  flat_map (fun t =>
              map (fun sub_dir =>
                     let case_folder := path_join t.1.1 sub_dir in
                     (case_folder, last_chars 5 case_folder))
                (t.1.2))
    triples.

(** *** Volumes, lines 120-130 *)

Definition format_volumes (output_dir case_folder : pystr) :
  gmap pystr (pystr * pystr) :=
  let mounted_volumes : gmap pystr pystr :=
    <[case_folder := lit "/data:rw"]> (<[output_dir := lit "/data/results:rw"]> ∅) in
  foldl (fun volumes vol =>
           match mounted_volumes !! vol with
           | Some spec =>
               <[vol := (nth 0 (split_on colon spec) [], nth 1 (split_on colon spec) [])]>
                 volumes
           | None => volumes
           end)
    ∅ [output_dir; case_folder].

(** *** The execution monitor, lines 160-170 *)

Definition quota_message (quota : pyval) (case_id : pystr) : pystr :=
  (lit "Time limit of " ++ py_str quota ++ lit "s reached") ++
  (lit "for case " ++ case_id ++ lit " - no output generated.").

(** The [while] loop.  Each unit of fuel pays for one evaluation of the
    loop condition; the value returned is [time_elapsed] at loop exit. *)
Fixpoint poll (fuel : nat) (args : gmap string pyval) (log_filename : pystr)
    (container : nat) (start_time time_elapsed : Z) : M Z :=
  match fuel with
  | O => out_of_fuel
  | S fuel' =>
      running <- containers_list;;
      if bool_decide (container ∈ running) then
        now <- time_time;;
        let time_elapsed := now - start_time in
        quota <- getattr args "runtime_quota";;
        over <- lift (py_gt time_elapsed quota);;
        if over then
          container_stop container;;;
          ret time_elapsed
        else
          log_text <- container_logs container;;
          create_log_file log_filename (Some (LogBytes log_text));;;
          parentid <- getattr args "parentid";;
          store <- getattr args "store";;
          store_log_file log_filename parentid store;;;
          time_sleep 60;;;
          poll fuel' args log_filename container start_time time_elapsed
      else ret time_elapsed
  end.

(** Lines 159-185: the loop, the choice of the final log text, its
    persistence and the removal of the container. *)
Definition monitor (fuel : nat) (args : gmap string pyval) (log_filename case_id : pystr)
    (container : nat) (start_time time_elapsed : Z) : M unit :=
  time_elapsed <- poll fuel args log_filename container start_time time_elapsed;;
  quota <- getattr args "runtime_quota";;
  over <- lift (py_gt time_elapsed quota);;
  log_text <- (if over then ret (LogStr (quota_message quota case_id))
               else bs <- container_logs container;; ret (LogBytes bs));;
  create_log_file log_filename (Some log_text);;;
  parentid <- getattr args "parentid";;
  store <- getattr args "store";;
  store_log_file log_filename parentid store;;;
  container_remove container.

(** *** One iteration of the per-case loop, lines 108-191 *)

Definition case_body (fuel : nat) (args : gmap string pyval)
    (docker_image output_dir : pystr) (unit : pystr * pystr) (vars : locals) :
  M locals :=
  let '(case_folder, case_id) := unit in
  print (lit "mounting volumes");;;
  let volumes := format_volumes output_dir case_folder in
  print (lit "running container");;;
  start_time <- time_time;;
  let time_elapsed := 0 in
  (* try: both statements of lines 138-145; an [AttributeError] raised
     by the first is not an [APIError] and leaves the handler aside *)
  subissionid <- getattr args "subissionid";;
  let container_name := py_str subissionid ++ lit "_case" ++ case_id in
  vars <- try_except
            (container <- containers_run docker_image container_name volumes;;
             ret {| l_container := Some container; l_errors := l_errors vars |})
            is_api_error
            (fun err =>
               remove_docker_container container_name;;;
               print (exn_text err);;;
               ret {| l_container := l_container vars;
                      l_errors := Some (exn_text err ++ newline) |});;
  print (lit "creating logfile");;;
  submissionid <- getattr args "submissionid";;
  log_filename <- lift (py_concat submissionid (PyStr (lit "_log.txt")));;
  open_w log_filename;;;
  (* [if container is not None]: reading the variable comes first; a
     bound handle is never [None] *)
  container <- read_local "container" (l_container vars);;
  monitor fuel args log_filename case_id container start_time time_elapsed;;;
  st_size <- os_stat_size log_filename;;
  (if st_size =? 0 then
     errors <- read_local "errors" (l_errors vars);;
     create_log_file log_filename (Some (LogStr errors));;;
     parentid <- getattr args "parentid";;
     store <- getattr args "store";;
     store_log_file log_filename parentid store
   else ret tt);;;
  ret vars.

Fixpoint for_cases (fuel : nat) (args : gmap string pyval)
    (docker_image output_dir : pystr) (units : list (pystr * pystr))
    (vars : locals) : M locals :=
  match units with
  | [] => ret vars
  | u :: rest =>
      vars' <- case_body fuel args docker_image output_dir u vars;;
      for_cases fuel args docker_image output_dir rest vars'
  end.

(** *** The output collector, lines 197-206 *)

Definition nii_gz : pystr := lit ".nii.gz".
Definition predictions : pystr := lit "predictions".
Definition predictions_tar_gz : pystr := lit "predictions.tar.gz".

Definition no_results : exn :=
  Exception (lit "No *.nii.gz files found; please check whether running the " ++
             lit "Docker container locally will result in a NIfTI file.").

Fixpoint for_each {A} (xs : list A) (body : A -> M unit) : M unit :=
  match xs with
  | [] => ret tt
  | x :: rest => body x;;; for_each rest body
  end.

Definition collect_outputs : M unit :=
  found <- glob_star nii_gz;;
  match found with
  | _ :: _ =>
      os_mkdir predictions;;;
      niftis <- glob_star nii_gz;;
      for_each niftis (fun nifti => os_rename nifti (path_join predictions nifti));;;
      tar predictions predictions_tar_gz
  | [] => raise no_results
  end.

(** Lines 192-206: what follows the per-case loop. *)
Definition finish (docker_image : pystr) : M unit :=
  print (lit "finished inference");;;
  remove_docker_image docker_image;;;
  collect_outputs.

(** *** [main(syn, args)], lines 79-206 *)

Definition main (fuel : nat) (args : gmap string pyval) : M unit :=
  status <- getattr args "status";;
  if py_eq_str status (lit "INVALID") then
    raise (Exception (lit "Docker image is invalid"))
  else
    synapse_config <- getattr args "synapse_config";;
    docker_login synapse_config;;;
    user <- gets (fun w => h_user (w_host w));;
    print user;;;
    docker_repository <- getattr args "docker_repository";;
    prefix <- lift (py_concat docker_repository (PyStr (lit "@")));;
    docker_digest <- getattr args "docker_digest";;
    docker_image <- lift (py_concat (PyStr prefix) docker_digest);;
    output_dir <- gets (fun w => h_cwd_path (w_host w));;
    input_dir <- getattr args "input_dir";;
    triples <- match input_dir with
               | PyStr top => os_walk top
               | _ => raise TypeError
               end;;
    for_cases fuel args docker_image output_dir (case_units triples)
      fresh_locals;;;
    finish docker_image.

(** *** The command line, lines 210-228

    The namespace [parse_args] returns for a command line that passes
    every required option: one attribute per declared option, named after
    its long form.  No declaration has a [type], so every value read from
    the command line is a [str]; [--runtime_quota] is optional and
    defaults to [None]; [--store] is a flag. *)
Definition parse_args (submissionid docker_repository docker_digest input_dir
    synapse_config : pystr) (runtime_quota : option pystr) (store : bool)
    (parentid status : pystr) : gmap string pyval :=
  <["submissionid" := PyStr submissionid]>
  (<["docker_repository" := PyStr docker_repository]>
  (<["docker_digest" := PyStr docker_digest]>
  (<["input_dir" := PyStr input_dir]>
  (<["synapse_config" := PyStr synapse_config]>
  (<["runtime_quota" := from_option PyStr PyNone runtime_quota]>
  (<["store" := PyBool store]>
  (<["parentid" := PyStr parentid]>
  (<["status" := PyStr status]> ∅)))))))).

End RunDocker.
Export RunDocker.

(** ** Observations on a run *)

Module Observe.

Definition is_run (e : event) : bool :=
  match e with EvRun _ _ _ => true | _ => false end.

Definition is_cleanup_of (name : pystr) (e : event) : bool :=
  match e with EvCleanup n => bool_decide (n = name) | _ => false end.

Definition is_stop_of (cid : nat) (e : event) : bool :=
  match e with EvStop c => bool_decide (c = cid) | _ => false end.

Definition is_logs (e : event) : bool :=
  match e with EvLogs _ => true | _ => false end.

Definition is_sleep (e : event) : bool :=
  match e with EvSleep _ => true | _ => false end.

Definition is_store (e : event) : bool :=
  match e with EvStore _ _ _ => true | _ => false end.

Definition is_tar (e : event) : bool :=
  match e with EvTar _ _ => true | _ => false end.

(** How many events of a kind the trace holds. *)
Definition count_events (p : event -> bool) (w : World) : nat :=
  length (filter (fun e => p e = true) (w_trace w)).

Definition store_calls : World -> nat := count_events is_store.

(** The texts handed to the storage service, oldest first. *)
Definition stored_texts (w : World) : list pystr :=
  omap (fun e => match e with EvStore _ _ c => Some c | _ => None end) (w_trace w).

(** No directory stands where the file [name] is to be written. *)
Definition writable (w : World) (name : pystr) : bool :=
  match w_cwd w !! name with
  | Some (Dir _) => false
  | _ => true
  end.

(** The world once [text] has replaced the content of [name]. *)
Definition write_log (name text : pystr) (w : World) : World :=
  set_cwd (insert name (File text)) w.



(** The bytes of a sequence that are ASCII, as code points. *)
Definition ascii_bytes (bs : list byte) : pystr :=
  byte_val <$> filter (fun b => byte_val b < 0x80) bs.

(** The names [glob.glob("*.nii.gz")] returns in a working directory. *)
Definition matches (cwd : gmap pystr node) : list pystr :=
  filter (fun n => glob_match nii_gz n = true) (map_to_list cwd).*1.

(** The entries of a working directory under the given names. *)
Definition entries_of (cwd : gmap pystr node) (names : list pystr) :
  list (pystr * node) :=
  omap (fun n => (fun x => (n, x)) <$> cwd !! n) names.

(** The errors of the file-system calls. *)
Definition is_fs_error (e : exn) : bool :=
  match e with
  | FileExistsError _ | FileNotFoundError _
  | IsADirectoryError _ | NotADirectoryError _ => true
  | _ => false
  end.

(** [walk] below a directory: the walks of its entries, in order. *)
Fixpoint walk_entries (top : pystr) (es : list (pystr * node)) :
  list (pystr * list pystr * list pystr) :=
  match es with
  | [] => []
  | (name, x) :: es' => walk (path_join top name) x ++ walk_entries top es'
  end.

(** No immediate subdirectory holds a directory of its own. *)
Definition flat (es : list (pystr * node)) : Prop :=
  forall name sub, (name, Dir sub) ∈ es -> subdirs sub = [].

(** The number of directories at any depth below a node. *)
Fixpoint dirs_below (n : node) : nat :=
  match n with
  | Dir es =>
      (fix sum (l : list (pystr * node)) : nat :=
         match l with
         | [] => O
         | (_, x) :: l' =>
             ((match x with Dir _ => 1 | _ => 0 end) + dirs_below x + sum l')%nat
         end) es
  | _ => O
  end.

End Observe.
Export Observe.

(** ** Concrete hosts, namespaces and instances *)

Module Scenario.

Definition only_at (top : pystr) (n : node) : pystr -> option node :=
  fun p => if bool_decide (p = top) then Some n else None.

Definition host_with (input : pystr -> option node)
    (run : nat -> pystr -> run_outcome) : Host :=
  {| h_cwd_path := lit "/work"; h_input := input; h_user := lit "worker";
     h_login := None; h_run := run; h_store := fun _ => None; h_rmi := None |}.

Definition boot (h : Host) (cwd : gmap pystr node) : World :=
  {| w_host := h; w_cwd := cwd; w_clock := 0; w_containers := [];
     w_launches := 0; w_stores := 0; w_trace := [] |}.

(** The namespace of [python run_docker.py -s 9700 -p repo -d sha256:ab
    -i /in -c cfg [-rt quota] [--store] --parentid syn1 --status VALIDATED]. *)
Definition cli_args (runtime_quota : option pystr) (store : bool) : gmap string pyval :=
  parse_args (lit "9700") (lit "repo") (lit "sha256:ab") (lit "/in") (lit "cfg")
    runtime_quota store (lit "syn1") (lit "VALIDATED").

(** A namespace built by a caller of [main] rather than by the parser:
    it carries the misspelt attribute the launch reads and a numeric
    quota. *)
Definition caller_args (runtime_quota : Z) (store : bool) : gmap string pyval :=
  <["subissionid" := PyStr (lit "9700")]>
  (<["runtime_quota" := PyInt runtime_quota]> (cli_args None store)).

Definition two_cases : node :=
  Dir [(lit "BraTS2021_00001", Dir [(lit "t1.nii.gz", File [])]);
       (lit "BraTS2021_00002", Dir [(lit "t1.nii.gz", File [])])].

Definition one_case : node :=
  Dir [(lit "BraTS2021_00001", Dir [(lit "t1.nii.gz", File [])])].

(** One case folder that holds a directory of its own. *)
Definition nested_case : node :=
  Dir [(lit "BraTS2021_00001",
        Dir [(lit "t1.nii.gz", File []); (lit "extra", Dir [])])].

(** A runtime whose every launch fails. *)
Definition failing_runtime : nat -> pystr -> run_outcome :=
  fun _ _ => RunFails (lit "500 Server Error: image not found") false.

(** An instance that never exits and keeps printing the same line. *)
Definition runs_forever : behaviour :=
  {| b_exit_after := None;
     b_output := fun _ => [x62; x75; x73; x79];
     b_results := [] |}.

Definition line1_line2 : pystr := lit "line1" ++ newline ++ lit "line2".

Definition line1_line2_bytes : list byte :=
  [x6c; x69; x6e; x65; x31; x0a; x6c; x69; x6e; x65; x32].

(** An instance that has printed "line1" and a newline by its first
    second, "line2" from its 70th second on, deposits one result file
    and exits after 90 seconds, between the ticks at 60 and 120. *)
Definition exits_between_ticks : behaviour :=
  {| b_exit_after := Some 90;
     b_output := fun t => if t <? 1 then []
                          else if t <? 70 then take 6 line1_line2_bytes
                          else line1_line2_bytes;
     b_results := [lit "BraTS2021_00001.nii.gz"] |}.

(** A runtime whose first launch succeeds and whose later launches
    fail. *)
Definition second_launch_fails : nat -> pystr -> run_outcome :=
  fun k _ => if Nat.eqb k 0 then RunStarts exits_between_ticks
             else RunFails (lit "500 Server Error: image not found") false.

Definition log_name : pystr := lit "9700_log.txt".

(** The world at a poll tick, 120 seconds after the launch of an
    instance that is still running. *)
Definition at_tick_120 : World :=
  {| w_host := host_with (only_at (lit "/in") one_case) (fun _ _ => RunStarts runs_forever);
     w_cwd := {[ log_name := File (lit "busy") ]};
     w_clock := 120;
     w_containers := [{| c_name := lit "9700_case00001"; c_launched := 0;
                         c_behaviour := runs_forever; c_state := Started |}];
     w_launches := 1; w_stores := 0; w_trace := [] |}.

(** A working directory that already holds an entry named after the
    staging directory. *)
Definition staging_taken : gmap pystr node :=
  {[ lit "BraTS2021_00001.nii.gz" := File []; predictions := Dir [] ]}.

Definition two_results : gmap pystr node :=
  {[ lit "BraTS2021_00001.nii.gz" := File (lit "a");
     lit "BraTS2021_00002.nii.gz" := File (lit "b");
     lit "9700_log.txt" := File (lit "No Logs") ]}.

(** A log of 60000 bytes. *)
Definition big_log : pystr := replicate (Z.to_nat 60000) 97.

(** "a", e-acute in two bytes, "b". *)
Definition accented : list byte := [x61; xc3; xa9; x62].

End Scenario.
Export Scenario.

(** ** Further observations *)

Module Frames.

(** A byte that occurs in no UTF-8 text: [C0] and [C1] would start an
    overlong form, [F5..FF] a code point above [0x10FFFF]. *)
Definition never_utf8 (b : byte) : bool :=
  (byte_val b =? 0xC0) || (byte_val b =? 0xC1) || (0xF5 <=? byte_val b).

(** The computation came to an end, with a value or an exception. *)
Definition finished {A} (o : outcome A) : bool :=
  match o with
  | OutOfFuel => false
  | _ => true
  end.

(** A computation that ends in every world and leaves the clock alone. *)
Definition quiet {A} (m : M A) : Prop :=
  forall w, finished (m w).1 = true /\ w_clock (m w).2 = w_clock w.

(** A computation that ends in every world. *)
Definition settles {A} (m : M A) : Prop :=
  forall w, finished (m w).1 = true.

(** Evaluations of the loop condition that suffice for a quota of [q]
    seconds when [elapsed] seconds have passed. *)
Definition ticks_needed (q elapsed : Z) : nat :=
  S (Z.to_nat ((q - elapsed) / 60 + 1)).

End Frames.
Export Frames.

(** ** Further hosts and worlds *)

Module Instances.

(** A host whose storage service refuses every call. *)
Definition refusing_storage : Host :=
  {| h_cwd_path := lit "/work"; h_input := fun _ => None; h_user := lit "worker";
     h_login := None; h_run := failing_runtime;
     h_store := fun _ => Some (lit "403 Client Error: Forbidden"); h_rmi := None |}.

(** A host whose registry login fails. *)
Definition refusing_registry : Host :=
  {| h_cwd_path := lit "/work"; h_input := only_at (lit "/in") one_case;
     h_user := lit "worker";
     h_login := Some (APIError (lit "401 Client Error: Unauthorized"));
     h_run := fun _ _ => RunStarts runs_forever;
     h_store := fun _ => None; h_rmi := None |}.

(** A working directory with a seven-byte log file. *)
Definition with_short_log : gmap pystr node := {[ log_name := File (lit "No Logs") ]}.

(** An instance that prints nothing and has exited by the first check. *)
Definition silent : behaviour :=
  {| b_exit_after := Some 0; b_output := fun _ => []; b_results := [] |}.

(** An instance that has printed two lines and exited by the first
    check. *)
Definition quick : behaviour :=
  {| b_exit_after := Some 0; b_output := fun _ => line1_line2_bytes;
     b_results := [lit "BraTS2021_00001.nii.gz"] |}.

(** The world after an instance of [quick] has exited, 5 seconds after
    its launch. *)
Definition after_exit : World :=
  {| w_host := host_with (only_at (lit "/in") one_case) (fun _ _ => RunStarts quick);
     w_cwd := {[ log_name := File [] ]};
     w_clock := 5;
     w_containers := [{| c_name := lit "9700_case00001"; c_launched := 0;
                         c_behaviour := quick; c_state := Started |}];
     w_launches := 1; w_stores := 0; w_trace := [] |}.

(** An instance that keeps running and has printed two bytes that start
    no UTF-8 sequence. *)
Definition binary_printer : behaviour :=
  {| b_exit_after := None; b_output := fun _ => [xff; xfe]; b_results := [] |}.

(** The world at the first poll tick of an instance of [binary_printer]. *)
Definition at_first_tick : World :=
  {| w_host := host_with (only_at (lit "/in") one_case)
                 (fun _ _ => RunStarts binary_printer);
     w_cwd := {[ log_name := File [] ]};
     w_clock := 0;
     w_containers := [{| c_name := lit "9700_case00001"; c_launched := 0;
                         c_behaviour := binary_printer; c_state := Started |}];
     w_launches := 1; w_stores := 0; w_trace := [] |}.

End Instances.
Export Instances.

(** * Proofs *)

(** ** Proof support *)

Ltac run :=
  unfold bind, ret, raise, gets, modify, emit, lift, try_except, out_of_fuel in *.

Ltac unbool :=
  repeat match goal with
  | H : (_ && _) = true |- _ => apply andb_true_iff in H as [? ?]
  | H : _ = true |- _ =>
      first [apply Z.leb_le in H | apply Z.ltb_lt in H | apply Z.eqb_eq in H]
  | H : _ = false |- _ =>
      first [apply Z.leb_gt in H | apply Z.ltb_ge in H | apply Z.eqb_neq in H]
  end.

Ltac euclid := Z.to_euclidean_division_equations; lia.

Lemma bind_ok {A B} (m : M A) (k : A -> M B) w a w' :
  m w = (Ok a, w') -> bind m k w = k a w'.
Proof. unfold bind. by intros ->. Qed.

Lemma bind_raise {A B} (m : M A) (k : A -> M B) w e w' :
  m w = (Raise e, w') -> bind m k w = (Raise e, w').
Proof. unfold bind. by intros ->. Qed.

Lemma count_events_add p e w :
  count_events p (add_event e w) = (count_events p w + if p e then 1 else 0)%nat.
Proof.
  unfold count_events, add_event. simpl. rewrite filter_app, length_app.
  f_equal. destruct (p e) eqn:E.
  - by rewrite filter_cons_True.
  - rewrite filter_cons_False; [done|]. by rewrite E.
Qed.

Lemma count_events_trace p w w' :
  w_trace w' = w_trace w -> count_events p w' = count_events p w.
Proof. unfold count_events. by intros ->. Qed.

Lemma stored_texts_add e w :
  stored_texts (add_event e w) =
  stored_texts w ++ match e with EvStore _ _ c => [c] | _ => [] end.
Proof.
  unfold stored_texts, add_event. simpl. rewrite omap_app. f_equal.
  by destruct e.
Qed.

(** ** The codec *)

Lemma byte_val_range b : 0 <= byte_val b < 256.
Proof. unfold byte_val. pose proof (Byte.to_N_bounded b). lia. Qed.

Lemma pos_lor_ge_l p q : (p <= Pos.lor p q)%positive.
Proof.
  revert q. induction p as [p IH|p IH|]; intros [q|q|];
    try specialize (IH q); cbv [Pos.lor]; fold Pos.lor; lia.
Qed.

Lemma lor_ge_l a b : 0 <= a -> 0 <= b -> a <= Z.lor a b.
Proof.
  intros Ha Hb. destruct a as [|p|p], b as [|q|q]; cbv [Z.lor]; try lia.
  pose proof (pos_lor_ge_l p q). lia.
Qed.

Lemma lor_ge_r a b : 0 <= a -> 0 <= b -> b <= Z.lor a b.
Proof. intros. rewrite Z.lor_comm. by apply lor_ge_l. Qed.

Lemma low6_mod b : low6 b = b mod 64.
Proof. unfold low6. change 0x3F with (Z.ones 6). by rewrite Z.land_ones. Qed.

Lemma not_ascii_ge c : 128 <= c -> is_ascii c = false.
Proof. intros. unfold is_ascii. apply andb_false_iff. right. by apply Z.ltb_ge. Qed.

Lemma is_ascii_low b : (byte_val b <? 0x80) = true -> is_ascii (byte_val b) = true.
Proof.
  pose proof (byte_val_range b). intros. unfold is_ascii.
  apply andb_true_iff. split; [apply Z.leb_le | done]. lia.
Qed.

Lemma cp2_not_ascii b0 b1 :
  in_range 0xC2 0xDF b0 = true ->
  is_ascii (Z.lor (Z.shiftl (Z.land b0 0x1F) 6) (low6 b1)) = false.
Proof.
  unfold in_range. intros H. unbool. apply not_ascii_ge.
  change 0x1F with (Z.ones 5). rewrite Z.land_ones, Z.shiftl_mul_pow2, low6_mod by lia.
  change (2 ^ 5) with 32. change (2 ^ 6) with 64.
  pose proof (lor_ge_l (b0 mod 32 * 64) (b1 mod 64)). euclid.
Qed.

Lemma cp3_not_ascii b0 b1 b2 :
  in_range 0xE0 0xEF b0 = true -> second_of_3 b0 b1 = true ->
  is_ascii (Z.lor (Z.shiftl (Z.land b0 0x0F) 12)
              (Z.lor (Z.shiftl (low6 b1) 6) (low6 b2))) = false.
Proof.
  unfold in_range, second_of_3, is_cont, in_range. intros H0 H1. apply not_ascii_ge.
  change 0x0F with (Z.ones 4).
  rewrite Z.land_ones, !Z.shiftl_mul_pow2, !low6_mod by lia.
  change (2 ^ 4) with 16. change (2 ^ 12) with 4096. change (2 ^ 6) with 64.
  set (hi := b0 mod 16 * 4096).
  set (mid := b1 mod 64 * 64).
  set (lo := b2 mod 64).
  assert (0 <= hi /\ 0 <= mid /\ 0 <= lo) as (Hh & Hm & Hl) by (subst hi mid lo; euclid).
  assert (0 <= Z.lor mid lo) as Hml by (apply Z.lor_nonneg; lia).
  pose proof (lor_ge_l hi (Z.lor mid lo) Hh Hml).
  pose proof (lor_ge_r hi (Z.lor mid lo) Hh Hml).
  pose proof (lor_ge_l mid lo Hm Hl).
  assert (128 <= hi \/ 128 <= mid) as [?|?]; [|lia..].
  subst hi mid. destruct (b0 =? 0xE0) eqn:E; unbool; euclid.
Qed.

Lemma cp4_not_ascii b0 b1 b2 b3 :
  in_range 0xF0 0xF4 b0 = true -> second_of_4 b0 b1 = true ->
  is_ascii (Z.lor (Z.shiftl (Z.land b0 0x07) 18)
              (Z.lor (Z.shiftl (low6 b1) 12)
                 (Z.lor (Z.shiftl (low6 b2) 6) (low6 b3)))) = false.
Proof.
  unfold in_range, second_of_4, is_cont, in_range. intros H0 H1. apply not_ascii_ge.
  change 0x07 with (Z.ones 3).
  rewrite Z.land_ones, !Z.shiftl_mul_pow2, !low6_mod by lia.
  change (2 ^ 3) with 8. change (2 ^ 18) with 262144.
  change (2 ^ 12) with 4096. change (2 ^ 6) with 64.
  set (hi := b0 mod 8 * 262144).
  set (mid := b1 mod 64 * 4096).
  set (rest := Z.lor (b2 mod 64 * 64) (b3 mod 64)).
  assert (0 <= rest) as Hr by (subst rest; apply Z.lor_nonneg; euclid).
  assert (0 <= hi /\ 0 <= mid) as (Hh & Hm) by (subst hi mid; euclid).
  assert (0 <= Z.lor mid rest) as Hml by (apply Z.lor_nonneg; lia).
  pose proof (lor_ge_l hi (Z.lor mid rest) Hh Hml).
  pose proof (lor_ge_r hi (Z.lor mid rest) Hh Hml).
  pose proof (lor_ge_l mid rest Hm Hr).
  assert (128 <= hi \/ 128 <= mid) as [?|?]; [|lia..].
  subst hi mid. destruct (b0 =? 0xF0) eqn:E; unbool; euclid.
Qed.

Lemma ascii_ignore_cons_keep c s :
  is_ascii c = true -> ascii_ignore (c :: s) = c :: ascii_ignore s.
Proof. intros. unfold ascii_ignore. by rewrite filter_cons_True. Qed.

Lemma ascii_ignore_cons_drop c s :
  is_ascii c = false -> ascii_ignore (c :: s) = ascii_ignore s.
Proof. intros H. unfold ascii_ignore. rewrite filter_cons_False; [done|]. by rewrite H. Qed.


Lemma ascii_ignore_id s : Forall (fun c => is_ascii c = true) s -> ascii_ignore s = s.
Proof.
  induction 1 as [|c s Hc _ IH]; [done|].
  by rewrite ascii_ignore_cons_keep, IH.
Qed.

Lemma ascii_bytes_cons_keep b bs :
  (byte_val b <? 0x80) = true -> ascii_bytes (b :: bs) = byte_val b :: ascii_bytes bs.
Proof. intros H. unbool. unfold ascii_bytes. by rewrite filter_cons_True. Qed.

Lemma ascii_bytes_cons_drop b bs :
  0x80 <= byte_val b -> ascii_bytes (b :: bs) = ascii_bytes bs.
Proof. intros H. unfold ascii_bytes. rewrite filter_cons_False; [done|lia]. Qed.

Lemma is_cont_high b : is_cont b = true -> 0x80 <= b.
Proof. unfold is_cont. intros. unbool. lia. Qed.

Lemma second_of_3_high b0 b1 : second_of_3 b0 b1 = true -> 0x80 <= b1.
Proof.
  unfold second_of_3, in_range, is_cont. intros H.
  destruct (b0 =? 0xE0); [|destruct (b0 =? 0xED)]; unbool; lia.
Qed.

Lemma second_of_4_high b0 b1 : second_of_4 b0 b1 = true -> 0x80 <= b1.
Proof.
  unfold second_of_4, in_range, is_cont. intros H.
  destruct (b0 =? 0xF0); [|destruct (b0 =? 0xF4)]; unbool; lia.
Qed.

(** Strict decoding followed by the ASCII filter keeps exactly the bytes
    below [0x80]: every byte of a multi-byte sequence is at least [0x80]
    and every code point such a sequence encodes is at least [0x80]. *)
Lemma utf8_decode_ascii_upto n bs text :
  (length bs <= n)%nat -> utf8_decode bs = Some text -> ascii_ignore text = ascii_bytes bs.
Proof.
  revert bs text. induction n as [|n IH]; intros bs text Hlen Hdec.
  { destruct bs; [|simpl in Hlen; lia]. by simplify_eq/=. }
  destruct bs as [|c0 r0]; [by simplify_eq/=|].
  cbn [utf8_decode] in Hdec. simpl in Hlen.
  destruct (byte_val c0 <? 0x80) eqn:E0.
  { destruct (utf8_decode r0) as [t|] eqn:Er; simplify_eq/=.
    rewrite ascii_ignore_cons_keep, ascii_bytes_cons_keep by auto using is_ascii_low.
    f_equal. apply IH; [lia|done]. }
  assert (0x80 <= byte_val c0) as Hc0 by (unbool; lia).
  rewrite (ascii_bytes_cons_drop c0) by done.
  destruct (in_range 0xC2 0xDF (byte_val c0)) eqn:E2.
  { destruct r0 as [|c1 r1]; [done|].
    destruct (is_cont (byte_val c1)) eqn:K1; [|done].
    destruct (utf8_decode r1) as [t|] eqn:Er; simplify_eq/=.
    rewrite ascii_ignore_cons_drop by auto using cp2_not_ascii.
    rewrite ascii_bytes_cons_drop by auto using is_cont_high.
    apply IH; [lia|done]. }
  destruct (in_range 0xE0 0xEF (byte_val c0)) eqn:E3.
  { destruct r0 as [|c1 [|c2 r2]]; try done.
    destruct (second_of_3 (byte_val c0) (byte_val c1)) eqn:K1; [|done].
    destruct (is_cont (byte_val c2)) eqn:K2; [|done].
    destruct (utf8_decode r2) as [t|] eqn:Er; simplify_eq/=.
    rewrite ascii_ignore_cons_drop by auto using cp3_not_ascii.
    rewrite !ascii_bytes_cons_drop by eauto using is_cont_high, second_of_3_high.
    apply IH; [lia|done]. }
  destruct (in_range 0xF0 0xF4 (byte_val c0)) eqn:E4; [|done].
  destruct r0 as [|c1 [|c2 [|c3 r3]]]; try done.
  destruct (second_of_4 (byte_val c0) (byte_val c1)) eqn:K1; [|done].
  destruct (is_cont (byte_val c2)) eqn:K2; [|done].
  destruct (is_cont (byte_val c3)) eqn:K3; [|done].
  destruct (utf8_decode r3) as [t|] eqn:Er; simplify_eq/=.
  rewrite ascii_ignore_cons_drop by auto using cp4_not_ascii.
  rewrite !ascii_bytes_cons_drop by eauto using is_cont_high, second_of_4_high.
  apply IH; [lia|done].
Qed.

Lemma utf8_decode_ascii bs text :
  utf8_decode bs = Some text -> ascii_ignore text = ascii_bytes bs.
Proof. by apply (utf8_decode_ascii_upto (length bs)). Qed.

(** An invalid lead byte anywhere after valid text makes the whole
    decoding fail. *)
Lemma utf8_decode_ascii_prefix b bs :
  (byte_val b <? 0x80) = true -> utf8_decode bs = None -> utf8_decode (b :: bs) = None.
Proof. intros Hb Hbs. cbn [utf8_decode]. by rewrite Hb, Hbs. Qed.

(** ** The log sink *)

Lemma write_log_lookup fn text w : w_cwd (write_log fn text w) !! fn = Some (File text).
Proof. unfold write_log, set_cwd. simpl. apply lookup_insert_eq. Qed.

Lemma write_log_writable fn text w : writable (write_log fn text w) fn = true.
Proof. unfold writable. by rewrite write_log_lookup. Qed.

Lemma write_log_twice fn s t w : write_log fn t (write_log fn s w) = write_log fn t w.
Proof. unfold write_log, set_cwd. simpl. by rewrite insert_insert_eq. Qed.

Lemma open_then_write fn text w :
  set_cwd (alter (fun n => match n with
                           | File c => File (c ++ text)
                           | other => other
                           end) fn)
    (set_cwd (insert fn (File [])) w) = write_log fn text w.
Proof. unfold write_log, set_cwd. simpl. by rewrite alter_insert_eq. Qed.

Lemma create_log_file_str fn s w :
  writable w fn = true ->
  create_log_file fn (Some (LogStr s)) w = (Ok tt, write_log fn (ascii_ignore s) w).
Proof.
  unfold writable, create_log_file, open_w, file_write. run. intros Hw.
  destruct (w_cwd w !! fn) as [[]|]; try done; by rewrite open_then_write.
Qed.

Lemma create_log_file_bytes fn bs text w :
  writable w fn = true -> utf8_decode bs = Some text ->
  create_log_file fn (Some (LogBytes bs)) w = (Ok tt, write_log fn (ascii_ignore text) w).
Proof.
  unfold writable, create_log_file, open_w, file_write. run. intros Hw ->.
  destruct (w_cwd w !! fn) as [[]|]; try done; by rewrite open_then_write.
Qed.

Lemma create_log_file_undecodable fn bs w :
  writable w fn = true -> utf8_decode bs = None ->
  create_log_file fn (Some (LogBytes bs)) w = (Raise UnicodeDecodeError, write_log fn [] w).
Proof.
  unfold writable, create_log_file, open_w, file_write. run. intros Hw ->.
  destruct (w_cwd w !! fn) as [[]|]; done.
Qed.

Lemma size_accepted_spec n : size_accepted n = true <-> 0 < n <= 50000.
Proof.
  unfold size_accepted. rewrite andb_true_iff, Z.ltb_lt, Qle_bool_iff.
  unfold Qle, Qdiv, Qmult, Qinv, inject_Z. simpl. lia.
Qed.

(** What [store_log_file] leaves untouched, and what it appends. *)
Lemma store_log_file_frame fn p s w :
  let w' := (store_log_file fn p s w).2 in
  w_cwd w' = w_cwd w /\ w_containers w' = w_containers w /\
  w_clock w' = w_clock w /\ w_host w' = w_host w /\ w_launches w' = w_launches w.
Proof.
  unfold store_log_file, os_stat_size, syn_store, print. run.
  destruct (w_cwd w !! fn) as [n|]; [|done]. simpl.
  destruct (size_accepted (node_size n)); [|done].
  destruct (negb (py_truthy s)); [|done]. simpl.
  by destruct (h_store (w_host w) (w_stores w)).
Qed.

Lemma store_log_file_ok fn p s w :
  is_Some (w_cwd w !! fn) -> (store_log_file fn p s w).1 = Ok tt.
Proof.
  unfold store_log_file, os_stat_size, syn_store, print. run. intros [n ->]. simpl.
  destruct (size_accepted (node_size n)); [|done].
  destruct (negb (py_truthy s)); [|done]. simpl.
  by destruct (h_store (w_host w) (w_stores w)).
Qed.

(** The events [store_log_file] appends: at most one store call, of the
    text the file holds, and the print of its error if it failed. *)
Lemma store_log_file_trace fn p s text w :
  w_cwd w !! fn = Some (File text) ->
  exists evs,
    w_trace (store_log_file fn p s w).2 = w_trace w ++ evs /\
    (evs = [] \/ evs = [EvStore fn p text] \/
     exists err, evs = [EvStore fn p text; EvPrint err]).
Proof.
  unfold store_log_file, os_stat_size, syn_store, print. run. intros Hc.
  rewrite !Hc. simpl.
  destruct (size_accepted _); [|exists []; by rewrite app_nil_r; auto].
  destruct (negb (py_truthy s)); [|exists []; by rewrite app_nil_r; auto]. simpl.
  destruct (h_store (w_host w) (w_stores w)) as [err|]; simpl; rewrite Hc.
  - exists [EvStore fn p text; EvPrint err].
    split; [by rewrite <- app_assoc | right; right; by exists err].
  - exists [EvStore fn p text]. split; [done | right; by left].
Qed.

(** C4 (the input on which the claim fails).  With the [--store] flag
    set the store call is never made, whatever the size of the log file:
    the call sits under [if not store]. *)
Theorem store_flag_set_never_stores log_filename parentid w :
  store_calls (store_log_file log_filename parentid (PyBool true) w).2 = store_calls w.
Proof.
  unfold store_log_file, os_stat_size. run.
  destruct (w_cwd w !! log_filename) as [n|]; [|done].
  simpl. by destruct (size_accepted (node_size n)).
Qed.

(** Without the flag the call is made whenever the size allows it. *)
Lemma store_flag_clear_stores log_filename parentid text w :
  w_cwd w !! log_filename = Some (File text) ->
  0 < Z.of_nat (length text) <= 50000 ->
  store_calls (store_log_file log_filename parentid (PyBool false) w).2
  = S (store_calls w).
Proof.
  intros Hf Hsize. unfold store_log_file, os_stat_size, syn_store, print. run.
  rewrite Hf. cbn [node_size].
  destruct (size_accepted (Z.of_nat (length text))) eqn:Hs;
    [|apply not_true_iff_false in Hs; destruct Hs; by apply size_accepted_spec].
  cbn [py_truthy negb]. unfold store_calls.
  destruct (h_store (w_host w) (w_stores w)); cbn [is_synapse_http_error fst snd];
    unfold modify; cbn [fst snd]; rewrite ?count_events_add; cbn [is_store];
    rewrite (count_events_trace is_store w (set_stores (S (w_stores w)) w)) by done; lia.
Qed.

(** C8.  A store call is made only for a log file whose size is
    strictly positive and at most 50000 bytes; a log file of 0 bytes and
    one of 60000 bytes lead to no store call. *)
Theorem store_only_within_size_bounds log_filename parentid store w :
  let w' := (store_log_file log_filename parentid store w).2 in
  (store_calls w' <> store_calls w ->
   exists n, w_cwd w !! log_filename = Some n /\ 0 < node_size n <= 50000) /\
  (forall content,
     w_cwd w !! log_filename = Some (File content) ->
     Z.of_nat (length content) = 0 \/ Z.of_nat (length content) = 60000 ->
     store_calls w' = store_calls w).
Proof.
  split.
  - unfold store_log_file, os_stat_size. run.
    destruct (w_cwd w !! log_filename) as [n|] eqn:E; [|done].
    destruct (size_accepted (node_size n)) eqn:Hs; [|done].
    intros _. exists n. split; [done|]. by apply size_accepted_spec.
  - intros c Hc Hlen. unfold store_log_file, os_stat_size. run. rewrite Hc.
    destruct (size_accepted (node_size (File c))) eqn:Hs; [|done].
    apply size_accepted_spec in Hs. simpl in Hs. lia.
Qed.

Lemma store_only_within_size_bounds_witness :
  let w := boot (host_with (fun _ => None) failing_runtime)
             {[ log_name := File big_log ]} in
  store_calls (store_log_file log_name (PyStr (lit "syn1")) (PyBool false) w).2
  = store_calls w.
Proof.
  intros w.
  apply (proj2 (store_only_within_size_bounds log_name (PyStr (lit "syn1")) (PyBool false) w)
           big_log).
  - reflexivity.
  - right. unfold big_log. rewrite length_replicate. reflexivity.
Defined.

(** C6 (the input on which the claim fails).  A byte that is not valid
    UTF-8 makes [create_log_file] raise [UnicodeDecodeError]; the file,
    already truncated, is left empty. *)
Theorem create_log_file_rejects_invalid_utf8 :
  let r := create_log_file log_name (Some (LogBytes [x6f; x6b; xff]))
             (boot (host_with (fun _ => None) failing_runtime)
                {[ log_name := File (lit "before") ]}) in
  r.1 = Raise UnicodeDecodeError /\ w_cwd r.2 !! log_name = Some (File []).
Proof. split; reflexivity. Qed.

(** X1.  For valid UTF-8 the call succeeds and the file holds exactly the
    ASCII bytes of the input: every non-ASCII character is dropped. *)
Theorem create_log_file_keeps_ascii_of_valid_utf8 log_filename bs w :
  writable w log_filename = true ->
  is_Some (utf8_decode bs) ->
  let r := create_log_file log_filename (Some (LogBytes bs)) w in
  r.1 = Ok tt /\ w_cwd r.2 !! log_filename = Some (File (ascii_bytes bs)).
Proof.
  intros Hw [text Hdec]. cbv zeta.
  rewrite (create_log_file_bytes _ _ _ _ Hw Hdec). split; [done|]. cbn [snd].
  by rewrite write_log_lookup, (utf8_decode_ascii _ _ Hdec).
Qed.

Lemma create_log_file_keeps_ascii_of_valid_utf8_witness :
  let r := create_log_file log_name (Some (LogBytes accented))
             (boot (host_with (fun _ => None) failing_runtime) ∅) in
  r.1 = Ok tt /\ w_cwd r.2 !! log_name = Some (File (ascii_bytes accented)).
Proof.
  apply (create_log_file_keeps_ascii_of_valid_utf8 log_name accented
           (boot (host_with (fun _ => None) failing_runtime) ∅)).
  - reflexivity.
  - vm_compute. eauto.
Defined.

(** One drain as the loop performs it, after the snapshot was fetched. *)
Lemma drain_step fn p s bs text w :
  writable w fn = true -> utf8_decode bs = Some text ->
  let r := (create_log_file fn (Some (LogBytes bs));;; store_log_file fn p s) w in
  r.1 = Ok tt /\ w_cwd r.2 = w_cwd (write_log fn (ascii_ignore text) w).
Proof.
  intros Hw Hdec. cbv zeta.
  rewrite (bind_ok _ _ _ _ _ (create_log_file_bytes _ _ _ _ Hw Hdec)).
  split.
  - apply store_log_file_ok. rewrite write_log_lookup. eauto.
  - apply store_log_file_frame.
Qed.

Lemma writable_cwd w w' fn : w_cwd w' = w_cwd w -> writable w' fn = writable w fn.
Proof. unfold writable. by intros ->. Qed.

Lemma for_each_cons_ok {A} (x : A) rest (body : A -> M unit) w w1 :
  body x w = (Ok tt, w1) -> for_each (x :: rest) body w = for_each rest body w1.
Proof. intros E. cbn [for_each]. by rewrite (bind_ok _ _ _ _ _ E). Qed.

Lemma drains_keep_last fn p s snaps :
  forall w last text,
    writable w fn = true ->
    Forall (fun bs => is_Some (utf8_decode bs)) snaps ->
    utf8_decode last = Some text ->
    let r := for_each (snaps ++ [last])
               (fun bs => create_log_file fn (Some (LogBytes bs));;;
                          store_log_file fn p s) w in
    r.1 = Ok tt /\ w_cwd r.2 !! fn = Some (File (ascii_ignore text)).
Proof.
  induction snaps as [|bs snaps IH]; intros w last text Hw Hall Hlast; cbv zeta.
  - destruct (drain_step fn p s last text w Hw Hlast) as [Hok Hcwd].
    destruct ((create_log_file fn (Some (LogBytes last));;; store_log_file fn p s) w)
      as [o w1] eqn:E.
    cbn [fst snd] in Hok, Hcwd. subst o.
    cbn [app].
    rewrite (for_each_cons_ok last []
               (fun bs => create_log_file fn (Some (LogBytes bs));;; store_log_file fn p s)
               w w1 E).
    cbn [for_each fst snd].
    split; [done|]. unfold ret. cbn [snd]. rewrite Hcwd. apply write_log_lookup.
  - inversion Hall as [|? ? [t Ht] Hrest]; subst.
    destruct (drain_step fn p s bs t w Hw Ht) as [Hok Hcwd].
    destruct ((create_log_file fn (Some (LogBytes bs));;; store_log_file fn p s) w)
      as [o w1] eqn:E.
    cbn [fst snd] in Hok, Hcwd. subst o.
    rewrite <- app_comm_cons.
    rewrite (for_each_cons_ok bs (snaps ++ [last])
               (fun bs => create_log_file fn (Some (LogBytes bs));;; store_log_file fn p s)
               w w1 E).
    apply IH; [|done..].
    by rewrite (writable_cwd _ _ _ Hcwd), write_log_writable.
Qed.

(** ** The command-line namespace *)

Section cli.
Variables (submissionid docker_repository docker_digest input_dir synapse_config : pystr).
Variables (runtime_quota : option pystr) (store : bool) (parentid status : pystr).

Let args := parse_args submissionid docker_repository docker_digest input_dir
              synapse_config runtime_quota store parentid status.

Lemma cli_status : args !! "status" = Some (PyStr status).
Proof. by vm_compute. Qed.

Lemma cli_synapse_config : args !! "synapse_config" = Some (PyStr synapse_config).
Proof. by vm_compute. Qed.

Lemma cli_docker_repository : args !! "docker_repository" = Some (PyStr docker_repository).
Proof. by vm_compute. Qed.

Lemma cli_docker_digest : args !! "docker_digest" = Some (PyStr docker_digest).
Proof. by vm_compute. Qed.

Lemma cli_input_dir : args !! "input_dir" = Some (PyStr input_dir).
Proof. by vm_compute. Qed.

Lemma cli_runtime_quota :
  args !! "runtime_quota" = Some (from_option PyStr PyNone runtime_quota).
Proof. by vm_compute. Qed.

(** The parser declares [--submissionid]; no option is called
    [subissionid]. *)
Lemma cli_no_subissionid : args !! "subissionid" = None.
Proof. by vm_compute. Qed.
End cli.

(** ** The run up to the per-case loop *)

Lemma main_preamble fuel (args : gmap string pyval) w status cfg repo digest input :
  args !! "status" = Some (PyStr status) ->
  status <> lit "INVALID" ->
  args !! "synapse_config" = Some cfg ->
  h_login (w_host w) = None ->
  args !! "docker_repository" = Some (PyStr repo) ->
  args !! "docker_digest" = Some (PyStr digest) ->
  args !! "input_dir" = Some (PyStr input) ->
  main fuel args w =
  (for_cases fuel args (repo ++ lit "@" ++ digest) (h_cwd_path (w_host w))
     (case_units (input_triples (w_host w) input)) fresh_locals;;;
   finish (repo ++ lit "@" ++ digest))
    (add_event (EvPrint (h_user (w_host w))) (add_event (EvLogin cfg) w)).
Proof.
  intros Hst Hne Hcfg Hlogin Hrepo Hdig Hin.
  unfold main, getattr, docker_login, print, os_walk, py_eq_str.
  rewrite Hst, Hcfg, Hrepo, Hdig, Hin. run. cbn.
  rewrite bool_decide_eq_false_2 by done.
  rewrite Hlogin. cbn. by rewrite <- app_assoc.
Qed.

(** The first iteration stops at the read of [args.subissionid]. *)
Lemma case_body_missing_attribute fuel (args : gmap string pyval) image out u vars w :
  args !! "subissionid" = None ->
  case_body fuel args image out u vars w =
  (Raise (AttributeError "subissionid"),
   add_event (EvPrint (lit "running container"))
     (add_event (EvPrint (lit "mounting volumes")) w)).
Proof.
  intros Hno. destruct u as [case_folder case_id].
  unfold case_body, getattr, print, time_time. rewrite Hno. by run.
Qed.

(** C5.  A run started from the command line that reaches the per-case
    loop with at least one case unit aborts with the [AttributeError] of
    [args.subissionid], which the [APIError] handler lets through, and
    no container has been launched. *)
Theorem cli_run_aborts_before_any_launch
    fuel sid repo digest input cfg rt st parent status w :
  status <> lit "INVALID" ->
  h_login (w_host w) = None ->
  case_units (input_triples (w_host w) input) <> [] ->
  let r := main fuel (parse_args sid repo digest input cfg rt st parent status) w in
  r.1 = Raise (AttributeError "subissionid") /\
  is_api_error (AttributeError "subissionid") = false /\
  count_events is_run r.2 = count_events is_run w /\
  w_containers r.2 = w_containers w.
Proof.
  intros Hst Hlogin Hcases. cbv zeta.
  rewrite (main_preamble fuel _ w status (PyStr cfg) repo digest input)
    by (done || apply cli_status || apply cli_synapse_config
        || apply cli_docker_repository || apply cli_docker_digest
        || apply cli_input_dir).
  destruct (case_units (input_triples (w_host w) input)) as [|u us]; [done|].
  cbn [for_cases].
  erewrite bind_raise; last first.
  { erewrite bind_raise; [done|].
    apply case_body_missing_attribute, cli_no_subissionid. }
  cbn [fst snd]. repeat split.
  by rewrite !count_events_add, !Nat.add_0_r.
Qed.

Lemma cli_run_aborts_before_any_launch_witness :
  let w := boot (host_with (only_at (lit "/in") one_case)
                   (fun _ _ => RunStarts runs_forever)) ∅ in
  let r := main 10 (cli_args (Some (lit "90")) true) w in
  r.1 = Raise (AttributeError "subissionid") /\
  is_api_error (AttributeError "subissionid") = false /\
  count_events is_run r.2 = count_events is_run w /\
  w_containers r.2 = w_containers w.
Proof.
  intros w.
  apply (cli_run_aborts_before_any_launch 10 (lit "9700") (lit "repo") (lit "sha256:ab")
           (lit "/in") (lit "cfg") (Some (lit "90")) true (lit "syn1") (lit "VALIDATED") w).
  - by vm_compute.
  - reflexivity.
  - by vm_compute.
Defined.

(** ** The output collector *)

Lemma split_on_no_sep sep s : sep ∉ s -> split_on sep s = [s].
Proof.
  induction s as [|c s IH]; [done|]. intros Hs.
  apply not_elem_of_cons in Hs as [Hc Hs]. cbn [split_on].
  destruct (c =? sep) eqn:E; [apply Z.eqb_eq in E; congruence|].
  by rewrite (IH Hs).
Qed.

Lemma split_on_app sep a b :
  sep ∉ a -> split_on sep (a ++ sep :: b) = a :: split_on sep b.
Proof.
  induction a as [|c a IH]; intros Ha; cbn [split_on app].
  - by rewrite Z.eqb_refl.
  - apply not_elem_of_cons in Ha as [Hc Ha].
    destruct (c =? sep) eqn:E; [apply Z.eqb_eq in E; congruence|].
    by rewrite (IH Ha).
Qed.

Lemma slash_not_in_predictions : slash ∉ predictions.
Proof. vm_compute. intros H. repeat (apply elem_of_cons in H as [H|H]; [done|]). inversion H. Qed.

Lemma path_join_predictions n :
  slash ∉ n -> path_join predictions n = predictions ++ slash :: n.
Proof.
  intros Hn. unfold path_join.
  assert (startswith (lit "/") n = false) as ->.
  { change (lit "/") with [slash].
    destruct n as [|c n]; [done|]. apply not_elem_of_cons in Hn as [Hc _].
    cbn [startswith]. destruct (slash =? c) eqn:E; [|done].
    apply Z.eqb_eq in E. congruence. }
  assert (Nat.eqb (length predictions) 0 || endswith (lit "/") predictions = false)
    as -> by (by vm_compute).
  done.
Qed.

Lemma staging_path n :
  slash ∉ n -> split_on slash (path_join predictions n) = [predictions; n].
Proof.
  intros Hn. rewrite (path_join_predictions n Hn).
  rewrite (split_on_app _ _ _ slash_not_in_predictions).
  by rewrite (split_on_no_sep _ _ Hn).
Qed.

Lemma put_entry_fresh n x es : n ∉ es.*1 -> put_entry n x es = es ++ [(n, x)].
Proof.
  intros Hn. unfold put_entry. f_equal.
  induction es as [|[k y] es IH]; [done|]. cbn in Hn.
  apply not_elem_of_cons in Hn as [Hk Hn].
  rewrite filter_cons_True by (cbn; congruence). by rewrite IH.
Qed.

Lemma entries_of_cons m n x names :
  m !! n = Some x -> entries_of m (n :: names) = (n, x) :: entries_of m names.
Proof. intros H. unfold entries_of. cbn. by rewrite H. Qed.

Lemma entries_of_ext m m' names :
  (forall n, n ∈ names -> m !! n = m' !! n) -> entries_of m names = entries_of m' names.
Proof.
  induction names as [|k names IH]; intros H; [done|].
  unfold entries_of in *. cbn. rewrite (H k) by by left.
  rewrite IH; [done|]. intros n Hn. apply H. by right.
Qed.

(** One move into the staging directory. *)
Lemma os_rename_into_staging n x es w :
  slash ∉ n ->
  w_cwd w !! n = Some x ->
  w_cwd w !! predictions = Some (Dir es) ->
  os_rename n (path_join predictions n) w =
  (Ok tt, set_cwd (fun m => <[predictions := Dir (put_entry n x es)]> (delete n m)) w).
Proof.
  intros Hn Hx Hp. unfold os_rename. by rewrite Hx, (staging_path n Hn), Hp.
Qed.

Lemma os_rename_outcome src dst w :
  let r := os_rename src dst w in
  w_trace r.2 = w_trace w /\
  match r.1 with
  | Ok _ => True
  | Raise e => is_fs_error e = true
  | OutOfFuel => False
  end.
Proof.
  unfold os_rename. cbv zeta.
  destruct (w_cwd w !! src) as [x|]; [|done].
  destruct (split_on slash dst) as [|d [|leaf [|? ?]]]; try done.
  by destruct (w_cwd w !! d) as [[]|].
Qed.

Lemma for_each_rename_outcome (dst : pystr -> pystr) names w :
  let r := for_each names (fun n => os_rename n (dst n)) w in
  w_trace r.2 = w_trace w /\
  match r.1 with
  | Ok _ => True
  | Raise e => is_fs_error e = true
  | OutOfFuel => False
  end.
Proof.
  revert w. induction names as [|n names IH]; intros w; [done|].
  cbn [for_each]. unfold bind.
  pose proof (os_rename_outcome n (dst n) w) as [Ht Ho]. cbv zeta in *.
  destruct (os_rename n (dst n) w) as [[[]|e|] w1]; cbn [fst snd] in *; try done.
  specialize (IH w1). cbv zeta in IH. by rewrite <- Ht.
Qed.

(** The staging loop: every listed entry leaves the working directory
    and is appended to the staging directory; nothing else changes. *)
Lemma for_each_rename_into_staging names :
  forall w es,
    NoDup names ->
    (forall n, n ∈ names ->
       is_Some (w_cwd w !! n) /\ n <> predictions /\ (slash ∉ n) /\ (n ∉ es.*1)) ->
    w_cwd w !! predictions = Some (Dir es) ->
    exists w',
      for_each names (fun nifti => os_rename nifti (path_join predictions nifti)) w
      = (Ok tt, w') /\
      w_trace w' = w_trace w /\
      w_cwd w' !! predictions = Some (Dir (es ++ entries_of (w_cwd w) names)) /\
      (forall n, n ∈ names -> w_cwd w' !! n = None) /\
      (forall k, k ∉ names -> k <> predictions -> w_cwd w' !! k = w_cwd w !! k).
Proof.
  induction names as [|n names IH]; intros w es Hnd Hall Hp.
  { exists w. cbn. rewrite app_nil_r. repeat split; try done.
    intros n Hn. by apply elem_of_nil in Hn. }
  apply NoDup_cons in Hnd as [Hn Hnd].
  destruct (Hall n) as ([x Hx] & Hnp & Hsl & Hfresh); [by left|].
  pose proof (os_rename_into_staging n x es w Hsl Hx Hp) as Hstep.
  set (w1 := set_cwd (fun m => <[predictions := Dir (put_entry n x es)]> (delete n m)) w) in *.
  assert (forall k, k <> n -> k <> predictions -> w_cwd w1 !! k = w_cwd w !! k) as Hother.
  { intros k Hkn Hkp. unfold w1, set_cwd. cbn.
    by rewrite lookup_insert_ne, lookup_delete_ne. }
  destruct (IH w1 (es ++ [(n, x)])) as (w' & Hrun & Htr & Hdir & Hgone & Hkeep).
  - done.
  - intros k Hk. destruct (Hall k) as (Hsome & Hkp & Hks & Hkf); [by right|].
    assert (k <> n) by (intros ->; done).
    rewrite Hother by done. repeat split; try done.
    rewrite fmap_app. cbn. intros Hin. apply elem_of_app in Hin as [Hin|Hin]; [done|].
    apply list_elem_of_singleton in Hin. done.
  - unfold w1, set_cwd. cbn. rewrite lookup_insert_eq. by rewrite put_entry_fresh.
  - exists w'. cbn [for_each]. rewrite (bind_ok _ _ _ _ _ Hstep).
    split; [done|]. split; [by rewrite Htr|]. split; [|split].
    + assert (entries_of (w_cwd w) (n :: names) = (n, x) :: entries_of (w_cwd w1) names)
        as ->.
      { rewrite (entries_of_cons _ _ _ _ Hx). f_equal. apply entries_of_ext.
        intros k Hk. symmetry. apply Hother; [by intros ->|].
        destruct (Hall k) as (_ & Hkp & _); [by right|done]. }
      by rewrite Hdir, <- app_assoc.
    + intros k Hk. apply elem_of_cons in Hk as [->|Hk]; [|by apply Hgone].
      rewrite Hkeep by done. unfold w1, set_cwd. cbn.
      by rewrite lookup_insert_ne, lookup_delete_eq.
    + intros k Hk Hkp. apply not_elem_of_cons in Hk as [Hkn Hk].
      rewrite Hkeep by done. by apply Hother.
Qed.

Lemma tar_outcome d t w :
  match (tar d t w).1 with
  | Ok _ => True
  | Raise e => is_fs_error e = true
  | OutOfFuel => False
  end.
Proof.
  unfold tar, tarfile_open, tarfile_add. run. cbn.
  destruct (w_cwd w !! t) as [[]|]; cbn; try done;
    match goal with |- context [?m !! d] => by destruct (m !! d) end.
Qed.

Lemma tar_ok d t x w :
  writable w t = true -> w_cwd w !! d = Some x -> d <> t ->
  tar d t w =
  (Ok tt, set_cwd (insert t (TarFile TarPlain [(d, x)])) (add_event (EvTar d t) w)).
Proof.
  unfold writable, tar, tarfile_open, tarfile_add. run. cbn. intros Hw Hd Hne.
  destruct (w_cwd w !! t) as [[]|]; try done; cbn;
    rewrite lookup_insert_ne, Hd by done; unfold set_cwd; cbn;
    by rewrite alter_insert_eq.
Qed.

Lemma matches_spec m n :
  n ∈ matches m <-> is_Some (m !! n) /\ glob_match nii_gz n = true.
Proof.
  unfold matches. rewrite list_elem_of_filter, list_elem_of_fmap. split.
  - intros (Hg & [k x] & -> & Hin). apply elem_of_map_to_list in Hin. eauto.
  - intros ([x Hx] & Hg). split; [done|]. exists (n, x). split; [done|].
    by apply elem_of_map_to_list.
Qed.

Lemma matches_NoDup m : NoDup (matches m).
Proof. apply NoDup_filter, NoDup_fst_map_to_list. Qed.

Lemma matches_insert_staging m x :
  m !! predictions = None -> matches (<[predictions := x]> m) ≡ₚ matches m.
Proof.
  intros Hp. unfold matches. rewrite (map_to_list_insert m predictions x Hp).
  rewrite fmap_cons. cbn [fst]. by rewrite filter_cons_False by by vm_compute.
Qed.

Lemma glob_star_nii w : glob_star nii_gz w = (Ok (matches (w_cwd w)), w).
Proof. done. Qed.

Lemma collect_outputs_empty w :
  matches (w_cwd w) = [] -> collect_outputs w = (Raise no_results, w).
Proof.
  intros Hm. unfold collect_outputs.
  rewrite (bind_ok _ _ _ _ _ (glob_star_nii w)). by rewrite Hm.
Qed.

(** C10 (as amended).  The collector raises the no-result error exactly
    when no entry of the working directory matches [*.nii.gz].  When
    some do and the names [predictions] and [predictions.tar.gz] are
    free for a directory and a file, every matching entry is moved into
    the new directory [predictions] and one archive of that directory is
    written at [predictions.tar.gz].  When an entry named [predictions]
    is already there, [os.mkdir] raises [FileExistsError] and nothing
    is moved. *)
Theorem collect_outputs_spec w :
  let r := collect_outputs w in
  (r.1 = Raise no_results <-> matches (w_cwd w) = []) /\
  (matches (w_cwd w) <> [] ->
   w_cwd w !! predictions = None ->
   writable w predictions_tar_gz = true ->
   (forall n, n ∈ matches (w_cwd w) -> slash ∉ n) ->
   r.1 = Ok tt /\
   exists es mode,
     es ≡ₚ entries_of (w_cwd w) (matches (w_cwd w)) /\
     w_cwd r.2 !! predictions = Some (Dir es) /\
     (forall n, n ∈ matches (w_cwd w) -> w_cwd r.2 !! n = None) /\
     w_cwd r.2 !! predictions_tar_gz = Some (TarFile mode [(predictions, Dir es)]) /\
     count_events is_tar r.2 = S (count_events is_tar w)) /\
  (matches (w_cwd w) <> [] ->
   is_Some (w_cwd w !! predictions) ->
   r = (Raise (FileExistsError predictions), w)).
Proof.
  cbv zeta. unfold collect_outputs.
  rewrite (bind_ok _ _ _ _ _ (glob_star_nii w)).
  destruct (matches (w_cwd w)) as [|n0 found] eqn:Hm.
  { repeat split; done. }
  rewrite <- Hm.
  assert (matches (w_cwd w) <> []) as Hne by (by rewrite Hm).
  destruct (w_cwd w !! predictions) as [old|] eqn:Hp.
  { assert (os_mkdir predictions w = (Raise (FileExistsError predictions), w)) as Hmk
      by (unfold os_mkdir; by rewrite Hp).
    rewrite (bind_raise _ _ _ _ _ Hmk). split; [|split].
    - split; [done|]. by intros.
    - by intros _ ?.
    - done. }
  set (w1 := set_cwd (insert predictions (Dir [])) w).
  assert (os_mkdir predictions w = (Ok tt, w1)) as Hmk
    by (unfold os_mkdir; by rewrite Hp).
  rewrite (bind_ok _ _ _ _ _ Hmk), (bind_ok _ _ _ _ _ (glob_star_nii w1)).
  assert (matches (w_cwd w1) ≡ₚ matches (w_cwd w)) as Hperm
    by (by apply matches_insert_staging).
  split; [|split].
  - split; [|by intros]. intros Hr. exfalso. revert Hr. unfold no_results.
    unfold bind at 1.
    pose proof (for_each_rename_outcome (path_join predictions) (matches (w_cwd w1)) w1)
      as [_ Hout]. cbv zeta in Hout.
    destruct (for_each _ _ w1) as [[[]|e|] w2]; cbn [fst snd] in *; try done.
    + pose proof (tar_outcome predictions predictions_tar_gz w2) as Ht.
      destruct (tar predictions predictions_tar_gz w2) as [[[]|e|] w3];
        cbn [fst snd] in *; try done.
      intros [= ->]. done.
    + intros [= ->]. done.
  - intros _ _ Hwr Hslash.
    destruct (for_each_rename_into_staging (matches (w_cwd w1)) w1 [])
      as (w2 & Hrun & Htr & Hdir & Hgone & Hkeep).
    + apply matches_NoDup.
    + intros n Hn. assert (n ∈ matches (w_cwd w)) as Hn' by (by rewrite <- Hperm).
      apply matches_spec in Hn as [Hsome Hg]. repeat split; try done.
      * intros ->. by vm_compute in Hg.
      * by apply Hslash.
      * cbn. apply not_elem_of_nil.
    + unfold w1, set_cwd. cbn [w_cwd]. apply lookup_insert_eq.
    + rewrite (bind_ok _ _ _ _ _ Hrun). cbn [app] in Hdir.
      assert (w_cwd w2 !! predictions_tar_gz = w_cwd w !! predictions_tar_gz) as Htar.
      { rewrite Hkeep.
        - unfold w1, set_cwd. cbn [w_cwd]. by rewrite lookup_insert_ne.
        - intros Hin. apply matches_spec in Hin as [_ Hg]. by vm_compute in Hg.
        - done. }
      assert (entries_of (w_cwd w1) (matches (w_cwd w1))
              ≡ₚ entries_of (w_cwd w) (matches (w_cwd w))) as Hes.
      { rewrite (entries_of_ext (w_cwd w1) (w_cwd w)).
        - unfold entries_of. by rewrite Hperm.
        - intros n Hn. apply matches_spec in Hn as [_ Hg].
          unfold w1, set_cwd. cbn [w_cwd]. rewrite lookup_insert_ne; [done|].
          intros <-. by vm_compute in Hg. }
      rewrite (tar_ok predictions predictions_tar_gz _ w2 ltac:(unfold writable in *; by rewrite Htar) Hdir ltac:(done)).
      cbn [fst snd]. split; [done|].
      exists (entries_of (w_cwd w1) (matches (w_cwd w1))), TarPlain.
      unfold set_cwd. cbn [w_cwd]. repeat split.
      * done.
      * by rewrite lookup_insert_ne.
      * intros n Hn. rewrite lookup_insert_ne.
        -- apply Hgone. by rewrite Hperm.
        -- intros <-. apply matches_spec in Hn as [_ Hg]. by vm_compute in Hg.
      * by rewrite lookup_insert_eq.
      * rewrite (count_events_trace is_tar (add_event (EvTar predictions predictions_tar_gz) w2))
          by done.
        rewrite count_events_add. cbn [is_tar].
        rewrite (count_events_trace is_tar w w2) by (by rewrite Htr). lia.
  - by intros _ [? ?].
Qed.

Lemma no_slash_check names :
  forallb (fun n => negb (existsb (Z.eqb slash) n)) names = true ->
  forall n, n ∈ names -> slash ∉ n.
Proof.
  rewrite forallb_forall. intros Hall n Hn Hin.
  apply list_elem_of_In in Hn. apply Hall in Hn.
  apply negb_true_iff, not_true_iff_false in Hn. apply Hn.
  apply existsb_exists. exists slash. split; [by apply list_elem_of_In|].
  apply Z.eqb_refl.
Qed.

Lemma collect_outputs_spec_witness :
  let w := boot (host_with (fun _ => None) failing_runtime) two_results in
  let r := collect_outputs w in
  r.1 = Ok tt /\
  exists es mode,
    es ≡ₚ entries_of (w_cwd w) (matches (w_cwd w)) /\
    w_cwd r.2 !! predictions = Some (Dir es) /\
    (forall n, n ∈ matches (w_cwd w) -> w_cwd r.2 !! n = None) /\
    w_cwd r.2 !! predictions_tar_gz = Some (TarFile mode [(predictions, Dir es)]) /\
    count_events is_tar r.2 = S (count_events is_tar w).
Proof.
  intros w.
  apply (proj1 (proj2 (collect_outputs_spec w))).
  - by vm_compute.
  - reflexivity.
  - reflexivity.
  - apply no_slash_check. by vm_compute.
Defined.

(** C10 (the input on which the claim fails).  A result file is there,
    and so is an entry named [predictions]: the run raises although the
    number of matching files is not zero. *)
Lemma staging_taken_counterexample :
  let w := boot (host_with (fun _ => None) failing_runtime) staging_taken in
  matches (w_cwd w) = [lit "BraTS2021_00001.nii.gz"] /\
  (collect_outputs w).1 = Raise (FileExistsError predictions) /\
  w_cwd (collect_outputs w).2 = w_cwd w.
Proof. repeat split; by vm_compute. Qed.

(** The archive is opened with mode ["w"]. *)
Lemma archive_mode_is_plain :
  let w := boot (host_with (fun _ => None) failing_runtime) two_results in
  exists ms, w_cwd (collect_outputs w).2 !! predictions_tar_gz = Some (TarFile TarPlain ms).
Proof. eexists. by vm_compute. Qed.

(** ** What follows the loop *)

Lemma tar_trace d t w : w_trace (tar d t w).2 = w_trace w ++ [EvTar d t].
Proof.
  unfold tar, tarfile_open, tarfile_add. run. cbn.
  destruct (w_cwd w !! t) as [[]|]; cbn; try done;
    match goal with |- context [?m !! d] => by destruct (m !! d) end.
Qed.

Lemma collect_outputs_no_launch w :
  count_events is_run (collect_outputs w).2 = count_events is_run w.
Proof.
  unfold collect_outputs. rewrite (bind_ok _ _ _ _ _ (glob_star_nii w)).
  destruct (matches (w_cwd w)) as [|n0 found]; [done|].
  unfold bind at 1. unfold os_mkdir at 1.
  destruct (w_cwd w !! predictions); [done|].
  set (w1 := set_cwd (insert predictions (Dir [])) w).
  rewrite (bind_ok _ _ _ _ _ (glob_star_nii w1)). unfold bind at 1.
  pose proof (for_each_rename_outcome (path_join predictions) (matches (w_cwd w1)) w1)
    as [Htr _]. cbv zeta in Htr.
  destruct (for_each _ _ w1) as [[[]|e|] w2]; cbn [fst snd] in *;
    try (by apply count_events_trace).
  rewrite (count_events_trace is_run (add_event (EvTar predictions predictions_tar_gz) w2))
    by apply tar_trace.
  rewrite count_events_add. cbn [is_run].
  rewrite (count_events_trace is_run w w2) by done. lia.
Qed.

Lemma print_run text w : print text w = (Ok tt, add_event (EvPrint text) w).
Proof. done. Qed.

Lemma remove_docker_image_ok image w :
  exists w', remove_docker_image image w = (Ok tt, w') /\
             w_cwd w' = w_cwd w /\
             count_events is_run w' = count_events is_run w.
Proof.
  unfold remove_docker_image, images_remove, print. run. cbn.
  destruct (h_rmi (w_host w)); cbn; eexists; (split; [done|]); split; try done.
  - by rewrite !count_events_add, !Nat.add_0_r.
  - by rewrite !count_events_add, !Nat.add_0_r.
Qed.

Lemma finish_spec image w :
  count_events is_run (finish image w).2 = count_events is_run w /\
  (matches (w_cwd w) = [] -> (finish image w).1 = Raise no_results).
Proof.
  unfold finish.
  rewrite (bind_ok _ _ _ _ _ (print_run (lit "finished inference") w)).
  destruct (remove_docker_image_ok image (add_event (EvPrint (lit "finished inference")) w))
    as (w' & Hrm & Hcwd & Hrun).
  rewrite (bind_ok _ _ _ _ _ Hrm).
  split.
  - rewrite collect_outputs_no_launch, Hrun. by rewrite count_events_add, Nat.add_0_r.
  - intros Hm. rewrite collect_outputs_empty; [done|]. by rewrite Hcwd.
Qed.

Lemma walk_not_dir top n : (forall es, n <> Dir es) -> walk top n = [].
Proof. destruct n; [done| |done]. intros H. by destruct (H entries). Qed.

(** C7 (as amended).  When the input root is missing or is not a
    directory the enumeration raises nothing and yields no case unit:
    the run goes straight on to what follows the loop, no container is
    launched, and the run fails only there, with the no-result error,
    when the working directory holds no result file. *)
Theorem missing_root_skips_the_loop
    fuel sid repo digest input cfg rt st parent status w :
  status <> lit "INVALID" ->
  h_login (w_host w) = None ->
  (forall es, h_input (w_host w) input <> Some (Dir es)) ->
  let r := main fuel (parse_args sid repo digest input cfg rt st parent status) w in
  r = finish (repo ++ lit "@" ++ digest)
        (add_event (EvPrint (h_user (w_host w))) (add_event (EvLogin (PyStr cfg)) w)) /\
  count_events is_run r.2 = count_events is_run w /\
  (matches (w_cwd w) = [] -> r.1 = Raise no_results).
Proof.
  intros Hst Hlogin Hroot. cbv zeta.
  assert (main fuel (parse_args sid repo digest input cfg rt st parent status) w
          = finish (repo ++ lit "@" ++ digest)
              (add_event (EvPrint (h_user (w_host w))) (add_event (EvLogin (PyStr cfg)) w)))
    as ->.
  { rewrite (main_preamble fuel _ w status (PyStr cfg) repo digest input)
      by (done || apply cli_status || apply cli_synapse_config
          || apply cli_docker_repository || apply cli_docker_digest
          || apply cli_input_dir).
    assert (input_triples (w_host w) input = []) as ->; [|done].
    unfold input_triples. destruct (h_input (w_host w) input) as [n|] eqn:E; [|done].
    apply walk_not_dir. intros es ->. by apply (Hroot es). }
  split; [done|].
  destruct (finish_spec (repo ++ lit "@" ++ digest)
              (add_event (EvPrint (h_user (w_host w))) (add_event (EvLogin (PyStr cfg)) w)))
    as [Hrun Hraise].
  split; [|done].
  by rewrite Hrun, !count_events_add, !Nat.add_0_r.
Qed.

Lemma missing_root_skips_the_loop_witness :
  let w := boot (host_with (fun _ => None) failing_runtime) ∅ in
  let r := main 0 (cli_args None false) w in
  r = finish (lit "repo" ++ lit "@" ++ lit "sha256:ab")
        (add_event (EvPrint (h_user (w_host w))) (add_event (EvLogin (PyStr (lit "cfg"))) w)) /\
  count_events is_run r.2 = count_events is_run w /\
  (matches (w_cwd w) = [] -> r.1 = Raise no_results).
Proof.
  intros w.
  apply (missing_root_skips_the_loop 0 (lit "9700") (lit "repo") (lit "sha256:ab")
           (lit "/in") (lit "cfg") None false (lit "syn1") (lit "VALIDATED") w).
  - by vm_compute.
  - reflexivity.
  - intros es. by vm_compute.
Defined.

(** C7 (the input on which the claim fails).  The input root does not
    exist and the working directory holds a result file: the run ends
    without raising anything. *)
Lemma missing_root_counterexample :
  let w := boot (host_with (fun _ => None) failing_runtime)
             {[ lit "BraTS2021_00001.nii.gz" := File [] ]} in
  h_input (w_host w) (lit "/in") = None /\
  (main 0 (cli_args None false) w).1 = Ok tt.
Proof. split; by vm_compute. Qed.

(** ** The execution monitor *)

Lemma filter_bool {A} (p : A -> bool) (l : list A) :
  filter (fun x => p x = true) l = List.filter p l.
Proof.
  induction l as [|x l IH]; [done|]. cbn [List.filter].
  destruct (p x) eqn:E.
  - by rewrite filter_cons_True, IH.
  - rewrite filter_cons_False, IH; [done|]. by rewrite E.
Qed.

Lemma count_events_app p w w' evs :
  w_trace w' = w_trace w ++ evs ->
  count_events p w' = (count_events p w + length (List.filter p evs))%nat.
Proof.
  unfold count_events. intros ->. by rewrite filter_app, length_app, (filter_bool p evs).
Qed.


Lemma live_in_list now cs cid :
  cid ∈ (filter (fun ic : nat * container => live_at now ic.2 = true)
           (imap (fun i c => (i, c)) cs)).*1
  <-> exists c, cs !! cid = Some c /\ live_at now c = true.
Proof.
  rewrite list_elem_of_fmap. split.
  - intros ([i c] & -> & Hin). apply list_elem_of_filter in Hin as [Hl Hin].
    apply elem_of_lookup_imap in Hin as (j & y & [= -> ->] & Hy). eauto.
  - intros (c & Hc & Hl). exists (cid, c). split; [done|].
    apply list_elem_of_filter. split; [done|].
    by apply (elem_of_lookup_imap_2 (fun i c => (i, c))).
Qed.

Lemma live_at_started now c : live_at now c = true -> c_state c = Started.
Proof. unfold live_at. by destruct (c_state c). Qed.

Lemma container_stop_started cid c w :
  w_containers w !! cid = Some c -> c_state c = Started ->
  container_stop cid w =
  (Ok tt, set_containers (alter (with_state (Stopped (w_clock w))) cid (w_containers w))
            (add_event (EvStop cid) w)).
Proof.
  intros Hc Hs. unfold container_stop, on_container, update_state, time_time. run.
  cbn. by rewrite Hc, Hs.
Qed.

Lemma container_remove_exited cid c w :
  w_containers w !! cid = Some c -> c_state c <> Removed ->
  live_at (w_clock w) c = false ->
  container_remove cid w =
  (Ok tt, set_containers (alter (with_state Removed) cid (w_containers w))
            (add_event (EvRemove cid) w)).
Proof.
  intros Hc Hs Hl. unfold container_remove, on_container, update_state, time_time. run.
  cbn. rewrite Hc. destruct (c_state c) eqn:E; try done; by rewrite Hl.
Qed.

Lemma containers_list_run w :
  containers_list w =
  (Ok (filter (fun ic : nat * container => live_at (w_clock w) ic.2 = true)
         (imap (fun i c => (i, c)) (w_containers w))).*1,
   add_event EvList w).
Proof. done. Qed.

Lemma time_time_run w : time_time w = (Ok (w_clock w), w).
Proof. done. Qed.

Lemma getattr_run (args : gmap string pyval) name v w :
  args !! name = Some v -> getattr args name w = (Ok v, w).
Proof. unfold getattr. by intros ->. Qed.

Lemma ret_run {A} (a : A) w : ret a w = (Ok a, w).
Proof. done. Qed.

Ltac step H := rewrite (bind_ok _ _ _ _ _ H).





Section monitor.
Variables (args : gmap string pyval) (log_filename case_id : pystr).
Variables (q : Z) (parentid store : pyval).
Hypothesis Hquota : args !! "runtime_quota" = Some (PyInt q).
Hypothesis Hparent : args !! "parentid" = Some parentid.
Hypothesis Hstore : args !! "store" = Some store.


End monitor.


(** The scenario of the specification, run through [main]: quota 90
    seconds, ticks every 60 seconds, an instance that never exits.  The
    ticks at 0 and 60 drain; the tick at 120 stops the instance, once. *)
Example quota_90_poll_60 :
  let w := boot (host_with (only_at (lit "/in") one_case)
                   (fun _ _ => RunStarts runs_forever))
             {[ lit "BraTS2021_00001.nii.gz" := File [] ]} in
  let r := main 3 (caller_args 90 false) w in
  r.1 = Ok tt /\
  count_events (is_stop_of 0) r.2 = 1%nat /\
  count_events is_sleep r.2 = 2%nat /\
  w_clock r.2 = 120 /\
  w_cwd r.2 !! log_name
    = Some (File (lit "Time limit of 90s reachedfor case 00001 - no output generated.")) /\
  last (stored_texts r.2)
    = Some (lit "Time limit of 90s reachedfor case 00001 - no output generated.").
Proof. repeat split; by vm_compute. Qed.

(** A quota read from the command line is a [str]: the comparison at
    the first tick that finds the instance live raises [TypeError]. *)
Lemma poll_with_cli_quota fuel (args : gmap string pyval) fn cid start te0 c w text :
  args !! "runtime_quota" = Some (PyStr text) ->
  w_containers w !! cid = Some c ->
  live_at (w_clock w) c = true ->
  poll (S fuel) args fn cid start te0 w = (Raise TypeError, add_event EvList w).
Proof.
  intros Hq Hc Hl. cbn [poll].
  step (containers_list_run w).
  rewrite bool_decide_eq_true_2 by (apply live_in_list; eauto).
  step (time_time_run (add_event EvList w)).
  step (getattr_run args "runtime_quota" _ (add_event EvList w) Hq).
  done.
Qed.

(** C9.  Each drain replaces what the log file held: after any
    sequence of drains of decodable snapshots the file holds the
    normalisation of the last snapshot alone.  In particular, for an
    instance that exits between two ticks having printed "line1", a
    newline and "line2", the log file ends up holding exactly that
    text, and that text is what reached the storage service last. *)
Theorem each_drain_replaces_the_log log_filename parentid store snaps final text w :
  writable w log_filename = true ->
  Forall (fun bs => is_Some (utf8_decode bs)) snaps ->
  utf8_decode final = Some text ->
  (let r := for_each (snaps ++ [final])
              (fun bs => create_log_file log_filename (Some (LogBytes bs));;;
                         store_log_file log_filename parentid store) w in
   r.1 = Ok tt /\ w_cwd r.2 !! log_filename = Some (File (ascii_ignore text))) /\
  (let r := main 4 (caller_args 3600 false)
              (boot (host_with (only_at (lit "/in") one_case)
                       (fun _ _ => RunStarts exits_between_ticks)) ∅) in
   r.1 = Ok tt /\
   count_events is_logs r.2 = 3%nat /\
   w_cwd r.2 !! log_name = Some (File line1_line2) /\
   last (stored_texts r.2) = Some line1_line2).
Proof.
  intros Hw Hall Hfinal. split.
  - by apply drains_keep_last.
  - repeat split; by vm_compute.
Qed.

Lemma each_drain_replaces_the_log_witness :
  (let r := for_each ([accented] ++ [line1_line2_bytes])
              (fun bs => create_log_file log_name (Some (LogBytes bs));;;
                         store_log_file log_name (PyStr (lit "syn1")) (PyBool false))
              at_tick_120 in
   r.1 = Ok tt /\ w_cwd r.2 !! log_name = Some (File (ascii_ignore line1_line2))) /\
  (let r := main 4 (caller_args 3600 false)
              (boot (host_with (only_at (lit "/in") one_case)
                       (fun _ _ => RunStarts exits_between_ticks)) ∅) in
   r.1 = Ok tt /\
   count_events is_logs r.2 = 3%nat /\
   w_cwd r.2 !! log_name = Some (File line1_line2) /\
   last (stored_texts r.2) = Some line1_line2).
Proof.
  apply (each_drain_replaces_the_log log_name (PyStr (lit "syn1")) (PyBool false)
           [accented] line1_line2_bytes line1_line2 at_tick_120).
  - reflexivity.
  - repeat constructor. vm_compute. eauto.
  - by vm_compute.
Defined.

(** ** Case enumeration *)

(** Induction on a directory tree. *)
Lemma node_tree_ind (P : node -> Prop) :
  (forall c, P (File c)) ->
  (forall mode ms, P (TarFile mode ms)) ->
  (forall es, Forall (fun e => P e.2) es -> P (Dir es)) ->
  forall n, P n.
Proof.
  intros Hfile Htar Hdir. fix IH 1. intros [c|es|mode ms].
  - apply Hfile.
  - apply Hdir. induction es as [|[name x] es IHes]; constructor.
    + apply IH.
    + apply IHes.
  - apply Htar.
Qed.

Lemma walk_dir top es :
  walk top (Dir es) = (top, subdirs es, nondirs es) :: walk_entries top es.
Proof.
  cbn [walk]. f_equal.
  induction es as [|[name x] es IH]; [done|]. cbn [walk_entries]. by rewrite <- IH.
Qed.

Lemma dirs_below_cons name x es :
  dirs_below (Dir ((name, x) :: es)) =
  ((match x with Dir _ => 1 | _ => 0 end) + dirs_below x + dirs_below (Dir es))%nat.
Proof. done. Qed.

Lemma case_units_app a b : case_units (a ++ b) = case_units a ++ case_units b.
Proof. unfold case_units. apply flat_map_app. Qed.

Lemma case_units_cons top dirs files rest :
  case_units ((top, dirs, files) :: rest) =
  map (fun sub_dir => (path_join top sub_dir, last_chars 5 (path_join top sub_dir))) dirs
  ++ case_units rest.
Proof. done. Qed.

Lemma subdirs_cons name x es :
  subdirs ((name, x) :: es) =
  match x with Dir _ => name :: subdirs es | _ => subdirs es end.
Proof. by destruct x. Qed.

(** X2.  [os.walk] descends: there is one case unit for every directory
    below the root, at any depth. *)
Lemma case_units_count n : forall top,
  length (case_units (walk top n)) = dirs_below n.
Proof.
  induction n as [c|mode ms|es IH] using node_tree_ind; intros top; [done..|].
  rewrite walk_dir, case_units_cons, length_app, length_map.
  induction IH as [|[name x] es Hx _ IHes]; [done|].
  cbn [walk_entries]. rewrite case_units_app, length_app, dirs_below_cons, subdirs_cons.
  cbn [snd] in Hx. rewrite (Hx (path_join top name)).
  destruct x; cbn [length]; lia.
Qed.

Lemma walk_entries_no_dirs top es : subdirs es = [] -> walk_entries top es = [].
Proof.
  induction es as [|[name x] es IH]; [done|]. rewrite subdirs_cons.
  destruct x; try done; intros H; cbn [walk_entries walk]; by rewrite IH.
Qed.

Lemma walk_entries_flat top es : flat es -> case_units (walk_entries top es) = [].
Proof.
  induction es as [|[name x] es IH]; intros Hflat; [done|].
  cbn [walk_entries]. rewrite case_units_app, IH.
  - rewrite app_nil_r. destruct x as [c|sub|mode ms]; [done| |done].
    rewrite walk_dir, case_units_cons.
    rewrite (Hflat name sub) by by left.
    by rewrite walk_entries_no_dirs by (apply (Hflat name sub); by left).
  - intros k sub Hin. apply (Hflat k sub). by right.
Qed.

Lemma path_join_nonempty a b : b <> [] -> path_join a b <> [].
Proof.
  intros Hb. unfold path_join.
  destruct (startswith (lit "/") b); [done|].
  destruct (Nat.eqb (length a) 0 || endswith (lit "/") a).
  - intros H. by apply app_eq_nil in H as [_ ?].
  - intros H. apply app_eq_nil in H as [_ H]. by apply app_eq_nil in H as [? _].
Qed.

Lemma last_chars_nonempty n s : (0 < n)%nat -> s <> [] -> last_chars n s <> [].
Proof.
  intros Hn Hs H. apply (f_equal length) in H. unfold last_chars in H.
  rewrite length_drop in H. destruct s; [done|]. cbn [length] in H. lia.
Qed.

Lemma last_chars_suffix n s : take (length s - n) s ++ last_chars n s = s.
Proof. apply take_drop. Qed.

Lemma last_chars_length n s : length (last_chars n s) = Nat.min n (length s).
Proof. unfold last_chars. rewrite length_drop. lia. Qed.

(** X3.  On a tree whose case folders hold no directory, the enumeration is
    what the claim describes: one unit per immediate subdirectory, in
    listing order, with the last five characters of its path as
    non-empty identifier. *)
Lemma case_units_flat top es :
  flat es ->
  Forall (fun e => e.1 <> []) es ->
  let units := case_units (walk top (Dir es)) in
  units = map (fun sub_dir => (path_join top sub_dir, last_chars 5 (path_join top sub_dir)))
            (subdirs es) /\
  length units = length (subdirs es) /\
  Forall (fun u => u.2 <> [] /\ u.2 = last_chars 5 u.1) units.
Proof.
  intros Hflat Hnames. cbv zeta.
  rewrite walk_dir, case_units_cons, (walk_entries_flat _ _ Hflat), app_nil_r.
  split; [done|]. split; [by rewrite length_map|].
  apply Forall_forall. intros u Hin.
  apply list_elem_of_In, in_map_iff in Hin as (sub & <- & Hsub).
  cbn [fst snd]. split; [|done].
  apply last_chars_nonempty; [lia|]. apply path_join_nonempty.
  unfold subdirs in Hsub. apply list_elem_of_In, list_elem_of_omap in Hsub as ([k x] & Hin & Hk).
  rewrite Forall_forall in Hnames. specialize (Hnames _ Hin).
  cbn [fst snd] in *. destruct x; by simplify_eq.
Qed.

(** C3 (the input on which the claim fails).  The input root has one
    immediate subdirectory, which holds a directory [extra]: the
    enumeration yields two case units, the second for the nested
    directory, with [extra] as case identifier. *)
Theorem nested_directory_becomes_a_case :
  let h := host_with (only_at (lit "/in") nested_case) failing_runtime in
  (exists es, h_input h (lit "/in") = Some (Dir es) /\ length (subdirs es) = 1%nat) /\
  case_units (input_triples h (lit "/in")) =
    [(lit "/in/BraTS2021_00001", lit "00001");
     (lit "/in/BraTS2021_00001/extra", lit "extra")].
Proof. split; [eexists; split; by vm_compute | by vm_compute]. Qed.

(** ** The launch-failure path *)

Ltac count_trace :=
  repeat first
    [ rewrite count_events_add
    | match goal with
      | |- context [count_events ?p (set_containers ?cs ?w)] =>
          change (count_events p (set_containers cs w)) with (count_events p w)
      end ].

Lemma raise_run {A} e w : @raise A e w = (Raise e, w).
Proof. done. Qed.

Lemma try_except_caught {A} (m : M A) sel h w e w' :
  m w = (Raise e, w') -> sel e = true -> try_except m sel h w = h e w'.
Proof. unfold try_except. by intros -> ->. Qed.

(** The cleanup never raises: whatever [get], [stop] or [remove]
    answer is caught and printed. *)
Lemma remove_docker_container_ok name w :
  exists w',
    remove_docker_container name w = (Ok tt, w') /\
    w_cwd w' = w_cwd w /\
    count_events (is_cleanup_of name) w' = S (count_events (is_cleanup_of name) w) /\
    count_events is_run w' = count_events is_run w.
Proof.
  unfold remove_docker_container, containers_get, container_stop, container_remove,
    on_container, update_state, time_time, print.
  run. cbn -[filter imap live_at].
  destruct (filter _ _) as [|[i c0] rest]; cbn -[live_at].
  { eexists. split; [done|]. split; [done|]. count_trace. cbn [is_cleanup_of is_run].
    rewrite bool_decide_eq_true_2 by done. lia. }
  destruct (w_containers w !! i) as [c|] eqn:Hc; cbn -[live_at];
    [|eexists; split; [done|]; split; [done|]; count_trace; cbn [is_cleanup_of is_run];
      rewrite bool_decide_eq_true_2 by done; lia].
  destruct (c_state c) eqn:Hs; cbn -[live_at]; rewrite ?list_lookup_alter_eq, ?Hc;
    cbn -[live_at]; rewrite ?Hs; cbn -[live_at];
    repeat match goal with
    | |- context [if live_at ?t ?x then _ else _] => destruct (live_at t x); cbn -[live_at]
    end;
    eexists; (split; [done|]); (split; [done|]); count_trace; cbn [is_cleanup_of is_run];
    rewrite bool_decide_eq_true_2 by done; lia.
Qed.

(** X4.  A failed launch while no handle was ever bound: the cleanup runs
    once, and the read of [container] at line 159 raises
    [UnboundLocalError], which nothing catches. *)
Lemma launch_failure_with_unbound_handle
    fuel (args : gmap string pyval) image out case_folder case_id vars w sid sub err leftover :
  args !! "subissionid" = Some sid ->
  args !! "submissionid" = Some (PyStr sub) ->
  h_run (w_host w) (w_launches w) (py_str sid ++ lit "_case" ++ case_id)
    = RunFails err leftover ->
  l_container vars = None ->
  writable w (sub ++ lit "_log.txt") = true ->
  let name := py_str sid ++ lit "_case" ++ case_id in
  let r := case_body fuel args image out (case_folder, case_id) vars w in
  r.1 = Raise (UnboundLocalError "container") /\
  count_events (is_cleanup_of name) r.2 = S (count_events (is_cleanup_of name) w) /\
  count_events is_run r.2 = S (count_events is_run w).
Proof.
  intros Hsid Hsub Hrun Hunbound Hw. cbv zeta. unfold case_body.
  step (print_run (lit "mounting volumes") w).
  set (w1 := add_event _ w).
  step (print_run (lit "running container") w1).
  set (w2 := add_event _ w1).
  step (time_time_run w2).
  step (getattr_run args "subissionid" _ w2 Hsid).
  set (name := py_str sid ++ lit "_case" ++ case_id).
  set (volumes := format_volumes out case_folder).
  set (w3 := (if leftover
              then set_containers
                     (w_containers w ++
                      [{| c_name := name; c_launched := w_clock w;
                          c_behaviour := {| b_exit_after := Some 0;
                                            b_output := fun _ => [];
                                            b_results := [] |};
                          c_state := Created |}])
              else fun x => x)
               (add_event (EvRun image name volumes) (set_launches (S (w_launches w)) w2))).
  assert (containers_run image name volumes w2 = (Raise (APIError err), w3)) as Hfail.
  { unfold containers_run.
    change (h_run (w_host w2) (w_launches w2) name)
      with (h_run (w_host w) (w_launches w) (py_str sid ++ lit "_case" ++ case_id)).
    rewrite Hrun. unfold w3. by destruct leftover. }
  destruct (remove_docker_container_ok name w3) as (w4 & Hrm & Hcwd4 & Hclean & Hruns).
  assert (w_cwd w3 = w_cwd w) as Hcwd3 by (unfold w3; by destruct leftover).
  assert (count_events (is_cleanup_of name) w3 = count_events (is_cleanup_of name) w
          /\ count_events is_run w3 = S (count_events is_run w)) as [Hc3 Hr3].
  { unfold w3, w2, w1. destruct leftover; count_trace;
      change (count_events ?p (set_launches ?n ?x)) with (count_events p x);
      count_trace; cbn [is_cleanup_of is_run]; lia. }
  set (w5 := add_event (EvPrint (exn_text (APIError err))) w4).
  match goal with
  | |- context [try_except ?m ?sel ?h] =>
      assert (try_except m sel h w2
              = (Ok {| l_container := l_container vars;
                       l_errors := Some (exn_text (APIError err) ++ newline) |}, w5))
        as Htry
  end.
  { erewrite try_except_caught; [|by apply bind_raise, Hfail|done].
    step Hrm. by step (print_run (exn_text (APIError err)) w4). }
  step Htry.
  step (print_run (lit "creating logfile") w5).
  set (w6 := add_event _ w5).
  step (getattr_run args "submissionid" _ w6 Hsub).
  unfold py_concat, lift. step (ret_run (sub ++ lit "_log.txt") w6).
  assert (open_w (sub ++ lit "_log.txt") w6
          = (Ok tt, set_cwd (insert (sub ++ lit "_log.txt") (File [])) w6)) as Hopen.
  { unfold open_w, writable in *. change (w_cwd w6) with (w_cwd w4).
    rewrite Hcwd4, Hcwd3. by destruct (w_cwd w !! (sub ++ lit "_log.txt")) as [[]|]. }
  step Hopen. cbn [l_container]. rewrite Hunbound.
  unfold read_local.
  rewrite (bind_raise _ _ _ _ _ (raise_run (UnboundLocalError "container") _)).
  cbn [fst snd]. split; [done|].
  change (count_events ?p (set_cwd ?f ?x)) with (count_events p x).
  unfold w6, w5. count_trace. cbn [is_cleanup_of is_run].
  rewrite Hclean, Hruns, Hc3, Hr3. lia.
Qed.

(** C1 (the input on which the claim fails).  Two case folders and a
    runtime whose launches fail: the cleanup is called once for the
    first case, then the read of the unbound [container] raises
    [UnboundLocalError] out of [main]; the second case is never
    attempted. *)
Theorem launch_failure_aborts_the_run :
  let w := boot (host_with (only_at (lit "/in") two_cases) failing_runtime) ∅ in
  let r := main 3 (caller_args 90 false) w in
  length (case_units (input_triples (w_host w) (lit "/in"))) = 2%nat /\
  r.1 = Raise (UnboundLocalError "container") /\
  count_events (is_cleanup_of (lit "9700_case00001")) r.2 = 1%nat /\
  count_events is_run r.2 = 1%nat.
Proof. repeat split; by vm_compute. Qed.

(** The same failure once an earlier case has run: [container] is
    still bound to the handle of the first case, which was removed, and
    the final drain on it raises [NotFound] out of [main]. *)
Example launch_failure_after_a_success :
  let w := boot (host_with (only_at (lit "/in") two_cases) second_launch_fails) ∅ in
  let r := main 4 (caller_args 3600 false) w in
  r.1 = Raise (NotFound (lit "9700_case00001")) /\
  count_events (is_cleanup_of (lit "9700_case00002")) r.2 = 1%nat /\
  count_events is_run r.2 = 2%nat.
Proof. repeat split; by vm_compute. Qed.

(** * Further properties *)

(** ** The log sink, continued *)

Lemma utf8_decode_all_ascii bs :
  Forall (fun b => byte_val b < 0x80) bs -> utf8_decode bs = Some (byte_val <$> bs).
Proof.
  induction 1 as [|b bs Hb _ IH]; [done|].
  cbn [utf8_decode]. apply Z.ltb_lt in Hb. by rewrite Hb, IH.
Qed.

Lemma ascii_bytes_all_ascii bs :
  Forall (fun b => byte_val b < 0x80) bs -> ascii_bytes bs = byte_val <$> bs.
Proof.
  induction 1 as [|b bs Hb _ IH]; [done|].
  rewrite ascii_bytes_cons_keep by by apply Z.ltb_lt. by rewrite IH.
Qed.

Lemma ascii_ignore_is_ascii s : Forall (fun c => is_ascii c = true) (ascii_ignore s).
Proof.
  induction s as [|c s IH]; [constructor|].
  destruct (is_ascii c) eqn:E.
  - rewrite ascii_ignore_cons_keep by done. by constructor.
  - by rewrite ascii_ignore_cons_drop.
Qed.

Lemma ascii_ignore_shorter s : (length (ascii_ignore s) <= length s)%nat.
Proof. apply length_filter. Qed.

Lemma write_log_other fn text w k :
  k <> fn -> w_cwd (write_log fn text w) !! k = w_cwd w !! k.
Proof. intros. unfold write_log, set_cwd. cbn [w_cwd]. by rewrite lookup_insert_ne. Qed.

(** X5.  ASCII output is written verbatim: the file holds the bytes it was
    given and [os.stat] reports their number. *)
Theorem create_log_file_ascii_verbatim log_filename bs w :
  writable w log_filename = true ->
  Forall (fun b => byte_val b < 0x80) bs ->
  let r := create_log_file log_filename (Some (LogBytes bs)) w in
  r.1 = Ok tt /\
  w_cwd r.2 !! log_filename = Some (File (byte_val <$> bs)) /\
  (os_stat_size log_filename r.2).1 = Ok (Z.of_nat (length bs)) /\
  (forall k, k <> log_filename -> w_cwd r.2 !! k = w_cwd w !! k).
Proof.
  intros Hw Hall. cbv zeta.
  rewrite (create_log_file_bytes _ _ _ _ Hw (utf8_decode_all_ascii bs Hall)).
  rewrite (utf8_decode_ascii _ _ (utf8_decode_all_ascii bs Hall)).
  rewrite (ascii_bytes_all_ascii bs Hall). cbn [fst snd].
  split; [done|]. split; [apply write_log_lookup|]. split.
  - unfold os_stat_size. rewrite write_log_lookup. cbn [fst node_size].
    by rewrite length_fmap.
  - intros k Hk. by apply write_log_other.
Qed.

Lemma create_log_file_ascii_verbatim_witness :
  let r := create_log_file log_name (Some (LogBytes line1_line2_bytes)) at_tick_120 in
  r.1 = Ok tt /\
  w_cwd r.2 !! log_name = Some (File (byte_val <$> line1_line2_bytes)) /\
  (os_stat_size log_name r.2).1 = Ok (Z.of_nat (length line1_line2_bytes)) /\
  (forall k, k <> log_name -> w_cwd r.2 !! k = w_cwd at_tick_120 !! k).
Proof.
  apply (create_log_file_ascii_verbatim log_name line1_line2_bytes at_tick_120).
  - reflexivity.
  - repeat constructor; by vm_compute.
Defined.

(** X6.  A [str], or no text at all, never makes [create_log_file] raise:
    the file holds the ASCII characters of the text in order (a text
    that writing again would leave unchanged), or the seven characters
    "No Logs", and no other entry of the directory changes. *)
Theorem create_log_file_of_text log_filename s w :
  writable w log_filename = true ->
  (let r := create_log_file log_filename (Some (LogStr s)) w in
   r.1 = Ok tt /\
   w_cwd r.2 !! log_filename = Some (File (ascii_ignore s)) /\
   Forall (fun c => is_ascii c = true) (ascii_ignore s) /\
   (length (ascii_ignore s) <= length s)%nat /\
   create_log_file log_filename (Some (LogStr (ascii_ignore s))) r.2 = (Ok tt, r.2) /\
   (forall k, k <> log_filename -> w_cwd r.2 !! k = w_cwd w !! k)) /\
  (let r := create_log_file log_filename None w in
   r.1 = Ok tt /\
   w_cwd r.2 !! log_filename = Some (File (lit "No Logs")) /\
   (os_stat_size log_filename r.2).1 = Ok 7 /\
   (forall k, k <> log_filename -> w_cwd r.2 !! k = w_cwd w !! k)).
Proof.
  intros Hw. split; cbv zeta.
  - rewrite (create_log_file_str _ s _ Hw). cbn [fst snd].
    split; [done|]. split; [apply write_log_lookup|].
    split; [apply ascii_ignore_is_ascii|]. split; [apply ascii_ignore_shorter|].
    split; [|intros k Hk; by apply write_log_other].
    rewrite create_log_file_str by apply write_log_writable.
    rewrite (ascii_ignore_id _ (ascii_ignore_is_ascii s)).
    by rewrite write_log_twice.
  - assert (create_log_file log_filename None w
            = (Ok tt, write_log log_filename (lit "No Logs") w)) as ->.
    { unfold writable, create_log_file, open_w, file_write in *. run.
      destruct (w_cwd w !! log_filename) as [[]|]; try done;
        by rewrite open_then_write. }
    cbn [fst snd]. split; [done|]. split; [apply write_log_lookup|]. split.
    + unfold os_stat_size. by rewrite write_log_lookup.
    + intros k Hk. by apply write_log_other.
Qed.

Lemma create_log_file_of_text_witness :
  (let r := create_log_file log_name (Some (LogStr (quota_message (PyInt 90) (lit "00001"))))
              at_tick_120 in
   r.1 = Ok tt /\
   w_cwd r.2 !! log_name
     = Some (File (ascii_ignore (quota_message (PyInt 90) (lit "00001")))) /\
   Forall (fun c => is_ascii c = true) (ascii_ignore (quota_message (PyInt 90) (lit "00001"))) /\
   (length (ascii_ignore (quota_message (PyInt 90) (lit "00001")))
    <= length (quota_message (PyInt 90) (lit "00001")))%nat /\
   create_log_file log_name
     (Some (LogStr (ascii_ignore (quota_message (PyInt 90) (lit "00001"))))) r.2 = (Ok tt, r.2) /\
   (forall k, k <> log_name -> w_cwd r.2 !! k = w_cwd at_tick_120 !! k)) /\
  (let r := create_log_file log_name None at_tick_120 in
   r.1 = Ok tt /\
   w_cwd r.2 !! log_name = Some (File (lit "No Logs")) /\
   (os_stat_size log_name r.2).1 = Ok 7 /\
   (forall k, k <> log_name -> w_cwd r.2 !! k = w_cwd at_tick_120 !! k)).
Proof.
  apply (create_log_file_of_text log_name (quota_message (PyInt 90) (lit "00001")) at_tick_120).
  reflexivity.
Defined.

Lemma never_utf8_lead b :
  never_utf8 b = true ->
  (byte_val b <? 0x80) = false /\
  in_range 0xC2 0xDF (byte_val b) = false /\
  in_range 0xE0 0xEF (byte_val b) = false /\
  in_range 0xF0 0xF4 (byte_val b) = false.
Proof.
  unfold never_utf8, in_range. intros H.
  apply orb_true_iff in H as [H|H]; [apply orb_true_iff in H as [H|H]|];
    unbool; repeat split;
    first [apply Z.ltb_ge; lia
          | apply andb_false_iff; first [left; apply Z.leb_gt; lia | right; apply Z.leb_gt; lia]].
Qed.

Lemma never_utf8_not_cont b : never_utf8 b = true -> is_cont (byte_val b) = false.
Proof.
  unfold never_utf8, is_cont. intros H.
  apply orb_true_iff in H as [H|H]; [apply orb_true_iff in H as [H|H]|];
    unbool; apply andb_false_iff; right; apply Z.leb_gt; lia.
Qed.

Lemma never_utf8_not_second_of_3 b0 b :
  never_utf8 b = true -> second_of_3 b0 (byte_val b) = false.
Proof.
  intros H. pose proof (never_utf8_not_cont b H) as Hc. unfold second_of_3, in_range.
  unfold never_utf8 in H. unfold is_cont in Hc.
  destruct (b0 =? 0xE0); [|destruct (b0 =? 0xED); [|done]];
    apply orb_true_iff in H as [H|H]; try apply orb_true_iff in H as [H|H];
    unbool; apply andb_false_iff; right; apply Z.leb_gt; lia.
Qed.

Lemma never_utf8_not_second_of_4 b0 b :
  never_utf8 b = true -> second_of_4 b0 (byte_val b) = false.
Proof.
  intros H. pose proof (never_utf8_not_cont b H) as Hc. unfold second_of_4, in_range.
  unfold never_utf8 in H. unfold is_cont in Hc.
  destruct (b0 =? 0xF0); [|destruct (b0 =? 0xF4); [|done]];
    apply orb_true_iff in H as [H|H]; try apply orb_true_iff in H as [H|H];
    unbool; apply andb_false_iff; right; apply Z.leb_gt; lia.
Qed.

(** One such byte anywhere makes the strict decoding fail. *)
Lemma utf8_decode_never n bs :
  (length bs <= n)%nat ->
  Exists (fun b => never_utf8 b = true) bs -> utf8_decode bs = None.
Proof.
  revert bs. induction n as [|n IH]; intros bs Hlen Hbad.
  { destruct bs; [by apply Exists_nil in Hbad | simpl in Hlen; lia]. }
  destruct bs as [|c0 r0]; [by apply Exists_nil in Hbad|].
  cbn [utf8_decode]. simpl in Hlen.
  apply Exists_cons in Hbad as [Hbad|Hbad].
  { destruct (never_utf8_lead c0 Hbad) as (-> & -> & -> & ->). done. }
  destruct (byte_val c0 <? 0x80); [by rewrite IH by (lia || done)|].
  destruct (in_range 0xC2 0xDF (byte_val c0)).
  { destruct r0 as [|c1 r1]; [done|]. simpl in Hlen.
    apply Exists_cons in Hbad as [Hbad|Hbad];
      [by rewrite never_utf8_not_cont|].
    destruct (is_cont (byte_val c1)); [|done]. by rewrite IH by (lia || done). }
  destruct (in_range 0xE0 0xEF (byte_val c0)).
  { destruct r0 as [|c1 [|c2 r2]]; try done. simpl in Hlen.
    apply Exists_cons in Hbad as [Hbad|Hbad];
      [by rewrite never_utf8_not_second_of_3|].
    apply Exists_cons in Hbad as [Hbad|Hbad];
      [by rewrite (never_utf8_not_cont c2), andb_false_r|].
    destruct (second_of_3 _ _ && is_cont _); [|done]. by rewrite IH by (lia || done). }
  destruct (in_range 0xF0 0xF4 (byte_val c0)); [|done].
  destruct r0 as [|c1 [|c2 [|c3 r3]]]; try done. simpl in Hlen.
  apply Exists_cons in Hbad as [Hbad|Hbad];
    [by rewrite never_utf8_not_second_of_4|].
  apply Exists_cons in Hbad as [Hbad|Hbad];
    [by rewrite (never_utf8_not_cont c2), andb_false_r|].
  apply Exists_cons in Hbad as [Hbad|Hbad];
    [by rewrite (never_utf8_not_cont c3), andb_false_r|].
  destruct (second_of_4 _ _ && is_cont _ && is_cont _); [|done].
  by rewrite IH by (lia || done).
Qed.

(** X7.  Output that holds a byte [C0], [C1] or [F5..FF] anywhere cannot be
    logged: [create_log_file] raises [UnicodeDecodeError], and since the
    file was opened (and truncated) first, what it held is lost. *)
Theorem create_log_file_of_binary_output log_filename bs w :
  writable w log_filename = true ->
  Exists (fun b => never_utf8 b = true) bs ->
  let r := create_log_file log_filename (Some (LogBytes bs)) w in
  r.1 = Raise UnicodeDecodeError /\
  w_cwd r.2 !! log_filename = Some (File []) /\
  (os_stat_size log_filename r.2).1 = Ok 0.
Proof.
  intros Hw Hbad. cbv zeta.
  rewrite (create_log_file_undecodable _ _ _ Hw (utf8_decode_never _ bs (le_n _) Hbad)).
  cbn [fst snd]. split; [done|]. split; [apply write_log_lookup|].
  unfold os_stat_size. by rewrite write_log_lookup.
Qed.

Lemma create_log_file_of_binary_output_witness :
  let r := create_log_file log_name (Some (LogBytes [x6f; x6b; xff; x0a])) at_tick_120 in
  r.1 = Raise UnicodeDecodeError /\
  w_cwd r.2 !! log_name = Some (File []) /\
  (os_stat_size log_name r.2).1 = Ok 0.
Proof.
  apply (create_log_file_of_binary_output log_name [x6f; x6b; xff; x0a] at_tick_120).
  - reflexivity.
  - apply Exists_cons_tl, Exists_cons_tl, Exists_cons_hd. reflexivity.
Defined.

(** ** Log persistence, continued *)


(** X9.  A store call that fails with [SynapseHTTPError] is caught: its
    text is printed, [store_log_file] returns normally and the call is
    not made again. *)
Theorem store_failure_is_printed log_filename parentid store text err w :
  w_cwd w !! log_filename = Some (File text) ->
  0 < Z.of_nat (length text) <= 50000 ->
  py_truthy store = false ->
  h_store (w_host w) (w_stores w) = Some err ->
  store_log_file log_filename parentid store w =
  (Ok tt,
   add_event (EvPrint err)
     (add_event (EvStore log_filename parentid text) (set_stores (S (w_stores w)) w))).
Proof.
  intros Hf Hsize Ht Herr. unfold store_log_file, os_stat_size, syn_store, print. run.
  rewrite Hf. cbn [node_size].
  destruct (size_accepted (Z.of_nat (length text))) eqn:Hs;
    [|apply not_true_iff_false in Hs; destruct Hs; by apply size_accepted_spec].
  rewrite Ht. cbn [negb]. cbv beta zeta. rewrite Herr, Hf. done.
Qed.

Lemma store_failure_is_printed_witness :
  store_log_file log_name (PyStr (lit "syn1")) (PyBool false)
    (boot refusing_storage with_short_log) =
  (Ok tt,
   add_event (EvPrint (lit "403 Client Error: Forbidden"))
     (add_event (EvStore log_name (PyStr (lit "syn1")) (lit "No Logs"))
        (set_stores 1 (boot refusing_storage with_short_log)))).
Proof.
  apply (store_failure_is_printed log_name (PyStr (lit "syn1")) (PyBool false)
           (lit "No Logs") (lit "403 Client Error: Forbidden")
           (boot refusing_storage with_short_log)).
  - reflexivity.
  - by vm_compute.
  - reflexivity.
  - reflexivity.
Defined.

(** ** Cleanup *)

Lemma containers_get_found name cid w w' :
  containers_get name w = (Ok cid, w') ->
  w' = w /\ exists c, w_containers w !! cid = Some c /\ registered_as name c = true.
Proof.
  unfold containers_get.
  destruct (filter _ _) as [|[i c] rest] eqn:E; [done|].
  intros [= <- <-]. split; [done|].
  assert ((i, c) ∈ filter (fun ic : nat * container => registered_as name ic.2 = true)
            (imap (fun i c => (i, c)) (w_containers w))) as Hin
    by (rewrite E; by left).
  apply list_elem_of_filter in Hin as [Hreg Hin].
  apply elem_of_lookup_imap in Hin as (j & y & [= -> ->] & Hy). eauto.
Qed.

Lemma registered_not_removed name c : registered_as name c = true -> c_state c <> Removed.
Proof. unfold registered_as. intros H E. rewrite E in H. by rewrite andb_false_r in H. Qed.

Lemma container_stop_idle cid c w :
  w_containers w !! cid = Some c -> c_state c <> Started -> c_state c <> Removed ->
  container_stop cid w = (Ok tt, add_event (EvStop cid) w).
Proof.
  intros Hc Hs Hr. unfold container_stop, on_container, update_state, time_time. run.
  cbn. rewrite Hc. by destruct (c_state c).
Qed.

Lemma container_stop_settles cid c w :
  w_containers w !! cid = Some c -> c_state c <> Removed ->
  exists w' c',
    container_stop cid w = (Ok tt, w') /\
    w_containers w' !! cid = Some c' /\ c_state c' <> Removed /\
    live_at (w_clock w') c' = false /\
    w_trace w' = w_trace w ++ [EvStop cid] /\
    w_cwd w' = w_cwd w /\
    (forall j, j <> cid -> w_containers w' !! j = w_containers w !! j).
Proof.
  intros Hc Hnr.
  assert (c_state c = Started \/ c_state c <> Started) as [Hs|Hs]
    by (destruct (c_state c); (by left) || (by right)).
  - eexists _, (with_state (Stopped (w_clock w)) c).
    split; [by apply (container_stop_started cid c w)|].
    unfold set_containers. cbn [w_containers w_clock w_trace w_cwd add_event].
    repeat split; try done.
    + by rewrite list_lookup_alter_eq, Hc.
    + intros j Hj. by rewrite list_lookup_alter_ne.
  - exists (add_event (EvStop cid) w), c.
    split; [by apply (container_stop_idle cid c w)|].
    cbn [w_containers w_clock w_trace w_cwd add_event].
    repeat split; try done.
    unfold live_at. by destruct (c_state c).
Qed.

(** X10.  The cleanup of a name the runtime knows: [stop] and [remove] are
    issued on the container [get] returns, nothing is printed, the
    container ends up removed and every other container is left as it
    was. *)
Theorem cleanup_removes_the_named_container container_name cid w :
  containers_get container_name w = (Ok cid, w) ->
  let r := remove_docker_container container_name w in
  r.1 = Ok tt /\
  w_trace r.2 = w_trace w ++ [EvCleanup container_name; EvStop cid; EvRemove cid] /\
  c_state <$> (w_containers r.2 !! cid) = Some Removed /\
  (forall j, j <> cid -> w_containers r.2 !! j = w_containers w !! j) /\
  w_cwd r.2 = w_cwd w.
Proof.
  intros Hget. destruct (containers_get_found _ _ _ _ Hget) as (_ & c & Hc & Hreg).
  pose proof (registered_not_removed _ _ Hreg) as Hnr.
  cbv zeta. unfold remove_docker_container.
  assert (exists w1, w1 = add_event (EvCleanup container_name) w) as [w1 Hw1] by eauto.
  assert (w_containers w1 = w_containers w /\ w_trace w1 = w_trace w ++ [EvCleanup container_name]
          /\ w_cwd w1 = w_cwd w) as (Hcs1 & Htr1 & Hcwd1) by (by subst w1).
  assert (containers_get container_name w1 = (Ok cid, w1)) as Hget1.
  { unfold containers_get in *. rewrite Hcs1.
    destruct (filter _ _) as [|[i c0] rest]; [done|]. by simplify_eq. }
  assert (w_containers w1 !! cid = Some c) as Hc1 by (by rewrite Hcs1).
  destruct (container_stop_settles cid c w1 Hc1 Hnr)
    as (w2 & c2 & Hstop & Hc2 & Hnr2 & Hdead & Htr2 & Hcwd2 & Hoth2).
  pose proof (container_remove_exited cid c2 w2 Hc2 Hnr2 Hdead) as Hrm.
  assert (emit (EvCleanup container_name) w = (Ok tt, w1)) as Hemit by (by subst w1).
  rewrite (bind_ok _ _ _ _ _ Hemit).
  unfold try_except.
  rewrite (bind_ok _ _ _ _ _ Hget1), (bind_ok _ _ _ _ _ Hstop), Hrm.
  cbn [fst snd]. unfold set_containers. cbn [w_trace w_containers w_cwd add_event].
  split; [done|]. split; [by rewrite Htr2, Htr1, <- !app_assoc|].
  split; [by rewrite list_lookup_alter_eq, Hc2|].
  split; [|by rewrite Hcwd2]. intros j Hj. rewrite list_lookup_alter_ne by done.
  rewrite Hoth2 by done. by rewrite Hcs1.
Qed.

Lemma cleanup_removes_the_named_container_witness :
  let r := remove_docker_container (lit "9700_case00001") at_tick_120 in
  r.1 = Ok tt /\
  w_trace r.2 = w_trace at_tick_120
                ++ [EvCleanup (lit "9700_case00001"); EvStop 0; EvRemove 0] /\
  c_state <$> (w_containers r.2 !! 0%nat) = Some Removed /\
  (forall j, j <> 0%nat -> w_containers r.2 !! j = w_containers at_tick_120 !! j) /\
  w_cwd r.2 = w_cwd at_tick_120.
Proof.
  apply (cleanup_removes_the_named_container (lit "9700_case00001") 0 at_tick_120).
  reflexivity.
Defined.

Lemma containers_get_unknown name w :
  (forall c, c ∈ w_containers w -> registered_as name c = false) ->
  containers_get name w = (Raise (NotFound name), w).
Proof.
  intros Hnone. unfold containers_get.
  destruct (filter _ _) as [|[i c] rest] eqn:E; [done|]. exfalso.
  assert ((i, c) ∈ filter (fun ic : nat * container => registered_as name ic.2 = true)
            (imap (fun i c => (i, c)) (w_containers w))) as Hin
    by (rewrite E; by left).
  apply list_elem_of_filter in Hin as [Hreg Hin].
  apply elem_of_lookup_imap in Hin as (j & y & [= -> ->] & Hy).
  cbn [snd] in Hreg. rewrite (Hnone y) in Hreg; [done|].
  by apply list_elem_of_lookup_2 in Hy.
Qed.

(** X11.  The cleanup of a name the runtime does not know prints one line
    and changes nothing else; so does a second cleanup of a name whose
    only container the first one removed. *)
Theorem cleanup_of_unknown_name container_name w :
  (forall c, c ∈ w_containers w -> registered_as container_name c = false) ->
  remove_docker_container container_name w =
  (Ok tt,
   add_event (EvPrint (lit "Unable to remove container"))
     (add_event (EvCleanup container_name) w)).
Proof.
  intros Hnone. unfold remove_docker_container.
  assert (emit (EvCleanup container_name) w =
          (Ok tt, add_event (EvCleanup container_name) w)) as Hemit by done.
  rewrite (bind_ok _ _ _ _ _ Hemit). unfold try_except.
  rewrite (bind_raise _ _ _ _ _
             (containers_get_unknown container_name
                (add_event (EvCleanup container_name) w) Hnone)).
  done.
Qed.

Lemma cleanup_of_unknown_name_witness :
  remove_docker_container (lit "9700_case00002") at_tick_120 =
  (Ok tt,
   add_event (EvPrint (lit "Unable to remove container"))
     (add_event (EvCleanup (lit "9700_case00002")) at_tick_120)).
Proof.
  apply (cleanup_of_unknown_name (lit "9700_case00002") at_tick_120).
  intros c Hc. apply list_elem_of_In in Hc. cbn in Hc.
  destruct Hc as [<-|[]]. by vm_compute.
Defined.

(** ** Volumes *)

Lemma split_results_rw :
  split_on colon (lit "/data/results:rw") = [lit "/data/results"; lit "rw"].
Proof. by vm_compute. Qed.

Lemma split_data_rw : split_on colon (lit "/data:rw") = [lit "/data"; lit "rw"].
Proof. by vm_compute. Qed.

(** X12.  For a case folder other than the working directory the launch is
    given two mounts: the working directory at [/data/results] and the
    case folder at [/data], both writable. *)
Theorem volumes_of_distinct_paths output_dir case_folder :
  output_dir <> case_folder ->
  format_volumes output_dir case_folder =
  <[case_folder := (lit "/data", lit "rw")]>
    {[ output_dir := (lit "/data/results", lit "rw") ]}.
Proof.
  intros Hne. unfold format_volumes. cbv zeta. cbn [foldl].
  assert (case_folder <> output_dir) as Hne' by (intros E; by apply Hne).
  rewrite (lookup_insert_ne _ _ _ _ Hne'), !lookup_insert_eq.
  rewrite split_results_rw, split_data_rw. cbn [nth]. by rewrite insert_empty.
Qed.

Lemma volumes_of_distinct_paths_witness :
  format_volumes (lit "/work") (lit "/in/BraTS2021_00001") =
  <[lit "/in/BraTS2021_00001" := (lit "/data", lit "rw")]>
    {[ lit "/work" := (lit "/data/results", lit "rw") ]}.
Proof.
  apply (volumes_of_distinct_paths (lit "/work") (lit "/in/BraTS2021_00001")).
  by vm_compute.
Defined.

(** X13.  When the case folder is the working directory itself, the later key
    of the dictionary display wins: the one mount is at [/data], and
    nothing is mounted at [/data/results]. *)
Theorem volumes_when_case_folder_is_cwd dir :
  format_volumes dir dir = {[ dir := (lit "/data", lit "rw") ]}.
Proof.
  unfold format_volumes. cbv zeta. cbn [foldl].
  rewrite !lookup_insert_eq. rewrite split_data_rw. cbn [nth].
  by rewrite insert_insert_eq, insert_empty.
Qed.

(** ** The run up to the per-case loop, continued *)

(** X14.  A run started from the command line with [--status INVALID] raises
    before anything is touched: no login, no launch, no image removal,
    whatever the other options are. *)
Theorem cli_invalid_status_aborts fuel sid repo digest input cfg rt st parent w :
  main fuel (parse_args sid repo digest input cfg rt st parent (lit "INVALID")) w =
  (Raise (Exception (lit "Docker image is invalid")), w).
Proof.
  unfold main.
  step (getattr_run _ "status" _ w
          (cli_status sid repo digest input cfg rt st parent (lit "INVALID"))).
  done.
Qed.

(** X15.  A failure of the configuration loading or of the registry login is
    raised as it is, after the attempt and before anything else: the
    user name is not printed, no case is enumerated, no container is
    launched and the image is not removed. *)
Theorem login_failure_aborts fuel (args : gmap string pyval) status cfg e w :
  args !! "status" = Some status ->
  py_eq_str status (lit "INVALID") = false ->
  args !! "synapse_config" = Some cfg ->
  h_login (w_host w) = Some e ->
  main fuel args w = (Raise e, add_event (EvLogin cfg) w).
Proof.
  intros Hst Hne Hcfg Hlogin. unfold main.
  step (getattr_run args "status" _ w Hst). rewrite Hne.
  step (getattr_run args "synapse_config" _ w Hcfg).
  assert (docker_login cfg w = (Raise e, add_event (EvLogin cfg) w)) as Hl.
  { unfold docker_login. run. cbn. by rewrite Hlogin. }
  by rewrite (bind_raise _ _ _ _ _ Hl).
Qed.

Lemma login_failure_aborts_witness :
  main 3 (cli_args None false) (boot refusing_registry ∅) =
  (Raise (APIError (lit "401 Client Error: Unauthorized")),
   add_event (EvLogin (PyStr (lit "cfg"))) (boot refusing_registry ∅)).
Proof.
  apply (login_failure_aborts 3 (cli_args None false) (PyStr (lit "VALIDATED"))
           (PyStr (lit "cfg")) (APIError (lit "401 Client Error: Unauthorized"))
           (boot refusing_registry ∅)).
  - by vm_compute.
  - by vm_compute.
  - by vm_compute.
  - reflexivity.
Defined.

(** ** Termination *)

Lemma quiet_ret {A} (a : A) : quiet (ret a).
Proof. by intros w. Qed.

Lemma quiet_raise {A} e : quiet (@raise A e).
Proof. by intros w. Qed.

Lemma quiet_gets {A} (f : World -> A) : quiet (gets f).
Proof. by intros w. Qed.

Lemma quiet_modify f : (forall w, w_clock (f w) = w_clock w) -> quiet (modify f).
Proof. intros Hf w. split; [done|]. apply Hf. Qed.

Lemma quiet_emit e : quiet (emit e).
Proof. by apply quiet_modify. Qed.

Lemma quiet_bind {A B} (m : M A) (k : A -> M B) :
  quiet m -> (forall a, quiet (k a)) -> quiet (bind m k).
Proof.
  intros Hm Hk w. unfold bind. destruct (Hm w) as [Hf Hc].
  destruct (m w) as [[a|e|] w1]; cbn [fst snd] in *; [|done|done].
  destruct (Hk a w1) as [Hf' Hc']. split; [done|]. by rewrite Hc'.
Qed.

Lemma quiet_try_except {A} (m : M A) sel h :
  quiet m -> (forall e, quiet (h e)) -> quiet (try_except m sel h).
Proof.
  intros Hm Hh w. unfold try_except. destruct (Hm w) as [Hf Hc].
  destruct (m w) as [[a|e|] w1]; cbn [fst snd] in *; [done| |done].
  destruct (sel e); [|done].
  destruct (Hh e w1) as [Hf' Hc']. split; [done|]. by rewrite Hc'.
Qed.

Lemma quiet_lift {A} (r : exn + A) : quiet (lift r).
Proof. destruct r; [apply quiet_raise|apply quiet_ret]. Qed.

Lemma quiet_getattr (args : gmap string pyval) name : quiet (getattr args name).
Proof. unfold getattr. destruct (args !! name); [apply quiet_ret|apply quiet_raise]. Qed.

Lemma quiet_read_local {A} name (v : option A) : quiet (read_local name v).
Proof. destruct v; [apply quiet_ret|apply quiet_raise]. Qed.

Lemma quiet_print text : quiet (print text).
Proof. apply quiet_emit. Qed.

Lemma quiet_time_time : quiet time_time.
Proof. apply quiet_gets. Qed.

Lemma quiet_on_container {A} cid (k : container -> M A) :
  (forall c, quiet (k c)) -> quiet (on_container cid k).
Proof.
  intros Hk w. unfold on_container.
  destruct (w_containers w !! cid) as [c|]; [|done].
  destruct (c_state c); try done; apply Hk.
Qed.

Lemma quiet_update_state cid s : quiet (update_state cid s).
Proof. by apply quiet_modify. Qed.

Lemma quiet_containers_list : quiet containers_list.
Proof. apply quiet_bind; [apply quiet_emit|intros; apply quiet_gets]. Qed.

Lemma quiet_container_stop cid : quiet (container_stop cid).
Proof.
  apply quiet_bind; [apply quiet_emit|intros _].
  apply quiet_on_container. intros c.
  destruct (c_state c);
    first [apply quiet_ret
          |apply quiet_bind; [apply quiet_time_time|intros; apply quiet_update_state]].
Qed.

Lemma quiet_container_logs cid : quiet (container_logs cid).
Proof.
  apply quiet_bind; [apply quiet_emit|intros _].
  apply quiet_on_container. intros c.
  apply quiet_bind; [apply quiet_time_time|intros; apply quiet_ret].
Qed.

Lemma quiet_container_remove cid : quiet (container_remove cid).
Proof.
  apply quiet_bind; [apply quiet_emit|intros _].
  apply quiet_on_container. intros c.
  apply quiet_bind; [apply quiet_time_time|intros now].
  destruct (live_at now c); [apply quiet_raise|apply quiet_update_state].
Qed.

Lemma quiet_containers_get name : quiet (containers_get name).
Proof. intros w. unfold containers_get. by destruct (filter _ _). Qed.

Lemma quiet_containers_run image name volumes : quiet (containers_run image name volumes).
Proof.
  intros w. unfold containers_run. cbv zeta.
  destruct (h_run _ _ _) as [err []|b]; done.
Qed.

Lemma quiet_images_remove image : quiet (images_remove image).
Proof.
  apply quiet_bind; [apply quiet_emit|intros _].
  intros w. by destruct (h_rmi (w_host w)).
Qed.

Lemma quiet_syn_store fn parent : quiet (syn_store fn parent).
Proof. intros w. unfold syn_store. cbv zeta. by destruct (h_store _ _). Qed.

Lemma quiet_docker_login cfg : quiet (docker_login cfg).
Proof.
  apply quiet_bind; [apply quiet_emit|intros _].
  intros w. by destruct (h_login (w_host w)).
Qed.

Lemma quiet_open_w name : quiet (open_w name).
Proof. intros w. unfold open_w. by destruct (w_cwd w !! name) as [[]|]. Qed.

Lemma quiet_file_write name text : quiet (file_write name text).
Proof. by apply quiet_modify. Qed.

Lemma quiet_os_stat_size name : quiet (os_stat_size name).
Proof. intros w. unfold os_stat_size. by destruct (w_cwd w !! name). Qed.

Lemma quiet_os_mkdir name : quiet (os_mkdir name).
Proof. intros w. unfold os_mkdir. by destruct (w_cwd w !! name). Qed.

Lemma quiet_os_rename src dst : quiet (os_rename src dst).
Proof.
  intros w. unfold os_rename. destruct (w_cwd w !! src); [|done].
  destruct (split_on slash dst) as [|d [|n0 [|]]]; try done.
  by destruct (w_cwd w !! d) as [[]|].
Qed.

Lemma quiet_tarfile_open name mode : quiet (tarfile_open name mode).
Proof. intros w. unfold tarfile_open. by destruct (w_cwd w !! name) as [[]|]. Qed.

Lemma quiet_tarfile_add name d : quiet (tarfile_add name d).
Proof. intros w. unfold tarfile_add. by destruct (w_cwd w !! d). Qed.

Lemma quiet_create_log_file fn t : quiet (create_log_file fn t).
Proof.
  apply quiet_bind; [apply quiet_open_w|intros _].
  destruct t as [[bs|s]|]; [| |apply quiet_file_write].
  - apply quiet_bind; [|intros; apply quiet_file_write].
    destruct (utf8_decode bs); [apply quiet_ret|apply quiet_raise].
  - apply quiet_bind; [apply quiet_ret|intros; apply quiet_file_write].
Qed.

Lemma quiet_store_log_file fn p s : quiet (store_log_file fn p s).
Proof.
  apply quiet_bind; [apply quiet_os_stat_size|intros n].
  destruct (size_accepted n); [|apply quiet_ret].
  destruct (negb (py_truthy s)); [|apply quiet_ret].
  apply quiet_try_except; [apply quiet_syn_store|intros; apply quiet_print].
Qed.

Lemma quiet_remove_docker_container name : quiet (remove_docker_container name).
Proof.
  apply quiet_bind; [apply quiet_emit|intros _].
  apply quiet_try_except; [|intros; apply quiet_print].
  apply quiet_bind; [apply quiet_containers_get|intros cid].
  apply quiet_bind; [apply quiet_container_stop|intros; apply quiet_container_remove].
Qed.

Lemma quiet_remove_docker_image image : quiet (remove_docker_image image).
Proof. apply quiet_try_except; [apply quiet_images_remove|intros; apply quiet_print]. Qed.

Lemma quiet_tar d t : quiet (tar d t).
Proof.
  apply quiet_bind; [apply quiet_emit|intros _].
  apply quiet_bind; [apply quiet_tarfile_open|intros; apply quiet_tarfile_add].
Qed.

Lemma quiet_for_each {A} (xs : list A) body :
  (forall x, quiet (body x)) -> quiet (for_each xs body).
Proof.
  intros Hb. induction xs as [|x xs IH]; [apply quiet_ret|].
  cbn [for_each]. apply quiet_bind; [apply Hb|by intros].
Qed.

Lemma quiet_collect_outputs : quiet collect_outputs.
Proof.
  apply quiet_bind; [apply quiet_gets|intros found].
  destruct found; [apply quiet_raise|].
  apply quiet_bind; [apply quiet_os_mkdir|intros _].
  apply quiet_bind; [apply quiet_gets|intros niftis].
  apply quiet_bind; [|intros; apply quiet_tar].
  apply quiet_for_each. intros; apply quiet_os_rename.
Qed.

Lemma quiet_finish image : quiet (finish image).
Proof.
  apply quiet_bind; [apply quiet_print|intros _].
  apply quiet_bind; [apply quiet_remove_docker_image|intros; apply quiet_collect_outputs].
Qed.

Lemma quiet_settles {A} (m : M A) : quiet m -> settles m.
Proof. intros H w. apply H. Qed.

Lemma settles_bind {A B} (m : M A) (k : A -> M B) :
  settles m -> (forall a, settles (k a)) -> settles (bind m k).
Proof.
  intros Hm Hk w. unfold bind. specialize (Hm w).
  destruct (m w) as [[a|e|] w1]; cbn [fst snd] in *; [apply Hk|done|done].
Qed.

Lemma bind_settles_at {A B} (m : M A) (k : A -> M B) w :
  finished (m w).1 = true -> (forall a, settles (k a)) -> finished (bind m k w).1 = true.
Proof.
  intros Hm Hk. unfold bind.
  destruct (m w) as [[a|e|] w1]; cbn [fst snd] in *; [apply Hk|done|done].
Qed.

Lemma bind_quiet_at {A B} (m : M A) (k : A -> M B) w :
  quiet m ->
  (forall a w', m w = (Ok a, w') -> w_clock w' = w_clock w -> finished (k a w').1 = true) ->
  finished (bind m k w).1 = true.
Proof.
  intros Hm Hk. unfold bind. destruct (Hm w) as [Hf Hc].
  destruct (m w) as [[a|e|] w1]; cbn [fst snd] in *; [by apply Hk|done|done].
Qed.

Lemma bind_quiet_between {A B} (m : M A) (k : A -> M B) w lo hi :
  quiet m ->
  lo <= w_clock w <= hi ->
  (forall a w', w_clock w' = w_clock w -> lo <= w_clock (k a w').2 <= hi) ->
  lo <= w_clock (bind m k w).2 <= hi.
Proof.
  intros Hm Hw Hk. unfold bind. destruct (Hm w) as [Hf Hc].
  destruct (m w) as [[a|e|] w1]; cbn [fst snd] in *; [by apply Hk|lia|lia].
Qed.

Lemma time_sleep_run secs w :
  time_sleep secs w = (Ok tt, set_clock (w_clock w + secs) (add_event (EvSleep secs) w)).
Proof. done. Qed.

Lemma ticks_needed_next q e n :
  e <= q -> (ticks_needed q e <= S n)%nat -> (ticks_needed q (e + 60) <= n)%nat.
Proof.
  unfold ticks_needed. intros He Hn.
  assert ((q - (e + 60)) / 60 + 1 = (q - e) / 60) as -> by euclid.
  assert (0 <= (q - e) / 60) by euclid.
  rewrite Z2Nat.inj_add in Hn by lia. change (Z.to_nat 1) with 1%nat in Hn. lia.
Qed.

Section termination.
Variables (args : gmap string pyval) (q : Z).
Hypothesis Hquota : args !! "runtime_quota" = Some (PyInt q).

Lemma settles_after_drain fn cid :
  quiet (log_text <- container_logs cid;;
         create_log_file fn (Some (LogBytes log_text));;;
         parentid <- getattr args "parentid";;
         store <- getattr args "store";;
         store_log_file fn parentid store).
Proof using Type.
  apply quiet_bind; [apply quiet_container_logs|intros bs].
  apply quiet_bind; [apply quiet_create_log_file|intros _].
  apply quiet_bind; [apply quiet_getattr|intros p].
  apply quiet_bind; [apply quiet_getattr|intros s].
  apply quiet_store_log_file.
Qed.

(** With fuel for [ticks_needed] evaluations of its condition the
    loop comes to an end. *)
Lemma poll_settles fn cid start : forall fuel te w,
  (ticks_needed q (w_clock w - start) <= fuel)%nat ->
  finished (poll fuel args fn cid start te w).1 = true.
Proof using Hquota.
  induction fuel as [|fuel IH]; intros te w Hfuel; [unfold ticks_needed in Hfuel; lia|].
  cbn [poll].
  step (containers_list_run w).
  destruct (bool_decide _); [|done].
  step (time_time_run (add_event EvList w)).
  step (getattr_run args "runtime_quota" _ (add_event EvList w) Hquota).
  change (w_clock (add_event EvList w)) with (w_clock w).
  unfold py_gt, lift. step (ret_run (q <? w_clock w - start) (add_event EvList w)).
  destruct (q <? w_clock w - start) eqn:Hover.
  - apply bind_settles_at; [apply quiet_container_stop|intros; apply quiet_settles, quiet_ret].
  - apply Z.ltb_ge in Hover.
    apply bind_quiet_at; [apply quiet_container_logs|intros bs w1 _ Hc1].
    apply bind_quiet_at; [apply quiet_create_log_file|intros [] w2 _ Hc2].
    apply bind_quiet_at; [apply quiet_getattr|intros p w3 _ Hc3].
    apply bind_quiet_at; [apply quiet_getattr|intros s w4 _ Hc4].
    apply bind_quiet_at; [apply quiet_store_log_file|intros [] w5 _ Hc5].
    step (time_sleep_run 60 w5).
    apply IH. unfold set_clock, add_event. cbn [w_clock].
    rewrite Hc5, Hc4, Hc3, Hc2, Hc1. cbn [w_clock add_event].
    replace (w_clock w + 60 - start) with (w_clock w - start + 60) by lia.
    by apply ticks_needed_next.
Qed.

(** The clock at the end of the loop: the loop does not sleep beyond
    the first tick past the quota. *)
Lemma poll_clock_bound fn cid start : forall fuel te w,
  w_clock w <= w_clock (poll fuel args fn cid start te w).2
            <= start + Z.max (w_clock w - start) (q + 60).
Proof using Hquota.
  induction fuel as [|fuel IH]; intros te w; [cbn; lia|].
  cbn [poll].
  step (containers_list_run w).
  destruct (bool_decide _); [|cbn; lia].
  step (time_time_run (add_event EvList w)).
  step (getattr_run args "runtime_quota" _ (add_event EvList w) Hquota).
  change (w_clock (add_event EvList w)) with (w_clock w).
  unfold py_gt, lift. step (ret_run (q <? w_clock w - start) (add_event EvList w)).
  destruct (q <? w_clock w - start) eqn:Hover.
  - apply bind_quiet_between; [apply quiet_container_stop|cbn; lia|].
    intros [] w1 Hc1. cbn [ret snd]. rewrite Hc1. cbn; lia.
  - apply Z.ltb_ge in Hover.
    apply bind_quiet_between; [apply quiet_container_logs|cbn; lia|intros bs w1 Hc1].
    apply bind_quiet_between; [apply quiet_create_log_file|rewrite Hc1; cbn; lia|
                                intros [] w2 Hc2].
    apply bind_quiet_between; [apply quiet_getattr|rewrite Hc2, Hc1; cbn; lia|
                                intros p w3 Hc3].
    apply bind_quiet_between; [apply quiet_getattr|rewrite Hc3, Hc2, Hc1; cbn; lia|
                                intros s w4 Hc4].
    apply bind_quiet_between; [apply quiet_store_log_file|
                                rewrite Hc4, Hc3, Hc2, Hc1; cbn; lia|intros [] w5 Hc5].
    step (time_sleep_run 60 w5).
    set (w6 := set_clock (w_clock w5 + 60) (add_event (EvSleep 60) w5)).
    assert (w_clock w6 = w_clock w + 60) as Hc6.
    { unfold w6, set_clock. cbn [w_clock]. by rewrite Hc5, Hc4, Hc3, Hc2, Hc1. }
    specialize (IH (w_clock w - start) w6). rewrite Hc6 in IH. lia.
Qed.

(** X16.  The monitor loop ends, and it ends in time: with fuel for
    [ticks_needed] evaluations of its condition the loop returns or
    raises, the clock has not gone back, and the loop has not slept
    past the first tick after the quota, which is at most 60 seconds
    beyond it. *)
Theorem monitor_loop_ends_within_a_tick_of_the_quota fn cid start fuel te w :
  (ticks_needed q (w_clock w - start) <= fuel)%nat ->
  let r := poll fuel args fn cid start te w in
  finished r.1 = true /\
  w_clock w <= w_clock r.2 /\
  w_clock r.2 - start <= Z.max (w_clock w - start) (q + 60).
Proof using Hquota.
  intros Hfuel. cbv zeta. split; [by apply poll_settles|].
  pose proof (poll_clock_bound fn cid start fuel te w). lia.
Qed.

Lemma monitor_settles fuel fn case_id cid te w :
  (ticks_needed q 0 <= fuel)%nat ->
  finished (monitor fuel args fn case_id cid (w_clock w) te w).1 = true.
Proof using Hquota.
  intros Hfuel. unfold monitor.
  apply bind_settles_at; [apply poll_settles; by rewrite Z.sub_diag|intros te'].
  apply quiet_settles.
  apply quiet_bind; [apply quiet_getattr|intros quota].
  apply quiet_bind; [apply quiet_lift|intros over].
  apply quiet_bind.
  { destruct over; [apply quiet_ret|].
    apply quiet_bind; [apply quiet_container_logs|intros; apply quiet_ret]. }
  intros log_text.
  apply quiet_bind; [apply quiet_create_log_file|intros _].
  apply quiet_bind; [apply quiet_getattr|intros p].
  apply quiet_bind; [apply quiet_getattr|intros s].
  apply quiet_bind; [apply quiet_store_log_file|intros; apply quiet_container_remove].
Qed.

Lemma case_body_settles fuel image out u vars :
  (ticks_needed q 0 <= fuel)%nat -> settles (case_body fuel args image out u vars).
Proof using Hquota.
  intros Hfuel w. destruct u as [case_folder case_id]. unfold case_body.
  step (print_run (lit "mounting volumes") w).
  set (w1 := add_event _ w).
  step (print_run (lit "running container") w1).
  set (w2 := add_event _ w1).
  step (time_time_run w2).
  apply bind_quiet_at; [apply quiet_getattr|intros sid w3 _ Hc3].
  apply bind_quiet_at.
  { apply quiet_try_except.
    - apply quiet_bind; [apply quiet_containers_run|intros; apply quiet_ret].
    - intros e. apply quiet_bind; [apply quiet_remove_docker_container|intros _].
      apply quiet_bind; [apply quiet_print|intros; apply quiet_ret]. }
  intros vars' w4 _ Hc4.
  apply bind_quiet_at; [apply quiet_print|intros [] w5 _ Hc5].
  apply bind_quiet_at; [apply quiet_getattr|intros sub w6 _ Hc6].
  apply bind_quiet_at; [apply quiet_lift|intros fn w7 _ Hc7].
  apply bind_quiet_at; [apply quiet_open_w|intros [] w8 _ Hc8].
  apply bind_quiet_at; [apply quiet_read_local|intros cid w9 _ Hc9].
  assert (w_clock w2 = w_clock w9) as ->
    by (by rewrite Hc9, Hc8, Hc7, Hc6, Hc5, Hc4, Hc3).
  apply bind_settles_at; [by apply monitor_settles|intros _].
  apply quiet_settles.
  apply quiet_bind; [apply quiet_os_stat_size|intros n].
  apply quiet_bind; [|intros; apply quiet_ret].
  destruct (n =? 0); [|apply quiet_ret].
  apply quiet_bind; [apply quiet_read_local|intros errors].
  apply quiet_bind; [apply quiet_create_log_file|intros _].
  apply quiet_bind; [apply quiet_getattr|intros p].
  apply quiet_bind; [apply quiet_getattr|intros s].
  apply quiet_store_log_file.
Qed.

Lemma for_cases_settles fuel image out units :
  (ticks_needed q 0 <= fuel)%nat ->
  forall vars, settles (for_cases fuel args image out units vars).
Proof using Hquota.
  intros Hfuel. induction units as [|u units IH]; intros vars.
  - apply quiet_settles, quiet_ret.
  - cbn [for_cases]. apply settles_bind; [by apply case_body_settles|apply IH].
Qed.

(** X17.  The whole run ends: with a numeric quota of [q] seconds, fuel for
    [q / 60 + 2] evaluations of the loop condition per case is enough
    for [main] to return or raise, whatever the namespace otherwise
    holds, whatever the input area, the runtime and the storage
    service answer. *)
Theorem main_terminates fuel w :
  (ticks_needed q 0 <= fuel)%nat -> finished (main fuel args w).1 = true.
Proof using Hquota.
  intros Hfuel. revert w. change (settles (main fuel args)). unfold main.
  apply settles_bind; [apply quiet_settles, quiet_getattr|intros status].
  destruct (py_eq_str _ _); [apply quiet_settles, quiet_raise|].
  apply settles_bind; [apply quiet_settles, quiet_getattr|intros cfg].
  apply settles_bind; [apply quiet_settles, quiet_docker_login|intros _].
  apply settles_bind; [apply quiet_settles, quiet_gets|intros user].
  apply settles_bind; [apply quiet_settles, quiet_print|intros _].
  apply settles_bind; [apply quiet_settles, quiet_getattr|intros repo].
  apply settles_bind; [apply quiet_settles, quiet_lift|intros prefix].
  apply settles_bind; [apply quiet_settles, quiet_getattr|intros digest].
  apply settles_bind; [apply quiet_settles, quiet_lift|intros image].
  apply settles_bind; [apply quiet_settles, quiet_gets|intros out].
  apply settles_bind; [apply quiet_settles, quiet_getattr|intros input].
  apply settles_bind.
  { destruct input; try apply quiet_settles, quiet_raise.
    apply quiet_settles, quiet_gets. }
  intros triples.
  apply settles_bind; [by apply for_cases_settles|intros _].
  apply quiet_settles, quiet_finish.
Qed.
End termination.

Lemma monitor_loop_ends_within_a_tick_of_the_quota_witness :
  let r := poll 3 (caller_args 90 false) log_name 0 0 0 at_tick_120 in
  finished r.1 = true /\
  w_clock at_tick_120 <= w_clock r.2 /\
  w_clock r.2 - 0 <= Z.max (w_clock at_tick_120 - 0) (90 + 60).
Proof.
  apply (monitor_loop_ends_within_a_tick_of_the_quota (caller_args 90 false) 90
           ltac:(by vm_compute) log_name 0%nat 0 3%nat 0 at_tick_120).
  vm_compute. lia.
Defined.

Lemma main_terminates_witness :
  finished (main 3 (caller_args 90 false)
              (boot (host_with (only_at (lit "/in") two_cases)
                       (fun _ _ => RunStarts runs_forever)) ∅)).1 = true.
Proof.
  apply (main_terminates (caller_args 90 false) 90 ltac:(by vm_compute) 3%nat).
  vm_compute. lia.
Defined.

(** ** The execution monitor, continued *)

Lemma container_logs_run cid c w :
  w_containers w !! cid = Some c -> c_state c <> Removed ->
  container_logs cid w =
  (Ok (b_output (c_behaviour c) (observed (w_clock w) c)), add_event (EvLogs cid) w).
Proof.
  intros Hc Hs. unfold container_logs, on_container, time_time. run. cbn.
  rewrite Hc. by destruct (c_state c).
Qed.

Lemma not_live_not_listed now cs cid c :
  cs !! cid = Some c -> live_at now c = false ->
  cid ∉ (filter (fun ic : nat * container => live_at now ic.2 = true)
           (imap (fun i c => (i, c)) cs)).*1.
Proof.
  intros Hc Hl Hin. apply live_in_list in Hin as (c' & Hc' & Hl').
  rewrite Hc in Hc'. simplify_eq. by rewrite Hl in Hl'.
Qed.

Lemma poll_not_live fuel (args : gmap string pyval) fn cid start te c w :
  w_containers w !! cid = Some c -> live_at (w_clock w) c = false ->
  poll (S fuel) args fn cid start te w = (Ok te, add_event EvList w).
Proof.
  intros Hc Hl. cbn [poll]. step (containers_list_run w).
  by rewrite bool_decide_eq_false_2 by (by eapply not_live_not_listed).
Qed.

Section monitor_more.
Variables (args : gmap string pyval) (log_filename case_id : pystr).
Variables (q : Z) (parentid store : pyval).
Hypothesis Hquota : args !! "runtime_quota" = Some (PyInt q).
Hypothesis Hparent : args !! "parentid" = Some parentid.
Hypothesis Hstore : args !! "store" = Some store.

Lemma monitor_of_exited_instance fuel cid start te c text w :
  w_containers w !! cid = Some c ->
  c_state c <> Removed ->
  live_at (w_clock w) c = false ->
  te <= q ->
  writable w log_filename = true ->
  utf8_decode (b_output (c_behaviour c) (observed (w_clock w) c)) = Some text ->
  let r := monitor (S fuel) args log_filename case_id cid start te w in
  r.1 = Ok tt /\
  w_cwd r.2 !! log_filename = Some (File (ascii_ignore text)) /\
  count_events is_logs r.2 = S (count_events is_logs w) /\
  count_events (is_stop_of cid) r.2 = count_events (is_stop_of cid) w /\
  count_events is_sleep r.2 = count_events is_sleep w /\
  w_clock r.2 = w_clock w /\
  c_state <$> (w_containers r.2 !! cid) = Some Removed /\
  count_events is_run r.2 = count_events is_run w.
Proof using Hquota Hparent Hstore.
  intros Hc Hnr Hl Hte Hw Hdec. cbv zeta. unfold monitor.
  step (poll_not_live fuel args log_filename cid start te c w Hc Hl).
  set (w1 := add_event EvList w).
  step (getattr_run args "runtime_quota" _ w1 Hquota).
  unfold py_gt, lift. step (ret_run (q <? te) w1).
  assert ((q <? te) = false) as -> by (apply Z.ltb_ge; lia).
  assert (w_containers w1 !! cid = Some c) as Hc1 by done.
  set (w2 := add_event (EvLogs cid) w1).
  assert ((bs <- container_logs cid;; ret (LogBytes bs)) w1 =
          (Ok (LogBytes (b_output (c_behaviour c) (observed (w_clock w) c))), w2))
    as Hlogs by (by step (container_logs_run cid c w1 Hc1 Hnr)).
  step Hlogs.
  assert (writable w2 log_filename = true) as Hw2 by done.
  step (create_log_file_bytes log_filename _ text w2 Hw2 Hdec).
  set (w3 := write_log log_filename (ascii_ignore text) w2).
  step (getattr_run args "parentid" _ w3 Hparent).
  step (getattr_run args "store" _ w3 Hstore).
  assert (w_cwd w3 !! log_filename = Some (File (ascii_ignore text))) as Hfile
    by apply write_log_lookup.
  pose proof (store_log_file_ok log_filename parentid store w3 ltac:(eauto)) as Hok.
  destruct (store_log_file_frame log_filename parentid store w3)
    as (Hcwd & Hcs & Hclock & _).
  destruct (store_log_file_trace log_filename parentid store _ w3 Hfile)
    as (evs & Htr & Hevs).
  destruct (store_log_file log_filename parentid store w3) as [o w4] eqn:E4.
  cbn [fst snd] in *. subst o. step E4.
  assert (w_containers w4 !! cid = Some c) as Hc4 by (by rewrite Hcs).
  assert (live_at (w_clock w4) c = false) as Hl4 by (by rewrite Hclock).
  rewrite (container_remove_exited cid c w4 Hc4 Hnr Hl4).
  cbn [fst snd].
  assert (w_trace w4 = w_trace w ++ [EvList; EvLogs cid] ++ evs) as Htr4.
  { rewrite Htr. unfold w3, w2, w1, write_log, set_cwd, add_event.
    cbn [w_trace]. by rewrite <- !app_assoc. }
  assert (forall p, count_events p
            (set_containers (alter (with_state Removed) cid (w_containers w4))
               (add_event (EvRemove cid) w4))
          = (count_events p w
             + length (List.filter p ([EvList; EvLogs cid] ++ evs ++ [EvRemove cid])))%nat)
    as Hcount.
  { intros p. apply count_events_app. unfold set_containers, add_event. cbn [w_trace].
    rewrite Htr4. by rewrite <- !app_assoc. }
  split; [done|].
  split; [|split; [|split; [|split; [|split; [|split]]]]].
  - unfold set_containers, add_event. cbn [w_cwd]. by rewrite Hcwd.
  - rewrite Hcount. clear -Hevs. revert Hevs.
    generalize (ascii_ignore text). intros txt Hevs.
    destruct Hevs as [->|[->|[err ->]]];
      cbn [app List.filter is_logs length]; lia.
  - rewrite Hcount. clear -Hevs. revert Hevs.
    generalize (ascii_ignore text). intros txt Hevs.
    destruct Hevs as [->|[->|[err ->]]];
      cbn [app List.filter is_stop_of length]; lia.
  - rewrite Hcount. clear -Hevs. revert Hevs.
    generalize (ascii_ignore text). intros txt Hevs.
    destruct Hevs as [->|[->|[err ->]]];
      cbn [app List.filter is_sleep length]; lia.
  - unfold set_containers, add_event. cbn [w_clock]. by rewrite Hclock.
  - unfold set_containers. cbn [w_containers].
    by rewrite list_lookup_alter_eq, Hc4.
  - rewrite Hcount. clear -Hevs. revert Hevs.
    generalize (ascii_ignore text). intros txt Hevs.
    destruct Hevs as [->|[->|[err ->]]];
      cbn [app List.filter is_run length]; lia.
Qed.

(** X18.  An instance that is no longer live at the first check: the loop
    body never runs, so nothing is stopped and nothing sleeps; the
    output is drained once, after the loop, the log file holds its
    normalisation, and the container is removed. *)
Theorem exited_instance_is_drained_once fuel cid start te c text w :
  w_containers w !! cid = Some c ->
  c_state c <> Removed ->
  live_at (w_clock w) c = false ->
  te <= q ->
  writable w log_filename = true ->
  utf8_decode (b_output (c_behaviour c) (observed (w_clock w) c)) = Some text ->
  let r := monitor (S fuel) args log_filename case_id cid start te w in
  r.1 = Ok tt /\
  w_cwd r.2 !! log_filename = Some (File (ascii_ignore text)) /\
  count_events is_logs r.2 = S (count_events is_logs w) /\
  count_events (is_stop_of cid) r.2 = count_events (is_stop_of cid) w /\
  count_events is_sleep r.2 = count_events is_sleep w /\
  w_clock r.2 = w_clock w /\
  c_state <$> (w_containers r.2 !! cid) = Some Removed.
Proof using Hquota Hparent Hstore.
  intros Hc Hnr Hl Hte Hw Hdec.
  destruct (monitor_of_exited_instance fuel cid start te c text w Hc Hnr Hl Hte Hw Hdec)
    as (? & ? & ? & ? & ? & ? & ? & _).
  by repeat split.
Qed.

(** X19.  A drain of output that is not valid UTF-8 ends the monitor with
    [UnicodeDecodeError]: the log file is left empty, nothing is
    handed to the storage service, and the instance is neither stopped
    nor removed. *)
Theorem undecodable_output_aborts_the_monitor fuel cid start te c w :
  w_containers w !! cid = Some c ->
  live_at (w_clock w) c = true ->
  w_clock w - start <= q ->
  writable w log_filename = true ->
  utf8_decode (b_output (c_behaviour c) (observed (w_clock w) c)) = None ->
  monitor (S fuel) args log_filename case_id cid start te w =
  (Raise UnicodeDecodeError,
   write_log log_filename [] (add_event (EvLogs cid) (add_event EvList w))).
Proof using Hquota.
  intros Hc Hl Hunder Hw Hdec. unfold monitor. apply bind_raise. cbn [poll].
  step (containers_list_run w).
  rewrite bool_decide_eq_true_2 by (apply live_in_list; eauto).
  set (w1 := add_event EvList w).
  step (time_time_run w1).
  step (getattr_run args "runtime_quota" _ w1 Hquota).
  change (w_clock w1) with (w_clock w).
  unfold py_gt, lift. step (ret_run (q <? w_clock w - start) w1).
  assert ((q <? w_clock w - start) = false) as -> by (apply Z.ltb_ge; lia).
  assert (w_containers w1 !! cid = Some c) as Hc1 by done.
  assert (c_state c <> Removed) as Hnr
    by (rewrite (live_at_started _ _ Hl); done).
  step (container_logs_run cid c w1 Hc1 Hnr).
  change (w_clock w1) with (w_clock w).
  set (w2 := add_event (EvLogs cid) w1).
  assert (writable w2 log_filename = true) as Hw2 by done.
  by rewrite (bind_raise _ _ _ _ _
                (create_log_file_undecodable log_filename _ w2 Hw2 Hdec)).
Qed.
(** X20.  A tick under the quota that finds the instance live: the output
    to date is drained and replaces the content of the log file, the
    loop sleeps 60 seconds and goes on from there; the instance is
    not touched. *)
Theorem tick_under_quota_drains_and_sleeps fuel cid start te c text w :
  w_containers w !! cid = Some c ->
  live_at (w_clock w) c = true ->
  w_clock w - start <= q ->
  writable w log_filename = true ->
  utf8_decode (b_output (c_behaviour c) (observed (w_clock w) c)) = Some text ->
  exists w',
    poll (S fuel) args log_filename cid start te w =
    poll fuel args log_filename cid start (w_clock w - start) w' /\
    w_clock w' = w_clock w + 60 /\
    w_cwd w' !! log_filename = Some (File (ascii_ignore text)) /\
    w_containers w' = w_containers w /\
    count_events is_logs w' = S (count_events is_logs w) /\
    count_events is_sleep w' = S (count_events is_sleep w) /\
    count_events (is_stop_of cid) w' = count_events (is_stop_of cid) w.
Proof using Hquota Hparent Hstore.
  intros Hc Hl Hunder Hw Hdec. cbn [poll].
  step (containers_list_run w).
  rewrite bool_decide_eq_true_2 by (apply live_in_list; eauto).
  set (w1 := add_event EvList w).
  step (time_time_run w1).
  step (getattr_run args "runtime_quota" _ w1 Hquota).
  change (w_clock w1) with (w_clock w).
  unfold py_gt, lift. step (ret_run (q <? w_clock w - start) w1).
  assert ((q <? w_clock w - start) = false) as -> by (apply Z.ltb_ge; lia).
  assert (w_containers w1 !! cid = Some c) as Hc1 by done.
  assert (c_state c <> Removed) as Hnr
    by (rewrite (live_at_started _ _ Hl); done).
  step (container_logs_run cid c w1 Hc1 Hnr).
  change (w_clock w1) with (w_clock w).
  set (w2 := add_event (EvLogs cid) w1).
  assert (writable w2 log_filename = true) as Hw2 by done.
  step (create_log_file_bytes log_filename _ text w2 Hw2 Hdec).
  set (w3 := write_log log_filename (ascii_ignore text) w2).
  step (getattr_run args "parentid" _ w3 Hparent).
  step (getattr_run args "store" _ w3 Hstore).
  assert (w_cwd w3 !! log_filename = Some (File (ascii_ignore text))) as Hfile
    by apply write_log_lookup.
  pose proof (store_log_file_ok log_filename parentid store w3 ltac:(eauto)) as Hok.
  destruct (store_log_file_frame log_filename parentid store w3)
    as (Hcwd & Hcs & Hclock & _).
  destruct (store_log_file_trace log_filename parentid store _ w3 Hfile)
    as (evs & Htr & Hevs).
  destruct (store_log_file log_filename parentid store w3) as [o w4] eqn:E4.
  cbn [fst snd] in *. subst o. step E4.
  step (time_sleep_run 60 w4).
  eexists. split; [reflexivity|].
  unfold set_clock. cbn [w_clock w_cwd w_containers add_event].
  assert (forall p, count_events p
            {| w_host := w_host w4; w_cwd := w_cwd w4; w_clock := w_clock w4 + 60;
               w_containers := w_containers w4; w_launches := w_launches w4;
               w_stores := w_stores w4; w_trace := w_trace w4 ++ [EvSleep 60] |}
          = (count_events p w
             + length (List.filter p ([EvList; EvLogs cid] ++ evs ++ [EvSleep 60])))%nat)
    as Hcount.
  { intros p. apply count_events_app. cbn [w_trace]. rewrite Htr.
    unfold w3, w2, w1, write_log, set_cwd, add_event. cbn [w_trace].
    by rewrite <- !app_assoc. }
  split; [by rewrite Hclock|]. split; [by rewrite Hcwd|]. split; [by rewrite Hcs|].
  rewrite !Hcount. clear -Hevs. revert Hevs.
  generalize (ascii_ignore text). intros txt Hevs.
  destruct Hevs as [->|[->|[err ->]]];
    cbn [app List.filter is_logs is_sleep is_stop_of length]; lia.
Qed.
End monitor_more.

Lemma exited_instance_is_drained_once_witness :
  let r := monitor 1 (caller_args 3600 false) log_name (lit "00001") 0 0 0 after_exit in
  r.1 = Ok tt /\
  w_cwd r.2 !! log_name = Some (File (ascii_ignore line1_line2)) /\
  count_events is_logs r.2 = S (count_events is_logs after_exit) /\
  count_events (is_stop_of 0) r.2 = count_events (is_stop_of 0) after_exit /\
  count_events is_sleep r.2 = count_events is_sleep after_exit /\
  w_clock r.2 = w_clock after_exit /\
  c_state <$> (w_containers r.2 !! 0%nat) = Some Removed.
Proof.
  apply (exited_instance_is_drained_once (caller_args 3600 false) log_name (lit "00001")
           3600 (PyStr (lit "syn1")) (PyBool false)
           ltac:(by vm_compute) ltac:(by vm_compute) ltac:(by vm_compute)
           0%nat 0%nat 0 0
           {| c_name := lit "9700_case00001"; c_launched := 0;
              c_behaviour := quick; c_state := Started |} line1_line2 after_exit).
  - reflexivity.
  - discriminate.
  - reflexivity.
  - lia.
  - reflexivity.
  - by vm_compute.
Defined.

Lemma undecodable_output_aborts_the_monitor_witness :
  monitor 1 (caller_args 3600 false) log_name (lit "00001") 0 0 0 at_first_tick =
  (Raise UnicodeDecodeError,
   write_log log_name [] (add_event (EvLogs 0) (add_event EvList at_first_tick))).
Proof.
  apply (undecodable_output_aborts_the_monitor (caller_args 3600 false) log_name
           (lit "00001") 3600 ltac:(by vm_compute) 0%nat 0%nat 0 0
           {| c_name := lit "9700_case00001"; c_launched := 0;
              c_behaviour := binary_printer; c_state := Started |} at_first_tick).
  - reflexivity.
  - reflexivity.
  - vm_compute. discriminate.
  - reflexivity.
  - by vm_compute.
Defined.

(** X21.  A quota that came from the command line breaks the monitor at its
    first comparison, whether the instance is live or not: the option
    has no [type], so the quota is a [str], or [None] when the option is
    left out, and ordering a number against either raises [TypeError].
    Nothing is drained, stopped or removed. *)
Theorem cli_quota_breaks_the_monitor
    fuel sid repo digest input cfg rt st parent status fn case_id cid start w :
  monitor (S fuel) (parse_args sid repo digest input cfg rt st parent status)
    fn case_id cid start 0 w =
  (Raise TypeError, add_event EvList w).
Proof.
  pose proof (cli_runtime_quota sid repo digest input cfg rt st parent status) as Hq.
  unfold monitor.
  assert (poll (S fuel) (parse_args sid repo digest input cfg rt st parent status)
            fn cid start 0 w = (Raise TypeError, add_event EvList w) \/
          poll (S fuel) (parse_args sid repo digest input cfg rt st parent status)
            fn cid start 0 w = (Ok 0, add_event EvList w)) as [Hp|Hp].
  { cbn [poll]. step (containers_list_run w). destruct (bool_decide _); [left|by right].
    step (time_time_run (add_event EvList w)).
    step (getattr_run _ "runtime_quota" _ (add_event EvList w) Hq).
    by destruct rt. }
  - by rewrite (bind_raise _ _ _ _ _ Hp).
  - step Hp. step (getattr_run _ "runtime_quota" _ (add_event EvList w) Hq).
    by destruct rt.
Qed.

Lemma tick_under_quota_drains_and_sleeps_witness :
  exists w',
    poll 1 (caller_args 3600 false) log_name 0 0 0 at_tick_120 =
    poll 0 (caller_args 3600 false) log_name 0 0 (w_clock at_tick_120 - 0) w' /\
    w_clock w' = w_clock at_tick_120 + 60 /\
    w_cwd w' !! log_name = Some (File (ascii_ignore (lit "busy"))) /\
    w_containers w' = w_containers at_tick_120 /\
    count_events is_logs w' = S (count_events is_logs at_tick_120) /\
    count_events is_sleep w' = S (count_events is_sleep at_tick_120) /\
    count_events (is_stop_of 0) w' = count_events (is_stop_of 0) at_tick_120.
Proof.
  apply (tick_under_quota_drains_and_sleeps (caller_args 3600 false) log_name
           3600 (PyStr (lit "syn1")) (PyBool false)
           ltac:(by vm_compute) ltac:(by vm_compute) ltac:(by vm_compute)
           0%nat 0%nat 0 0
           {| c_name := lit "9700_case00001"; c_launched := 0;
              c_behaviour := runs_forever; c_state := Started |} (lit "busy") at_tick_120).
  - reflexivity.
  - reflexivity.
  - vm_compute. discriminate.
  - reflexivity.
  - by vm_compute.
Defined.

(** ** One case, continued *)

Lemma deposit_lookup names : forall m k,
  deposit names m !! k = Some (File []) \/ deposit names m !! k = m !! k.
Proof.
  unfold deposit. induction names as [|n names IH]; intros m k; [by right|].
  cbn [foldl]. destruct (IH (<[n := File []]> m) k) as [H|H]; [by left|].
  rewrite H. destruct (decide (n = k)) as [->|Hne].
  - left. apply lookup_insert_eq.
  - right. by apply lookup_insert_ne.
Qed.

Lemma deposit_writable names w fn :
  writable w fn = true -> writable (set_cwd (deposit names) w) fn = true.
Proof.
  unfold writable, set_cwd. cbn [w_cwd]. intros Hw.
  destruct (deposit_lookup names (w_cwd w) fn) as [-> | ->]; done.
Qed.

(** X22.  An instance that starts, prints nothing and has exited by the first
    check, in a run where no launch has failed before: the log file is
    empty after the monitor, so the branch for a failed launch is taken
    and its read of [errors], which nothing has assigned, raises
    [UnboundLocalError].  The container has been removed by then. *)
Theorem silent_instance_raises_unbound_errors
    fuel (args : gmap string pyval) image out case_folder case_id vars w
    sid sub q parentid store b d :
  args !! "subissionid" = Some sid ->
  args !! "submissionid" = Some (PyStr sub) ->
  args !! "runtime_quota" = Some (PyInt q) ->
  0 <= q ->
  args !! "parentid" = Some parentid ->
  args !! "store" = Some store ->
  h_run (w_host w) (w_launches w) (py_str sid ++ lit "_case" ++ case_id) = RunStarts b ->
  b_exit_after b = Some d ->
  d <= 0 ->
  (forall t, b_output b t = []) ->
  writable w (sub ++ lit "_log.txt") = true ->
  l_errors vars = None ->
  let r := case_body (S fuel) args image out (case_folder, case_id) vars w in
  r.1 = Raise (UnboundLocalError "errors") /\
  w_cwd r.2 !! (sub ++ lit "_log.txt") = Some (File []) /\
  count_events is_run r.2 = S (count_events is_run w) /\
  c_state <$> (w_containers r.2 !! length (w_containers w)) = Some Removed.
Proof.
  intros Hsid Hsub Hquota Hq Hparent Hstore Hrun Hexit Hd Hout Hw Hnone.
  cbv zeta. unfold case_body.
  step (print_run (lit "mounting volumes") w).
  set (w1 := add_event _ w).
  step (print_run (lit "running container") w1).
  set (w2 := add_event _ w1).
  step (time_time_run w2).
  step (getattr_run args "subissionid" _ w2 Hsid).
  set (name := py_str sid ++ lit "_case" ++ case_id).
  set (volumes := format_volumes out case_folder).
  set (c := {| c_name := name; c_launched := w_clock w; c_behaviour := b;
               c_state := Started |}).
  set (w3 := set_cwd (deposit (b_results b))
               (set_containers (w_containers w ++ [c])
                  (add_event (EvRun image name volumes)
                     (set_launches (S (w_launches w)) w2)))).
  set (cid := length (w_containers w)).
  assert (containers_run image name volumes w2 = (Ok cid, w3)) as Hstart.
  { unfold containers_run.
    change (h_run (w_host w2) (w_launches w2) name)
      with (h_run (w_host w) (w_launches w) (py_str sid ++ lit "_case" ++ case_id)).
    by rewrite Hrun. }
  match goal with
  | |- context [try_except ?m ?sel ?h] =>
      assert (try_except m sel h w2
              = (Ok {| l_container := Some cid; l_errors := l_errors vars |}, w3))
        as Htry
  end.
  { unfold try_except. by step Hstart. }
  step Htry.
  step (print_run (lit "creating logfile") w3).
  set (w4 := add_event _ w3).
  step (getattr_run args "submissionid" _ w4 Hsub).
  unfold py_concat, lift. step (ret_run (sub ++ lit "_log.txt") w4).
  set (fn := sub ++ lit "_log.txt") in *.
  assert (writable w4 fn = true) as Hw4 by (by apply (deposit_writable _ _ _ Hw)).
  set (w5 := set_cwd (insert fn (File [])) w4).
  assert (open_w fn w4 = (Ok tt, w5)) as Hopen.
  { unfold open_w. unfold writable in Hw4. by destruct (w_cwd w4 !! fn) as [[]|]. }
  step Hopen. cbn [l_container read_local].
  step (ret_run cid w5).
  assert (w_containers w5 !! cid = Some c) as Hc
    by (apply (list_lookup_middle (w_containers w) [] c); done).
  assert (live_at (w_clock w5) c = false) as Hl.
  { unfold live_at. cbn [c_state c c_behaviour c_launched]. rewrite Hexit.
    change (w_clock w5) with (w_clock w). rewrite Z.sub_diag. apply Z.ltb_ge. lia. }
  assert (writable w5 fn = true) as Hw5.
  { unfold writable, w5, set_cwd. cbn [w_cwd]. by rewrite lookup_insert_eq. }
  assert (utf8_decode (b_output (c_behaviour c) (observed (w_clock w5) c)) = Some [])
    as Hdec by (cbn [c_behaviour c]; by rewrite Hout).
  destruct (monitor_of_exited_instance args fn case_id q parentid store
              Hquota Hparent Hstore fuel cid (w_clock w2) 0 c [] w5
              Hc ltac:(done) Hl Hq Hw5 Hdec)
    as (Hok & Hfile & Hlogs & _ & _ & _ & Hremoved & Hruns).
  destruct (monitor (S fuel) args fn case_id cid (w_clock w2) 0 w5) as [o w6] eqn:E6.
  cbn [fst snd] in *. subst o. step E6.
  assert (os_stat_size fn w6 = (Ok 0, w6)) as Hsize
    by (unfold os_stat_size; by rewrite Hfile).
  step Hsize. cbn [Z.eqb l_errors]. rewrite Hnone. cbn [read_local].
  rewrite (bind_raise _ _ _ _ _ (bind_raise _ _ _ _ _ (raise_run _ w6))).
  cbn [fst snd]. split; [done|]. split; [done|]. split; [|done].
  rewrite Hruns. unfold w5, w4, w3, w2, w1.
  change (count_events ?p (set_cwd ?f ?x)) with (count_events p x).
  count_trace.
  change (count_events ?p (set_cwd ?f ?x)) with (count_events p x).
  count_trace.
  change (count_events ?p (set_launches ?n ?x)) with (count_events p x).
  count_trace. cbn [is_run]. lia.
Qed.
Lemma silent_instance_raises_unbound_errors_witness :
  let w := boot (host_with (only_at (lit "/in") one_case) (fun _ _ => RunStarts silent)) ∅ in
  let r := case_body 1 (caller_args 3600 false) (lit "repo@sha256:ab") (lit "/work")
             (lit "/in/BraTS2021_00001", lit "00001") fresh_locals w in
  r.1 = Raise (UnboundLocalError "errors") /\
  w_cwd r.2 !! (lit "9700" ++ lit "_log.txt") = Some (File []) /\
  count_events is_run r.2 = S (count_events is_run w) /\
  c_state <$> (w_containers r.2 !! length (w_containers w)) = Some Removed.
Proof.
  intros w.
  apply (silent_instance_raises_unbound_errors 0 (caller_args 3600 false)
           (lit "repo@sha256:ab") (lit "/work") (lit "/in/BraTS2021_00001") (lit "00001")
           fresh_locals w (PyStr (lit "9700")) (lit "9700") 3600 (PyStr (lit "syn1"))
           (PyBool false) silent 0).
  - by vm_compute.
  - by vm_compute.
  - by vm_compute.
  - lia.
  - by vm_compute.
  - by vm_compute.
  - reflexivity.
  - reflexivity.
  - lia.
  - reflexivity.
  - reflexivity.
  - reflexivity.
Defined.

Lemma launch_failure_with_unbound_handle_witness :
  let w := boot (host_with (only_at (lit "/in") one_case) failing_runtime) ∅ in
  let name := py_str (PyStr (lit "9700")) ++ lit "_case" ++ lit "00001" in
  let r := case_body 1 (caller_args 3600 false) (lit "repo@sha256:ab") (lit "/work")
             (lit "/in/BraTS2021_00001", lit "00001") fresh_locals w in
  r.1 = Raise (UnboundLocalError "container") /\
  count_events (is_cleanup_of name) r.2 = S (count_events (is_cleanup_of name) w) /\
  count_events is_run r.2 = S (count_events is_run w).
Proof.
  intros w.
  apply (launch_failure_with_unbound_handle 1 (caller_args 3600 false)
           (lit "repo@sha256:ab") (lit "/work") (lit "/in/BraTS2021_00001") (lit "00001")
           fresh_locals w (PyStr (lit "9700")) (lit "9700")
           (lit "500 Server Error: image not found") false).
  - by vm_compute.
  - by vm_compute.
  - reflexivity.
  - reflexivity.
  - reflexivity.
Defined.

(** ** Case enumeration, continued *)

Lemma case_units_flat_witness :
  let es := [(lit "BraTS2021_00001", Dir [(lit "t1.nii.gz", File [])]);
             (lit "BraTS2021_00002", Dir [(lit "t1.nii.gz", File [])])] in
  let units := case_units (walk (lit "/in") (Dir es)) in
  units = map (fun sub_dir => (path_join (lit "/in") sub_dir,
                               last_chars 5 (path_join (lit "/in") sub_dir)))
            (subdirs es) /\
  length units = length (subdirs es) /\
  Forall (fun u => u.2 <> [] /\ u.2 = last_chars 5 u.1) units.
Proof.
  intros es.
  apply (case_units_flat (lit "/in") es).
  - intros name sub Hin. apply list_elem_of_In in Hin.
    destruct Hin as [[= <- <-]|[[= <- <-]|[]]]; reflexivity.
  - repeat constructor; discriminate.
Defined.

(** ** Cleanup, continued *)


(** X24.  A failing image removal is reported by one printed line after the
    attempt; a successful one leaves the attempt alone in the trace. *)
Theorem image_removal_is_reported image_name w :
  w_trace (remove_docker_image image_name w).2 =
  w_trace w ++ EvRemoveImage image_name ::
    match h_rmi (w_host w) with
    | Some _ => [EvPrint (lit "Unable to remove image")]
    | None => []
    end.
Proof.
  unfold remove_docker_image, images_remove, print. run. cbn.
  destruct (h_rmi (w_host w)); cbn; [by rewrite <- app_assoc|done].
Qed.

(** ** The archive *)



(** ** The output collector, continued *)

(** X26.  What the collector leaves alone: an entry of the working directory
    that does not match [*.nii.gz] and is neither the staging directory
    nor the archive is where it was, with the content it had.  The log
    file of the run is such an entry: it is neither moved nor
    archived. *)
Theorem collect_outputs_keeps_the_rest w k :
  w_cwd w !! predictions = None ->
  writable w predictions_tar_gz = true ->
  (forall n, n ∈ matches (w_cwd w) -> slash ∉ n) ->
  glob_match nii_gz k = false ->
  k <> predictions ->
  k <> predictions_tar_gz ->
  w_cwd (collect_outputs w).2 !! k = w_cwd w !! k.
Proof.
  intros Hp Hwr Hslash Hk Hkp Hkt. unfold collect_outputs.
  rewrite (bind_ok _ _ _ _ _ (glob_star_nii w)).
  destruct (matches (w_cwd w)) as [|n0 found] eqn:Hm; [done|].
  rewrite <- Hm in Hslash.
  set (w1 := set_cwd (insert predictions (Dir [])) w).
  assert (os_mkdir predictions w = (Ok tt, w1)) as Hmk
    by (unfold os_mkdir; by rewrite Hp).
  rewrite (bind_ok _ _ _ _ _ Hmk), (bind_ok _ _ _ _ _ (glob_star_nii w1)).
  assert (matches (w_cwd w1) ≡ₚ matches (w_cwd w)) as Hperm
    by (by apply matches_insert_staging).
  destruct (for_each_rename_into_staging (matches (w_cwd w1)) w1 [])
    as (w2 & Hrun & Htr & Hdir & Hgone & Hkeep).
  - apply matches_NoDup.
  - intros n Hn. assert (n ∈ matches (w_cwd w)) as Hn' by (by rewrite <- Hperm).
    apply matches_spec in Hn as [Hsome Hg]. repeat split; try done.
    + intros ->. by vm_compute in Hg.
    + by apply Hslash.
    + cbn. apply not_elem_of_nil.
  - unfold w1, set_cwd. cbn [w_cwd]. apply lookup_insert_eq.
  - rewrite (bind_ok _ _ _ _ _ Hrun). cbn [app] in Hdir.
    assert (forall j, glob_match nii_gz j = false -> j <> predictions ->
                      w_cwd w2 !! j = w_cwd w !! j) as Hframe.
    { intros j Hj Hjp. rewrite Hkeep.
      - unfold w1, set_cwd. cbn [w_cwd]. by rewrite lookup_insert_ne.
      - intros Hin. apply matches_spec in Hin as [_ Hg]. by rewrite Hj in Hg.
      - done. }
    rewrite (tar_ok predictions predictions_tar_gz _ w2
               ltac:(unfold writable in *; rewrite Hframe; [done|by vm_compute|done])
               Hdir ltac:(done)).
    cbn [snd]. unfold set_cwd. cbn [w_cwd].
    rewrite lookup_insert_ne by done. by apply Hframe.
Qed.

Lemma collect_outputs_keeps_the_rest_witness :
  let w := boot (host_with (fun _ => None) failing_runtime) two_results in
  w_cwd (collect_outputs w).2 !! lit "9700_log.txt" = w_cwd w !! lit "9700_log.txt".
Proof.
  intros w. apply (collect_outputs_keeps_the_rest w (lit "9700_log.txt")).
  - reflexivity.
  - reflexivity.
  - apply no_slash_check. by vm_compute.
  - by vm_compute.
  - discriminate.
  - discriminate.
Defined.
